(** * Rock Paper Scissors LAN App: session protocol and round engine

    A shallow embedding of the networking and game-state parts of
    [src/rps_app.py] (classes [Network], [Server], [Client] and the
    game-state methods of [App]), with the properties of the peer-discovery,
    session-protocol and round-resolution state machine proved about it.

    Conventions of the embedding.
    - A Python [bytes] value is a [string] (a list of 8-bit characters).
    - A Python [str] is represented by its UTF-8 encoding, so [encode] is
      the identity and [decode] is the validity check of the strict UTF-8
      codec. Splitting on [","] and comparing strings agree on both sides
      of that representation.
    - A Python [int] is a [Z]; a field that may hold [None] is an [option].
    - GUI calls, socket writes and socket closes are appended to an
      [effects] log; [gui.after(0, f, args)] appends a callback to the
      [pending] queue that the GUI thread runs later.
    - A Python exception is a [Raised] result carrying the state reached
      when it was raised.
    - A GUI handler, a scheduled callback and one iteration of a worker's
      receive loop each run as one step; the threads interleave between
      steps. [event_rps_chosen] is given in two parts as well, for the
      schedules in which the worker runs while that handler is under way.
    - Writes to a connected socket succeed; the [sendto] of [stop_listen]
      fails when [local_ip] is not an address. What a receive returns
      (data, end of stream, timeout, error), what the address probe
      finds, and whether [Server.start] and [Client.start] get their
      sockets are inputs of the model. *)

From Stdlib Require Import ZArith String Ascii List Lia Bool.
From stdpp Require Import base gmap strings list pretty.
Import ListNotations.
Local Open Scope string_scope.
Local Open Scope Z_scope.

(** ** Python values *)

Module Py.

(** Truth value of [None] or a [str]: [None] and [""] are false. *)
Definition truthy_str (o : option string) : bool :=
  match o with
  | Some s => negb (String.eqb s "")
  | None => false
  end.

(** Truth value of [None] or an [int]: [None] and [0] are false. *)
Definition truthy_int (o : option Z) : bool :=
  match o with
  | Some n => negb (n =? 0)
  | None => false
  end.

(** [data.startswith(p)] *)
Fixpoint startswith (data p : string) {struct p} : bool :=
  match p with
  | EmptyString => true
  | String c p' =>
      match data with
      | String d data' => if Ascii.eqb c d then startswith data' p' else false
      | EmptyString => false
      end
  end.

(** [data[n:]] *)
Fixpoint slice_from (n : nat) (data : string) : string :=
  match n, data with
  | O, _ => data
  | S _, EmptyString => EmptyString
  | S k, String _ r => slice_from k r
  end.

(** [s.split(',')]: one more field than there are commas; the empty
    string has the single field [""]. *)
Fixpoint split_comma (s : string) : list string :=
  match s with
  | EmptyString => [EmptyString]
  | String c r =>
      if Ascii.eqb c ","%char then EmptyString :: split_comma r
      else match split_comma r with
           | h :: t => String c h :: t
           | [] => [String c EmptyString]
           end
  end.

(** *** The strict UTF-8 codec

    [bytes.decode('utf-8')] raises [UnicodeDecodeError] unless the bytes
    are well-formed UTF-8 (no overlong forms, no surrogates, nothing
    above U+10FFFF). The automaton below is the well-formedness table of
    the Unicode standard: after a lead byte, [Cont n lo hi] expects a
    byte in [lo..hi] and then [n] further continuation bytes. *)

Inductive utf8_state : Type :=
| Start
| Cont (n : nat) (lo hi : Z).

Definition byte_val (c : ascii) : Z := Z.of_N (N_of_ascii c).

Definition in_range (b lo hi : Z) : bool := (lo <=? b) && (b <=? hi).

Definition utf8_step (st : utf8_state) (b : Z) : option utf8_state :=
  match st with
  | Start =>
      if b <=? 127 then Some Start
      else if in_range b 194 223 then Some (Cont 0 128 191)
      else if b =? 224 then Some (Cont 1 160 191)
      else if in_range b 225 236 then Some (Cont 1 128 191)
      else if b =? 237 then Some (Cont 1 128 159)
      else if in_range b 238 239 then Some (Cont 1 128 191)
      else if b =? 240 then Some (Cont 2 144 191)
      else if in_range b 241 243 then Some (Cont 2 128 191)
      else if b =? 244 then Some (Cont 2 128 143)
      else None
  | Cont n lo hi =>
      if in_range b lo hi then
        match n with
        | O => Some Start
        | S k => Some (Cont k 128 191)
        end
      else None
  end.

Fixpoint utf8_run (st : utf8_state) (s : string) : bool :=
  match s with
  | EmptyString => match st with Start => true | Cont _ _ _ => false end
  | String c r =>
      match utf8_step st (byte_val c) with
      | Some st' => utf8_run st' r
      | None => false
      end
  end.

(** [data.decode('utf-8')]: [None] stands for [UnicodeDecodeError]. *)
Definition decode (data : string) : option string :=
  if utf8_run Start data then Some data else None.

(** [s.encode('utf-8')] *)
Definition encode (s : string) : string := s.

(** *** Splitting and joining on a character *)

(** [s.split(c)] for a one-character separator. *)
Fixpoint split_char (c : ascii) (s : string) : list string :=
  match s with
  | EmptyString => [EmptyString]
  | String d r =>
      if Ascii.eqb d c then EmptyString :: split_char c r
      else match split_char c r with
           | h :: t => String d h :: t
           | [] => [String d EmptyString]
           end
  end.

(** [sep.join(parts)] *)
Fixpoint join (sep : string) (parts : list string) : string :=
  match parts with
  | [] => EmptyString
  | [x] => x
  | x :: rest => x ++ sep ++ join sep rest
  end.

(** [c in s] *)
Fixpoint has_char (c : ascii) (s : string) : bool :=
  match s with
  | EmptyString => false
  | String d r => Ascii.eqb d c || has_char c r
  end.

(** [needle in hay] for strings. *)
Fixpoint contains (hay needle : string) : bool :=
  startswith hay needle
  || match hay with
     | EmptyString => false
     | String _ r => contains r needle
     end.

(** 7-bit text: every byte is below 128. *)
Fixpoint is_ascii (s : string) : bool :=
  match s with
  | EmptyString => true
  | String d r => (byte_val d <=? 127) && is_ascii r
  end.

End Py.

(** ** Data model *)

(** [App.user_profile]: the dict built at login. Only the entries the game
    logic reads or writes are kept. *)
Record Profile : Type := mkProfile {
  username : string;
  wins : Z;
  loses : Z;
  ties : Z
}.

(** Text written to the main textbox, the status textbox or a message box.
    The wording of the source is kept as a constructor per message, with
    the interpolated values as arguments. *)
Inductive Text : Type :=
| TxtChat (msg : string)                       (* a chat line, verbatim *)
| TxtAscii (player opponent : option string)   (* gui.ascii_results(...) *)
| TxtRound (current total : option Z)          (* "Round c / t" banner *)
| TxtVersus (me : string) (peer : option string) (current total : option Z)
| TxtWaiting (peer : option string)            (* "Waiting for <peer>..." *)
| TxtHasChosen (peer : option string)          (* "<peer> has chosen..." *)
| TxtDroppedOut (peer : option string) (rounds : Z)
| TxtForfeited (rounds : Z)
| TxtThanks                                    (* "Rounds completed ..." *)
| TxtConnected (local_ip peer_ip : string)
| TxtTerminated                                (* "Connection terminated" *)
| TxtHosting.                                  (* "Hosting at: ..." *)

(** The sockets of the program. *)
Inductive Sock : Type :=
| ServerSocket          (* Server.server_socket, the listening socket *)
| ServerClientSocket    (* Server.client_socket, the accepted connection *)
| ServerUdpSocket       (* Server.udp_socket, the broadcast listener *)
| ClientSocket          (* Client.client_socket *)
| ClientUdpSocket       (* udp_socket of Client.start *)
| DiscoverUdpSocket.    (* udp_socket of Network.discover_servers *)

(** Functions handed to [gui.after(0, ...)], with their arguments. *)
Inductive Callback : Type :=
| CbNetworkConnected (peer_ip : string)
| CbNetworkDisconnected
| CbNetworkChat (msg : Text) (type : string)
| CbDetermineResults
| CbDropoutResolution (actor : string)
| CbLaunchServer.

(** Observable actions, in the order they happen. *)
Inductive Effect : Type :=
| Send (s : Sock) (data : string)                       (* s.send(data) *)
| SendTo (s : Sock) (data : string) (ip : string) (port : Z)
| Close (s : Sock)                                      (* s.close() *)
| MainTextbox (msg : Text) (type : string)   (* gui.update_main_textbox *)
| StatusTextbox (msg : Text)                 (* gui.update_status_textbox *)
| RpsButton (state : string)       (* game_rps_button.configure(state=) *)
| RpsSet (value : string)                    (* game_rps_button.set(...) *)
| GameState (state : string)                 (* gui.update_game_state *)
| LobbyState (state : string)                (* gui.update_lobby_state *)
| ProfileStats (w l t : Z)                   (* App.update_profile_stats *)
| MessageBox (title : string)                (* CTkMessagebox(title=...) *)
| SaveProfileStats
| GuiDestroy
| ShowLoginScreen.

(** Python exceptions that the modelled code can raise. *)
Inductive Exc : Type :=
| KeyError
| TypeError
| UnicodeDecodeError
| OSError.

(** The fields of [App], [Server] and [Network] that the session logic
    reads or writes, the liveness of the three worker threads
    ([Thread.is_alive()]), the queue of [gui.after] callbacks and the log
    of effects. *)
Record App : Type := mkApp {
  user_profile : option Profile;
  opponent_username : option string;
  player_choice : option string;
  opponent_choice : option string;
  total_rounds : option Z;
  current_round : option Z;
  allow_gui_update : bool;
  broadcast_thread_alive : bool;
  server_thread_alive : bool;
  client_thread_alive : bool;
  client_connected : bool;              (* Server.client_connected *)
  local_ip : string;                    (* Network.local_ip *)
  broadcast_address : option string;    (* Network.broadcast_address *)
  server_port : Z;                      (* Network.server_port *)
  broadcast_port : Z;                   (* Network.broadcast_port *)
  pending : list Callback;
  effects : list Effect
}.

(** Result of a method call: it returns, or raises with the state as it
    was when the exception left the method. *)
Inductive Res : Type :=
| Done (st : App)
| Raised (e : Exc) (st : App).

Definition state_of (r : Res) : App :=
  match r with
  | Done st => st
  | Raised _ st => st
  end.

Definition bind (r : Res) (k : App -> Res) : Res :=
  match r with
  | Done st => k st
  | Raised e st => Raised e st
  end.

Notation "r >>= k" := (bind r k) (at level 50, left associativity).

(** *** Field updates *)

Definition set_user_profile (v : option Profile) (a : App) : App :=
  mkApp v (opponent_username a) (player_choice a) (opponent_choice a)
    (total_rounds a) (current_round a) (allow_gui_update a)
    (broadcast_thread_alive a) (server_thread_alive a)
    (client_thread_alive a) (client_connected a) (local_ip a)
    (broadcast_address a) (server_port a) (broadcast_port a) (pending a)
    (effects a).

Definition set_opponent_username (v : option string) (a : App) : App :=
  mkApp (user_profile a) v (player_choice a) (opponent_choice a)
    (total_rounds a) (current_round a) (allow_gui_update a)
    (broadcast_thread_alive a) (server_thread_alive a)
    (client_thread_alive a) (client_connected a) (local_ip a)
    (broadcast_address a) (server_port a) (broadcast_port a) (pending a)
    (effects a).

Definition set_player_choice (v : option string) (a : App) : App :=
  mkApp (user_profile a) (opponent_username a) v (opponent_choice a)
    (total_rounds a) (current_round a) (allow_gui_update a)
    (broadcast_thread_alive a) (server_thread_alive a)
    (client_thread_alive a) (client_connected a) (local_ip a)
    (broadcast_address a) (server_port a) (broadcast_port a) (pending a)
    (effects a).

Definition set_opponent_choice (v : option string) (a : App) : App :=
  mkApp (user_profile a) (opponent_username a) (player_choice a) v
    (total_rounds a) (current_round a) (allow_gui_update a)
    (broadcast_thread_alive a) (server_thread_alive a)
    (client_thread_alive a) (client_connected a) (local_ip a)
    (broadcast_address a) (server_port a) (broadcast_port a) (pending a)
    (effects a).

Definition set_total_rounds (v : option Z) (a : App) : App :=
  mkApp (user_profile a) (opponent_username a) (player_choice a)
    (opponent_choice a) v (current_round a) (allow_gui_update a)
    (broadcast_thread_alive a) (server_thread_alive a)
    (client_thread_alive a) (client_connected a) (local_ip a)
    (broadcast_address a) (server_port a) (broadcast_port a) (pending a)
    (effects a).

Definition set_current_round (v : option Z) (a : App) : App :=
  mkApp (user_profile a) (opponent_username a) (player_choice a)
    (opponent_choice a) (total_rounds a) v (allow_gui_update a)
    (broadcast_thread_alive a) (server_thread_alive a)
    (client_thread_alive a) (client_connected a) (local_ip a)
    (broadcast_address a) (server_port a) (broadcast_port a) (pending a)
    (effects a).

Definition set_allow_gui_update (v : bool) (a : App) : App :=
  mkApp (user_profile a) (opponent_username a) (player_choice a)
    (opponent_choice a) (total_rounds a) (current_round a) v
    (broadcast_thread_alive a) (server_thread_alive a)
    (client_thread_alive a) (client_connected a) (local_ip a)
    (broadcast_address a) (server_port a) (broadcast_port a) (pending a)
    (effects a).

Definition set_broadcast_thread_alive (v : bool) (a : App) : App :=
  mkApp (user_profile a) (opponent_username a) (player_choice a)
    (opponent_choice a) (total_rounds a) (current_round a)
    (allow_gui_update a) v (server_thread_alive a)
    (client_thread_alive a) (client_connected a) (local_ip a)
    (broadcast_address a) (server_port a) (broadcast_port a) (pending a)
    (effects a).

Definition set_server_thread_alive (v : bool) (a : App) : App :=
  mkApp (user_profile a) (opponent_username a) (player_choice a)
    (opponent_choice a) (total_rounds a) (current_round a)
    (allow_gui_update a) (broadcast_thread_alive a) v
    (client_thread_alive a) (client_connected a) (local_ip a)
    (broadcast_address a) (server_port a) (broadcast_port a) (pending a)
    (effects a).

Definition set_client_thread_alive (v : bool) (a : App) : App :=
  mkApp (user_profile a) (opponent_username a) (player_choice a)
    (opponent_choice a) (total_rounds a) (current_round a)
    (allow_gui_update a) (broadcast_thread_alive a)
    (server_thread_alive a) v (client_connected a) (local_ip a)
    (broadcast_address a) (server_port a) (broadcast_port a) (pending a)
    (effects a).

Definition set_client_connected (v : bool) (a : App) : App :=
  mkApp (user_profile a) (opponent_username a) (player_choice a)
    (opponent_choice a) (total_rounds a) (current_round a)
    (allow_gui_update a) (broadcast_thread_alive a)
    (server_thread_alive a) (client_thread_alive a) v (local_ip a)
    (broadcast_address a) (server_port a) (broadcast_port a) (pending a)
    (effects a).

(** [gui.after(0, cb)]: the callback joins the queue of the GUI thread. *)
Definition after (cb : Callback) (a : App) : App :=
  mkApp (user_profile a) (opponent_username a) (player_choice a)
    (opponent_choice a) (total_rounds a) (current_round a)
    (allow_gui_update a) (broadcast_thread_alive a)
    (server_thread_alive a) (client_thread_alive a) (client_connected a)
    (local_ip a) (broadcast_address a) (server_port a) (broadcast_port a)
    (pending a ++ [cb]) (effects a).

Definition set_pending (q : list Callback) (a : App) : App :=
  mkApp (user_profile a) (opponent_username a) (player_choice a)
    (opponent_choice a) (total_rounds a) (current_round a)
    (allow_gui_update a) (broadcast_thread_alive a)
    (server_thread_alive a) (client_thread_alive a) (client_connected a)
    (local_ip a) (broadcast_address a) (server_port a) (broadcast_port a)
    q (effects a).

(** One more observable action. *)
Definition emit (e : Effect) (a : App) : App :=
  mkApp (user_profile a) (opponent_username a) (player_choice a)
    (opponent_choice a) (total_rounds a) (current_round a)
    (allow_gui_update a) (broadcast_thread_alive a)
    (server_thread_alive a) (client_thread_alive a) (client_connected a)
    (local_ip a) (broadcast_address a) (server_port a) (broadcast_port a)
    (pending a) (effects a ++ [e]).

(** ** GUI helpers ([Gui] methods used by the session logic) *)

(** [Gui.update_game_state(state)]: the choice buttons, then the chat
    widgets. *)
Definition update_game_state (state : string) (a : App) : App :=
  emit (GameState state) (emit (RpsSet "unselect") (emit (RpsButton state) a)).

Definition update_lobby_state (state : string) (a : App) : App :=
  emit (LobbyState state) a.

(** ** [Server.stop], [Client.stop], [Server.stop_listen] *)

Definition Server_stop (game_state : string) (a : App) : App :=
  if client_connected a
  then emit (Send ServerClientSocket ("DISCONNECT" ++ Py.encode game_state)) a
  else emit (Close ServerSocket) a.

Definition Client_stop (game_state : string) (a : App) : App :=
  emit (Send ClientSocket ("DISCONNECT" ++ Py.encode game_state)) a.

(** [stop_listen()]. [sendto] raises when [local_ip] is not an address,
    which is the "No IP Found" that [get_local_ip] stores when its probe
    fails; the [except] clause then shows a message box and nothing is
    sent. *)
Definition Server_stop_listen (a : App) : App :=
  if String.eqb (local_ip a) "No IP Found"
  then emit (MessageBox "Error Cancelling Hosting") a
  else emit (SendTo ServerUdpSocket "DISCONNECT" (local_ip a)
               (broadcast_port a)) a.

(** ** Game-state methods of [App] *)

(** The dict [choices] of [determine_results]. *)
Definition choices : gmap string Z :=
  <["Rock" := 0]> (<["Paper" := 1]> (<["Scissors" := 2]> ∅)).

(** [choices[x]] where [x] is a field that may hold [None]: a missing key
    is a [KeyError]. *)
Definition choices_at (x : option string) : option Z :=
  match x with
  | Some k => choices !! k
  | None => None
  end.

Definition network_chat (msg : Text) (type : string) (a : App) : App :=
  emit (MainTextbox msg type) a.

Definition update_profile_stats (a : App) : Res :=
  match user_profile a with
  | Some p => Done (emit (ProfileStats (wins p) (loses p) (ties p)) a)
  | None => Raised TypeError a
  end.

(** [self.user_profile[key] += n] for the three counters. *)
Definition add_ties (n : Z) (p : Profile) : Profile :=
  mkProfile (username p) (wins p) (loses p) (ties p + n).
Definition add_wins (n : Z) (p : Profile) : Profile :=
  mkProfile (username p) (wins p + n) (loses p) (ties p).
Definition add_loses (n : Z) (p : Profile) : Profile :=
  mkProfile (username p) (wins p) (loses p + n) (ties p).

Definition bump (f : Profile -> Profile) (a : App) : Res :=
  match user_profile a with
  | Some p => Done (set_user_profile (Some (f p)) a)
  | None => Raised TypeError a
  end.

(** The second half of [determine_results]: next round, or game complete. *)
Definition advance_round (a : App) : Res :=
  match current_round a, total_rounds a with
  | Some c, Some t =>
      if c <? t then
        let a1 := set_current_round (Some (c + 1)) a in
        let a2 := emit (MainTextbox (TxtRound (current_round a1) (total_rounds a1))
                          "system_chat") a1 in
        let a3 := emit (RpsSet "unselect") (emit (RpsButton "normal") a2) in
        Done (set_opponent_choice None (set_player_choice None a3))
      else
        Done (if server_thread_alive a then Server_stop "game_complete" a else a)
  | _, _ => Raised TypeError a
  end.

Definition determine_results (a : App) : Res :=
  match choices_at (player_choice a), choices_at (opponent_choice a) with
  | Some p, Some o =>
      let result := (p - o) mod 3 in
      bump (if result =? 0 then add_ties 1
            else if result =? 1 then add_wins 1
            else add_loses 1) a
      >>= update_profile_stats
      >>= (fun a1 =>
             Done (network_chat (TxtAscii (player_choice a1) (opponent_choice a1))
                     "system_chat" a1))
      >>= advance_round
  | _, _ => Raised KeyError a
  end.

Definition dropout_resolution (actor : string) (a : App) : Res :=
  match total_rounds a, current_round a with
  | Some t, Some c =>
      let rounds := t - (c - 1) in
      if String.eqb actor "player" then
        bump (add_wins rounds) a
        >>= (fun a1 =>
               Done (emit (MainTextbox (TxtDroppedOut (opponent_username a1) rounds)
                             "system_chat") a1))
        >>= update_profile_stats
      else if String.eqb actor "quitter" then
        bump (add_loses rounds) a
        >>= (fun a1 =>
               Done (emit (MainTextbox (TxtForfeited rounds) "system_chat") a1))
        >>= update_profile_stats
      else Done a
  | _, _ => Raised TypeError a
  end.

(** The peer socket of whichever worker thread is alive, as the
    [if self.server_thread ... elif self.client_thread ...] chains pick it. *)
Definition send_to_peer (data : string) (a : App) : App :=
  if server_thread_alive a then emit (Send ServerClientSocket data) a
  else if client_thread_alive a then emit (Send ClientSocket data) a
  else a.

Definition event_rps_chosen (value : string) (a : App) : Res :=
  let a1 := emit (RpsButton "disabled") a in
  let a2 := set_player_choice (Some value) a1 in
  let a3 := send_to_peer ("GAME" ++ Py.encode value) a2 in
  if Py.truthy_str (opponent_choice a3) then determine_results a3
  else Done (network_chat (TxtWaiting (opponent_username a3)) "system_chat" a3).

(** [event_rps_chosen] in two parts, for the schedules in which the
    worker thread runs while the handler is under way: the part that
    disables the buttons, stores the choice and sends it (to the end of
    the [if]/[elif] on the threads), and the part that tests
    [opponent_choice] and resolves the round or waits. *)
Definition event_rps_chosen_send (value : string) (a : App) : App :=
  let a1 := emit (RpsButton "disabled") a in
  let a2 := set_player_choice (Some value) a1 in
  send_to_peer ("GAME" ++ Py.encode value) a2.

Definition event_rps_chosen_test (a3 : App) : Res :=
  if Py.truthy_str (opponent_choice a3) then determine_results a3
  else Done (network_chat (TxtWaiting (opponent_username a3)) "system_chat" a3).

Definition event_chat (msg : string) (a : App) : App :=
  if Py.truthy_str (Some msg) then
    send_to_peer ("CHAT" ++ Py.encode msg)
      (network_chat (TxtChat msg) "local_chat" a)
  else a.

Definition launch_server (a : App) : App := set_server_thread_alive true a.

(** [event_settings_save] with port fields that passed the check; an
    empty field is [None] and keeps the port. *)
Definition event_settings_save (serverport broadport : option Z) (a : App) : App :=
  let sp := match serverport with Some n => n | None => server_port a end in
  let bp := match broadport with Some n => n | None => broadcast_port a end in
  emit (MessageBox "Settings Saved")
    (mkApp (user_profile a) (opponent_username a) (player_choice a)
       (opponent_choice a) (total_rounds a) (current_round a)
       (allow_gui_update a) (broadcast_thread_alive a)
       (server_thread_alive a) (client_thread_alive a) (client_connected a)
       (local_ip a) (broadcast_address a) sp bp (pending a) (effects a)).

Definition network_connected (peer_ip : string) (a : App) : Res :=
  let a1 := set_current_round (Some 1) a in
  let a2 := emit (StatusTextbox (TxtConnected (local_ip a1) peer_ip)) a1 in
  match user_profile a2 with
  | None => Raised TypeError a2
  | Some p =>
      let a3 := emit (MainTextbox
                        (TxtVersus (username p) (opponent_username a2)
                           (current_round a2) (total_rounds a2))
                        "system_chat") a2 in
      Done (update_lobby_state "disabled" (update_game_state "normal" a3))
  end.

Definition network_disconnected (a : App) : App :=
  let a1 := emit (StatusTextbox TxtTerminated) a in
  let a2 := if Py.truthy_int (current_round a1)
            then emit (MainTextbox TxtThanks "system_chat") a1 else a1 in
  let a3 := update_lobby_state "normal" (update_game_state "disabled" a2) in
  set_current_round None
    (set_total_rounds None
       (set_opponent_username None
          (set_opponent_choice None (set_player_choice None a3)))).

Definition event_logout (a : App) : App :=
  set_user_profile None (emit ShowLoginScreen a).

(** The tail of [event_disconnect]: what [scope] asks for. *)
Definition disconnect_scope (scope : option string) (a : App) : App :=
  match scope with
  | Some s =>
      if String.eqb s "exit" then
        emit GuiDestroy
          (match user_profile a with
           | Some _ => emit SaveProfileStats a
           | None => a
           end)
      else if String.eqb s "logout" then event_logout (emit SaveProfileStats a)
      else a
  | None => a
  end.

(** [event_disconnect(scope)]. [answer] is what [msg.get()] returns for the
    "Disconnect From Peer" dialog, which is only shown mid-game. *)
Definition event_disconnect (scope answer : option string) (a : App) : Res :=
  if Py.truthy_int (current_round a) then
    match total_rounds a, current_round a with
    | Some _, Some _ =>
        let a1 := emit (MessageBox "Disconnect From Peer") a in
        let proceed :=
          if decide (answer = Some "Proceed") then
            dropout_resolution "quitter"
              (if server_thread_alive a1 then Server_stop "mid_game" a1
               else if client_thread_alive a1 then Client_stop "mid_game" a1
               else a1)
          else Done a1 in
        proceed >>= (fun a2 =>
          if decide (answer = Some "Cancel") then Done a2
          else Done (disconnect_scope scope a2))
    | _, _ => Raised TypeError a
    end
  else
    let a1 :=
      if broadcast_thread_alive a then Server_stop_listen a
      else if server_thread_alive a then Server_stop "no_game" a
      else if client_thread_alive a then Client_stop "no_game" a
      else a in
    Done (disconnect_scope scope a1).

Definition on_exit (answer : option string) (a : App) : Res :=
  event_disconnect (Some "exit") answer (set_allow_gui_update false a).

(** ** The stream read loop of [Server.start] and [Client.start]

    Both methods contain the same [while True] body. One iteration is
    [read_body]; the loop itself is driven by the sequence of results of
    [client_socket.recv(1024)]. *)

(** What [recv] gives: bytes (empty when the peer closed), or an error. *)
Inductive Recv : Type :=
| RecvData (data : string)
| RecvFails.

(** How one iteration ends. *)
Inductive Iter : Type :=
| Next (a : App)             (* back to the top of the loop *)
| Stop (a : App)             (* [break] *)
| Throw (e : Exc) (a : App). (* an exception leaves the loop *)

Definition on_chat (data : string) (a : App) : Iter :=
  if Py.startswith data "CHAT" then
    match Py.decode (Py.slice_from 4 data) with
    | Some msg => Next (after (CbNetworkChat (TxtChat msg) "peer_chat") a)
    | None => Throw UnicodeDecodeError a
    end
  else Next a.

Definition on_game (data : string) (a : App) : Iter :=
  if Py.startswith data "GAME" then
    match Py.decode (Py.slice_from 4 data) with
    | Some c =>
        let a1 := set_opponent_choice (Some c) a in
        if Py.truthy_str (player_choice a1)
        then Next (after CbDetermineResults a1)
        else Next (after (CbNetworkChat (TxtHasChosen (opponent_username a1))
                            "system_chat") a1)
    | None => Throw UnicodeDecodeError a
    end
  else Next a.

Definition read_body (data : string) (a : App) : Iter :=
  if String.eqb data "" then Stop a
  else if Py.startswith data "DISCONNECT" then
    match Py.decode (Py.slice_from 10 data) with
    | Some game_state =>
        Stop (if String.eqb game_state "mid_game"
              then after (CbDropoutResolution "player") a else a)
    | None => Throw UnicodeDecodeError a
    end
  else
    match on_chat data a with
    | Next a1 => on_game data a1
    | other => other
    end.

(** [except Exception] and [finally] of [Server.start]; the thread ends. *)
Definition Server_except (a : App) : App :=
  if allow_gui_update a then emit (MessageBox "Server Connection Error") a else a.

Definition Server_finally (a : App) : App :=
  let a1 := set_client_connected false a in
  let a2 := if allow_gui_update a1 then after CbNetworkDisconnected a1 else a1 in
  set_server_thread_alive false a2.

(** One [recv] of the host's read loop, with everything that follows when
    the loop is left. The two [close] calls stand after the loop, inside
    the [try]. *)
Definition Server_on_recv (r : Recv) (a : App) : App :=
  match r with
  | RecvFails => Server_finally (Server_except a)
  | RecvData data =>
      match read_body data a with
      | Next a1 => a1
      | Stop a1 =>
          Server_finally (emit (Close ServerSocket)
                            (emit (Close ServerClientSocket) a1))
      | Throw _ a1 => Server_finally (Server_except a1)
      end
  end.

(** [Server.start] up to the loop. [accepted] is the peer address that
    [accept] returns, or [None] when creating, binding or accepting
    raises. *)
Definition Server_start (accepted : option string) (a : App) : App :=
  match accepted with
  | Some client_ip =>
      set_client_connected true (after (CbNetworkConnected client_ip) a)
  | None => Server_finally (Server_except a)
  end.

(** [except Exception] and [finally] of [Client.start]; the thread ends. *)
Definition Client_except (a : App) : App :=
  if allow_gui_update a then emit (MessageBox "Server Connection Error") a else a.

Definition Client_finally (a : App) : App :=
  let a1 := emit (Close ClientSocket) a in
  let a2 := if allow_gui_update a1 then after CbNetworkDisconnected a1 else a1 in
  set_client_thread_alive false a2.

(** One [recv] of the joiner's read loop. *)
Definition Client_on_recv (r : Recv) (a : App) : App :=
  match r with
  | RecvFails => Client_finally (Client_except a)
  | RecvData data =>
      match read_body data a with
      | Next a1 => a1
      | Stop a1 => Client_finally a1
      | Throw _ a1 => Client_finally (Client_except a1)
      end
  end.

(** What the datagram exchange of [Client.start] comes to: the two
    sockets cannot be created or the datagram socket cannot be bound to
    [(local_ip, broadcast_port)] (as when [local_ip] is "No IP Found"), and
    nothing is sent; or the request is sent and a datagram comes back, the
    5 second wait times out, or the socket fails in another way. *)
Inductive Reply : Type :=
| NoSocket
| ReplyData (data : string)
| ReplyTimeout
| ReplyFails.

(** [Client.start] up to the loop. [connect_ok] tells whether
    [client_socket.connect] succeeds. *)
Definition Client_start (server_ip : string) (server_port : Z)
    (reply : Reply) (connect_ok : bool) (a : App) : App :=
  match reply with
  | NoSocket => Client_finally (Client_except a)
  | ReplyData _ | ReplyTimeout | ReplyFails =>
      match user_profile a with
      | None => Client_finally (Client_except a)
      | Some p =>
          let a1 := emit (SendTo ClientUdpSocket
                            ("CONNECT"
                             ++ Py.encode (server_ip ++ "," ++ username p))
                            server_ip (broadcast_port a)) a in
          match reply with
          | ReplyData response =>
              let a2 := emit (Close ClientUdpSocket) a1 in
              if Py.startswith response "ACK" then
                if connect_ok
                then after (CbNetworkConnected server_ip) a2
                else Client_finally (Client_except a2)
              else Client_finally
                     (emit (MessageBox "Server Connection Error") a2)
          | NoSocket | ReplyTimeout | ReplyFails =>
              Client_finally (Client_except a1)
          end
      end
  end.

(** The loops proper: the worker consumes [recv] results for as long as it
    is alive; when the list is used up it is blocked in [recv]. *)
Fixpoint Server_loop (reads : list Recv) (a : App) : App :=
  match reads with
  | [] => a
  | r :: rest =>
      if server_thread_alive a then Server_loop rest (Server_on_recv r a) else a
  end.

Fixpoint Client_loop (reads : list Recv) (a : App) : App :=
  match reads with
  | [] => a
  | r :: rest =>
      if client_thread_alive a then Client_loop rest (Client_on_recv r a) else a
  end.

(** ** [Server.broadcast_listen] *)

(** What [udp_socket.recvfrom(1024)] gives: a datagram with its sender, or
    an error. *)
Inductive UdpRecv : Type :=
| UdpData (data : string) (ip : string) (port : Z)
| UdpFails.

(** How an f-string renders [total_rounds]. *)
Definition fmt_int (o : option Z) : string :=
  match o with
  | Some n => pretty n
  | None => "None"
  end.

Definition on_lookup (data ip : string) (port : Z) (a : App) : Iter :=
  if Py.startswith data "LOOKUP" then
    match user_profile a with
    | Some p =>
        let data_to_send :=
          pretty (server_port a) ++ "," ++ username p ++ ","
            ++ fmt_int (total_rounds a) in
        Next (emit (SendTo ServerUdpSocket (Py.encode data_to_send) ip port) a)
    | None => Throw TypeError a
    end
  else Next a.

Definition on_connect (data ip : string) (port : Z) (a : App) : Iter :=
  if Py.startswith data "CONNECT" then
    match Py.decode (Py.slice_from 7 data) with
    | Some payload =>
        match Py.split_comma payload with
        | [requested_ip; user] =>
            if String.eqb requested_ip (local_ip a) then
              let a1 := set_opponent_username (Some user) a in
              let a2 := emit (SendTo ServerUdpSocket "ACK" ip port) a1 in
              Stop (after CbLaunchServer a2)
            else Next a
        | _ => Next a
        end
    | None => Throw UnicodeDecodeError a
    end
  else Next a.

Definition on_cancel (data : string) (a : App) : Iter :=
  if String.eqb data "DISCONNECT" then
    Stop (if allow_gui_update a then after CbNetworkDisconnected a else a)
  else Next a.

Definition listen_body (data ip : string) (port : Z) (a : App) : Iter :=
  match on_lookup data ip port a with
  | Next a1 =>
      match on_connect data ip port a1 with
      | Next a2 => on_cancel data a2
      | other => other
      end
  | other => other
  end.

(** [finally] of [broadcast_listen]; the thread ends. *)
Definition listen_finally (a : App) : App :=
  set_broadcast_thread_alive false (emit (Close ServerUdpSocket) a).

(** One [recvfrom] of the listener, with what follows when the loop is
    left. *)
Definition listen_on_recv (r : UdpRecv) (a : App) : App :=
  match r with
  | UdpFails =>
      listen_finally (emit (MessageBox "Hosting Connection Error") a)
  | UdpData data ip port =>
      match listen_body data ip port a with
      | Next a1 => a1
      | Stop a1 => listen_finally a1
      | Throw _ a1 =>
          listen_finally (emit (MessageBox "Hosting Connection Error") a1)
      end
  end.

Fixpoint broadcast_listen (recvs : list UdpRecv) (a : App) : App :=
  match recvs with
  | [] => a
  | r :: rest =>
      if broadcast_thread_alive a
      then broadcast_listen rest (listen_on_recv r a) else a
  end.

(** ** [Network.get_local_ip] *)

(** The broadcast address of [ip]: the fourth dot-separated field becomes
    ["255"]. [ip_parts[3] = '255'] raises [IndexError] on fewer than four
    fields, which is [None] here. *)
Definition broadcast_of (ip : string) : option string :=
  let ip_parts := Py.split_char "." ip in
  if (length ip_parts <=? 3)%nat then None
  else Some (Py.join "." (<[3%nat := "255"]> ip_parts)).

(** [get_local_ip()]. [sockname] is the address that
    [sock.getsockname()[0]] gives, or [None] when [connect] or
    [getsockname] on the probe socket raises. The probe socket is local to
    the method and is not logged. *)
Definition get_local_ip (sockname : option string) (a : App) : App :=
  let found (ip : string) (bcast : option string) (a1 : App) :=
    mkApp (user_profile a1) (opponent_username a1) (player_choice a1)
      (opponent_choice a1) (total_rounds a1) (current_round a1)
      (allow_gui_update a1) (broadcast_thread_alive a1)
      (server_thread_alive a1) (client_thread_alive a1) (client_connected a1)
      ip bcast (server_port a1) (broadcast_port a1) (pending a1) (effects a1) in
  match sockname with
  | Some ip =>
      match broadcast_of ip with
      | Some bcast => found ip (Some bcast) a
      | None => found "No IP Found" None (emit (MessageBox "IP Retrieval Failed") a)
      end
  | None => found "No IP Found" None (emit (MessageBox "IP Retrieval Failed") a)
  end.

(** ** [Network.discover_servers] *)

(** An entry of [available_servers]:
    [(server_ip, server_port, username, total_rounds)], all strings. *)
Definition Host : Type := (string * string * string * string)%type.

(** What happens at the socket after a [recvfrom] starts: a datagram
    arrives, or the socket fails, [wait] milliseconds later. *)
Inductive Arrival : Type :=
| Arrives (wait : Z) (data : string) (ip : string) (port : Z)
| Breaks (wait : Z).

(** [udp_socket.settimeout(5)], in milliseconds. The timeout bounds each
    [recvfrom] call on its own. *)
Definition lookup_timeout : Z := 5 * 1000.

(** How the receive loop of [discover_servers] ends, with the servers
    collected and the time spent in the loop. *)
Record Lookup : Type := mkLookup {
  failure : option Exc;          (* an exception other than socket.timeout *)
  available_servers : list Host;
  elapsed : Z
}.

Definition add_server (ip : string) (fields : list string) (acc : list Host)
  : list Host :=
  match fields with
  | [server_port; user; rounds] => acc ++ [(ip, server_port, user, rounds)]
  | _ => acc
  end.

Fixpoint discover_loop (env : list Arrival) (acc : list Host) (t : Z) : Lookup :=
  match env with
  | [] => mkLookup None acc (t + lookup_timeout)
  | Arrives wait data ip port :: rest =>
      if lookup_timeout <=? wait then mkLookup None acc (t + lookup_timeout)
      else
        match Py.decode data with
        | Some s => discover_loop rest (add_server ip (Py.split_comma s) acc) (t + wait)
        | None => mkLookup (Some UnicodeDecodeError) acc (t + wait)
        end
  | Breaks wait :: _ =>
      if lookup_timeout <=? wait then mkLookup None acc (t + lookup_timeout)
      else mkLookup (Some OSError) acc (t + wait)
  end.

(** [discover_servers()]: the list returned, the time spent receiving, and
    the state with the effects logged. The [return] inside [finally] means
    that no exception leaves the method. *)
Definition discover_servers (env : list Arrival) (a : App) : Lookup * App :=
  match broadcast_address a with
  | Some bcast =>
      let a1 := emit (SendTo DiscoverUdpSocket "LOOKUP" bcast (broadcast_port a)) a in
      let r := discover_loop env [] 0 in
      let a2 := match failure r with
                | Some _ => emit (MessageBox "Server Lookup Failed") a1
                | None => a1
                end in
      (r, emit (Close DiscoverUdpSocket) a2)
  | None =>
      (mkLookup (Some TypeError) [] 0,
       emit (Close DiscoverUdpSocket) (emit (MessageBox "Server Lookup Failed") a))
  end.

(** ** The GUI thread *)

(** Calling a scheduled function. *)
Definition run_callback (cb : Callback) (a : App) : Res :=
  match cb with
  | CbNetworkConnected peer_ip => network_connected peer_ip a
  | CbNetworkDisconnected => Done (network_disconnected a)
  | CbNetworkChat msg type => Done (network_chat msg type a)
  | CbDetermineResults => determine_results a
  | CbDropoutResolution actor => dropout_resolution actor a
  | CbLaunchServer => Done (launch_server a)
  end.

(** The GUI thread takes the oldest scheduled callback and runs it; an
    exception in it is reported by Tk and the state stays as it was when
    it was raised. *)
Definition run_next (a : App) : App :=
  match pending a with
  | cb :: q => state_of (run_callback cb (set_pending q a))
  | [] => a
  end.

(** [App.event_host], with the slider value and what the probe of
    [get_local_ip] finds as arguments. *)
Definition event_host (slider : Z) (sockname : option string) (a : App)
  : App :=
  update_lobby_state "disabled"
    (emit (StatusTextbox TxtHosting)
       (set_broadcast_thread_alive true
          (get_local_ip sockname (set_total_rounds (Some slider) a)))).

(** The application after [App.__init__] and a login as [p], with the
    addresses that [get_local_ip] found. *)
Definition logged_in (p : Profile) (ip bcast : string) : App :=
  mkApp (Some p) None None None None None true false false false false
    ip (Some bcast) 51515 12121 [] [].

(** *** Sessions

    A session runs from the call of [network_connected] to the call of
    [network_disconnected]. In between, the state changes by a GUI event,
    by a scheduled callback other than those two, or by a [recv] of the
    worker thread that owns the connection. *)

Definition session_callback (cb : Callback) : bool :=
  match cb with
  | CbNetworkConnected _ | CbNetworkDisconnected => false
  | _ => true
  end.

Inductive session_step : App -> App -> Prop :=
| step_rps_chosen value a :
    session_step a (state_of (event_rps_chosen value a))
| step_chat msg a :
    session_step a (event_chat msg a)
| step_settings serverport broadport a :
    session_step a (event_settings_save serverport broadport a)
| step_disconnect scope answer a :
    session_step a (state_of (event_disconnect scope answer a))
| step_exit answer a :
    session_step a (state_of (on_exit answer a))
| step_callback cb q a :
    pending a = cb :: q ->
    session_callback cb = true ->
    session_step a (state_of (run_callback cb (set_pending q a)))
| step_host_recv r a :
    server_thread_alive a = true ->
    session_step a (Server_on_recv r a)
| step_joiner_recv r a :
    client_thread_alive a = true ->
    session_step a (Client_on_recv r a).

(** *** Counting what was logged or scheduled *)

Definition is_disconnected (cb : Callback) : bool :=
  match cb with CbNetworkDisconnected => true | _ => false end.

Definition is_determine (cb : Callback) : bool :=
  match cb with CbDetermineResults => true | _ => false end.

Definition is_launch (cb : Callback) : bool :=
  match cb with CbLaunchServer => true | _ => false end.

Definition is_ack (e : Effect) : bool :=
  match e with
  | SendTo ServerUdpSocket data _ _ => String.eqb data "ACK"
  | _ => false
  end.

(** A round outcome shown in the main textbox: only [determine_results]
    writes one. *)
Definition is_outcome (e : Effect) : bool :=
  match e with MainTextbox (TxtAscii _ _) _ => true | _ => false end.

Definition is_close (s : Sock) (e : Effect) : bool :=
  match e, s with
  | Close ServerSocket, ServerSocket
  | Close ServerClientSocket, ServerClientSocket
  | Close ServerUdpSocket, ServerUdpSocket
  | Close ClientSocket, ClientSocket
  | Close ClientUdpSocket, ClientUdpSocket
  | Close DiscoverUdpSocket, DiscoverUdpSocket => true
  | _, _ => false
  end.

Fixpoint count {A : Type} (f : A -> bool) (l : list A) : nat :=
  match l with
  | [] => O
  | x :: r => ((if f x then 1 else 0) + count f r)%nat
  end.

(** ** The choices of the game *)

Inductive Choice : Type := Rock | Paper | Scissors.

(** The value of the segmented button, and of a [GAME] payload. *)
Definition choice_name (c : Choice) : string :=
  match c with
  | Rock => "Rock"
  | Paper => "Paper"
  | Scissors => "Scissors"
  end.

(** [Rock=0, Paper=1, Scissors=2] *)
Definition choice_code (c : Choice) : Z :=
  match c with
  | Rock => 0
  | Paper => 1
  | Scissors => 2
  end.

(** The classic rules, as a table. *)
Definition beats (x y : Choice) : bool :=
  match x, y with
  | Rock, Scissors | Paper, Rock | Scissors, Paper => true
  | _, _ => false
  end.

(** ** Sample sessions, used to run the model *)

Definition bob : Profile := mkProfile "bob" 10 4 2.

(** bob, logged in on 192.168.1.10. *)
Definition lobby : App := logged_in bob "192.168.1.10" "192.168.1.255".

(** bob presses "Host" for three rounds; the probe finds his address. *)
Definition hosting : App := event_host 3 (Some "192.168.1.10") lobby.

(** bob hosts a game of [rounds] rounds; amy on 192.168.1.11 asks to
    connect, the server is launched and accepts her connection. *)
Definition host_accepted (rounds : Z) : App :=
  Server_start (Some "192.168.1.11")
    (run_next
       (listen_on_recv
          (UdpData "CONNECT192.168.1.10,amy" "192.168.1.11" 12121)
          (event_host rounds (Some "192.168.1.10") lobby))).

(** The GUI thread then takes [network_connected] off the queue and runs
    it: the session is open. *)
Definition host_session (rounds : Z) : App :=
  state_of (network_connected "192.168.1.11"
              (set_pending [] (host_accepted rounds))).

(** The same session at the start of round [c]. *)
Definition host_at_round (rounds c : Z) : App :=
  set_current_round (Some c) (host_session rounds).

(** amy's side, as joiner, once connected in a game of [rounds] rounds. *)
Definition joiner_session (rounds : Z) : App :=
  mkApp (Some (mkProfile "amy" 0 0 0)) (Some "bob") None None
    (Some rounds) (Some 1) true false false true false
    "192.168.1.11" (Some "192.168.1.255") 51515 12121 [] [].

(** ** Vocabulary of the properties *)

(** The profile after a round whose code difference is [result]. *)
Definition scored (result : Z) (p : Profile) : Profile :=
  if result =? 0 then add_ties 1 p
  else if result =? 1 then add_wins 1 p
  else add_loses 1 p.

(** What the host sends, or closes, when the last round is resolved. *)
Definition game_complete_close (a : App) : list Effect :=
  if server_thread_alive a then
    if client_connected a
    then [Send ServerClientSocket "DISCONNECTgame_complete"]
    else [Close ServerSocket]
  else [].

(** A step leaves [total_rounds] alone and either leaves [current_round]
    alone or moves it from [c] to [c + 1] where [c < total_rounds]. *)
Definition round_advance (a a' : App) : Prop :=
  total_rounds a' = total_rounds a
  /\ (current_round a' = current_round a
      \/ exists c t,
          current_round a = Some c /\ total_rounds a = Some t
          /\ c < t /\ current_round a' = Some (c + 1)).

Definition same_rounds (a a' : App) : Prop :=
  total_rounds a' = total_rounds a /\ current_round a' = current_round a.

(** Where one loop iteration leaves the state. *)
Definition iter_state (i : Iter) : App :=
  match i with
  | Next a | Stop a | Throw _ a => a
  end.

(** The bounds [1 <= current_round <= total_rounds = t]. *)
Definition round_in_range (t : Z) (a : App) : Prop :=
  total_rounds a = Some t
  /\ exists c, current_round a = Some c /\ 1 <= c <= t.

(** The three ways out of the read loop: a [DISCONNECT<stage>] message, a
    zero-length read, an I/O error. *)
Inductive ExitCause : Recv -> Prop :=
| exit_disconnect stage :
    Py.decode stage <> None -> ExitCause (RecvData ("DISCONNECT" ++ stage))
| exit_peer_closed : ExitCause (RecvData "")
| exit_io_error : ExitCause RecvFails.

(** What a step added to the log and to the callback queue. *)
Definition adds (a a' : App) (es : list Effect) (cbs : list Callback) : Prop :=
  effects a' = (effects a ++ es)%list /\ pending a' = (pending a ++ cbs)%list.

(** Exactly one [network_disconnected] was scheduled between [a] and [a']. *)
Definition notified_once (a a' : App) : Prop :=
  exists cbs,
    pending a' = (pending a ++ cbs)%list /\ count is_disconnected cbs = 1%nat.

(** A datagram that arrives before the timeout and decodes. *)
Definition prompt (x : Arrival) : Prop :=
  match x with
  | Arrives wait data _ _ => wait < lookup_timeout /\ Py.decode data <> None
  | Breaks _ => False
  end.

(** Nothing arrives within the timeout of the next [recvfrom]. *)
Definition quiet (env : list Arrival) : Prop :=
  match env with
  | [] => True
  | Arrives wait _ _ _ :: _ | Breaks wait :: _ => lookup_timeout <= wait
  end.

(** The entries that a run of prompt datagrams contributes. *)
Fixpoint collected (env : list Arrival) (acc : list Host) : list Host :=
  match env with
  | Arrives _ data ip _ :: rest =>
      match Py.decode data with
      | Some s => collected rest (add_server ip (Py.split_comma s) acc)
      | None => acc
      end
  | _ => acc
  end.

Fixpoint total_wait (env : list Arrival) : Z :=
  match env with
  | Arrives wait _ _ _ :: rest | Breaks wait :: rest => wait + total_wait rest
  | [] => 0
  end.



(** ** More of the program *)

(** *** Messages of the handshake *)

(** The reply of [broadcast_listen] to a [LOOKUP], for profile [p]. *)
Definition lookup_reply (a : App) (p : Profile) : string :=
  Py.encode (pretty (server_port a) ++ "," ++ username p ++ ","
             ++ fmt_int (total_rounds a)).

(** The request that [Client.start] sends, for profile [p]. *)
Definition connect_request (server_ip : string) (p : Profile) : string :=
  "CONNECT" ++ Py.encode (server_ip ++ "," ++ username p).

(** [response.startswith(b"ACK")] on what came back. *)
Definition acknowledged (reply : Reply) : bool :=
  match reply with
  | ReplyData response => Py.startswith response "ACK"
  | NoSocket | ReplyTimeout | ReplyFails => false
  end.

Definition is_connected (cb : Callback) : bool :=
  match cb with CbNetworkConnected _ => true | _ => false end.

(** *** Two peers on one connection

    What one side writes to the connection, the other side's read loop
    receives. The properties below are about the schedules in which each
    [send] is read on its own: its bytes are taken off the stream by
    [recv(1024)], in reads of at most 1024 bytes, before the next [send]
    arrives. A stream may also hand the bytes of two sends that follow
    each other closely to one [recv]; [wire] does not describe those
    schedules. A [close] is read as a zero-length read. *)

Definition sock_index (s : Sock) : nat :=
  match s with
  | ServerSocket => 0
  | ServerClientSocket => 1
  | ServerUdpSocket => 2
  | ClientSocket => 3
  | ClientUdpSocket => 4
  | DiscoverUdpSocket => 5
  end.

Definition sock_eqb (s1 s2 : Sock) : bool :=
  Nat.eqb (sock_index s1) (sock_index s2).

(** The first [n] bytes of [data], and the rest. *)
Fixpoint split_at (n : nat) (data : string) : string * string :=
  match n, data with
  | S n', String c r =>
      let (chunk, rest) := split_at n' r in (String c chunk, rest)
  | _, _ => (EmptyString, data)
  end.

(** The reads that take [data] off the stream: [recv(1024)] returns the
    first 1024 bytes that wait, or all of them when they are fewer. An
    empty [send] puts nothing on the stream. *)
Fixpoint recv_1024 (fuel : nat) (data : string) : list Recv :=
  match fuel, data with
  | S fuel', String _ _ =>
      let (chunk, rest) := split_at 1024 data in
      RecvData chunk :: recv_1024 fuel' rest
  | _, _ => []
  end.

Definition reads (data : string) : list Recv :=
  recv_1024 (String.length data) data.

(** What the peer of socket [s] reads, given what was done on [s], each
    [send] being read on its own. *)
Fixpoint wire (s : Sock) (es : list Effect) : list Recv :=
  match es with
  | [] => []
  | Send s' data :: rest =>
      if sock_eqb s s' then (reads data ++ wire s rest)%list
      else wire s rest
  | Close s' :: rest =>
      if sock_eqb s s' then RecvData "" :: wire s rest else wire s rest
  | _ :: rest => wire s rest
  end.

(** The bytes written to [s], in order: what waits on the stream when
    the peer has not read in between. *)
Fixpoint written (s : Sock) (es : list Effect) : string :=
  match es with
  | [] => EmptyString
  | Send s' data :: rest =>
      if sock_eqb s s' then data ++ written s rest else written s rest
  | _ :: rest => written s rest
  end.

(** What was logged between [a] and a later state [a']. *)
Definition new_effects (a a' : App) : list Effect :=
  drop (length (effects a)) (effects a').

(** The GUI thread runs everything that is scheduled. *)
Definition drain (a : App) : App :=
  Nat.iter (length (pending a)) run_next a.

(** The joiner [j] receives what the host wrote between [h] and [h'], and
    its GUI thread catches up; and the other way round. *)
Definition joiner_receives (h h' j : App) : App :=
  drain (Client_loop (wire ServerClientSocket (new_effects h h')) j).

Definition host_receives (j j' h : App) : App :=
  drain (Server_loop (wire ClientSocket (new_effects j j')) h).

(** *** A game between two peers *)

(** One round, with the host choosing first or the joiner choosing first.
    After each action of one side the other side reads what was written
    and runs its callbacks. *)
Definition play_round (host_first : bool) (vh vj : string) (hj : App * App)
  : App * App :=
  let (h, j) := hj in
  if host_first then
    let h1 := state_of (event_rps_chosen vh h) in
    let j1 := joiner_receives h h1 j in
    let j2 := state_of (event_rps_chosen vj j1) in
    let h2 := host_receives j1 j2 h1 in
    let j3 := joiner_receives h1 h2 j2 in
    let h3 := host_receives j2 j3 h2 in
    (h3, j3)
  else
    let j1 := state_of (event_rps_chosen vj j) in
    let h1 := host_receives j j1 h in
    let h2 := state_of (event_rps_chosen vh h1) in
    let j2 := joiner_receives h1 h2 j1 in
    let h3 := host_receives j1 j2 h2 in
    (h3, j2).

(** A round as played: who chose first, the host's choice, the joiner's. *)
Definition Round : Type := (bool * Choice * Choice)%type.

Fixpoint play (rounds : list Round) (hj : App * App) : App * App :=
  match rounds with
  | [] => hj
  | (host_first, lh, lj) :: rest =>
      play rest (play_round host_first (choice_name lh) (choice_name lj) hj)
  end.

(** A profile after one round by the rules of the game: a win when the
    own choice beats the other, a loss the other way round, else a tie. *)
Definition round_result (mine theirs : Choice) (p : Profile) : Profile :=
  if beats mine theirs then add_wins 1 p
  else if beats theirs mine then add_loses 1 p
  else add_ties 1 p.

(** The host's and the joiner's profiles after the rounds, by the rules. *)
Fixpoint tally (rounds : list Round) (pp : Profile * Profile)
  : Profile * Profile :=
  match rounds with
  | [] => pp
  | (_, lh, lj) :: rest =>
      tally rest (round_result lh lj (fst pp), round_result lj lh (snd pp))
  end.

(** The fields that no step of a game changes. *)
Definition core (a : App) : option Z * bool * bool * bool * bool :=
  (total_rounds a, allow_gui_update a, server_thread_alive a,
   client_thread_alive a, client_connected a).

(** Host [h] and joiner [j] are connected, at the start of round [c] of
    [t], with profiles [ph] and [pj], nothing chosen and nothing
    scheduled. *)
Definition linked (c t : Z) (ph pj : Profile) (h j : App) : Prop :=
  user_profile h = Some ph /\ user_profile j = Some pj
  /\ current_round h = Some c /\ current_round j = Some c
  /\ player_choice h = None /\ opponent_choice h = None
  /\ player_choice j = None /\ opponent_choice j = None
  /\ pending h = [] /\ pending j = []
  /\ core h = (Some t, true, true, client_thread_alive h, true)
  /\ core j = (Some t, true, false, true, client_connected j).

(** The session is over on both sides, with profiles [ph] and [pj]. *)
Definition over (ph pj : Profile) (h j : App) : Prop :=
  user_profile h = Some ph /\ user_profile j = Some pj
  /\ current_round h = None /\ current_round j = None
  /\ total_rounds h = None /\ total_rounds j = None
  /\ player_choice h = None /\ opponent_choice h = None
  /\ player_choice j = None /\ opponent_choice j = None
  /\ pending h = [] /\ pending j = []
  /\ server_thread_alive h = false /\ client_connected h = false
  /\ client_thread_alive j = false.

(** What [send_to_peer] writes. *)
Definition peer_send (data : string) (a : App) : list Effect :=
  if server_thread_alive a then [Send ServerClientSocket data]
  else if client_thread_alive a then [Send ClientSocket data]
  else [].

(** The fields that a round changes. *)
Definition game (a : App)
  : option Profile * option string * option string * option Z :=
  (user_profile a, player_choice a, opponent_choice a, current_round a).

(** A sample game of three rounds: the host chooses first in the first and
    the last round. *)
Definition amy : Profile := mkProfile "amy" 0 0 0.

Definition sample_rounds : list Round :=
  [(true, Rock, Scissors); (false, Paper, Paper); (true, Scissors, Rock)].

(** *** [Gui.ascii_results]

    The nine pictures, line by line as in the source; [nl] is the line
    feed that ends each line. *)
Definition nl : string := String "010"%char EmptyString.

Definition rock_scissors : string :=
  "    _______       \ //         _______    " ++ nl ++
  "---/   ____)       v/ S.  ____(____   \---" ++ nl ++
  "      (_____)            (______          " ++ nl ++
  "      (_____)           (__________       " ++ nl ++
  "      (____)                  (____)      " ++ nl ++
  "---.__(___)                    (___)__.---" ++ nl ++
  "                --YOU WIN--               " ++ nl.

Definition rock_paper : string :=
  "    _______       \ //         _______    " ++ nl ++
  "---/   ____)       v/ S.  ____(____   \---" ++ nl ++
  "      (_____)            (______          " ++ nl ++
  "      (_____)           (_______          " ++ nl ++
  "      (____)             (_______         " ++ nl ++
  "---.__(___)                (__________.---" ++ nl ++
  "               --YOU LOSE--               " ++ nl.

Definition rock_rock : string :=
  "    _______       \ //         _______    " ++ nl ++
  "---/   ____)       v/ S.      (____   \---" ++ nl ++
  "      (_____)                (_____)      " ++ nl ++
  "      (_____)                (_____)      " ++ nl ++
  "      (____)                  (____)      " ++ nl ++
  "---.__(___)                    (___)__.---" ++ nl ++
  "                  --TIE--                 " ++ nl.

Definition paper_rock : string :=
  "    _______       \ //         _______    " ++ nl ++
  "---/   ____)____   v/ S.      (____   \---" ++ nl ++
  "          ______)            (_____)      " ++ nl ++
  "          _______)           (_____)      " ++ nl ++
  "         _______)             (____)      " ++ nl ++
  "---.__________)                (___)__.---" ++ nl ++
  "                --YOU WIN--               " ++ nl.

Definition paper_scissors : string :=
  "    _______       \ //         _______    " ++ nl ++
  "---/   ____)____   v/ S.  ____(____   \---" ++ nl ++
  "          ______)        (______          " ++ nl ++
  "          _______)      (__________       " ++ nl ++
  "         _______)             (____)      " ++ nl ++
  "---.__________)                (___)__.---" ++ nl ++
  "               --YOU LOSE--               " ++ nl.

Definition paper_paper : string :=
  "    _______       \ //         _______    " ++ nl ++
  "---/   ____)____   v/ S.  ____(____   \---" ++ nl ++
  "          ______)        (______          " ++ nl ++
  "          _______)      (_______          " ++ nl ++
  "         _______)        (_______         " ++ nl ++
  "---.__________)            (__________.---" ++ nl ++
  "                  --TIE--                 " ++ nl.

Definition scissors_paper : string :=
  "    _______       \ //         _______    " ++ nl ++
  "---/   ____)____   v/ S.  ____(____   \---" ++ nl ++
  "          ______)        (______          " ++ nl ++
  "       __________)      (_______          " ++ nl ++
  "      (____)             (_______         " ++ nl ++
  "---.__(___)                (__________.---" ++ nl ++
  "                --YOU WIN--               " ++ nl.

Definition scissors_rock : string :=
  "    _______       \ //         _______    " ++ nl ++
  "---/   ____)____   v/ S.      (____   \---" ++ nl ++
  "          ______)            (_____)      " ++ nl ++
  "       __________)           (_____)      " ++ nl ++
  "      (____)                  (____)      " ++ nl ++
  "---.__(___)                    (___)__.---" ++ nl ++
  "               --YOU LOSE--               " ++ nl.

Definition scissors_scissors : string :=
  "    _______       \ //         _______    " ++ nl ++
  "---/   ____)____   v/ S.  ____(____   \---" ++ nl ++
  "          ______)        (______          " ++ nl ++
  "       __________)      (__________       " ++ nl ++
  "      (____)                  (____)      " ++ nl ++
  "---.__(___)                    (___)__.---" ++ nl ++
  "                  --TIE--                 " ++ nl.

(** The dict [outcomes], keyed by the pair of choices. *)
Definition outcomes : gmap (string * string) string :=
  list_to_map [
    (("Rock", "Scissors"), rock_scissors);
    (("Rock", "Paper"), rock_paper);
    (("Rock", "Rock"), rock_rock);
    (("Paper", "Rock"), paper_rock);
    (("Paper", "Scissors"), paper_scissors);
    (("Paper", "Paper"), paper_paper);
    (("Scissors", "Paper"), scissors_paper);
    (("Scissors", "Rock"), scissors_rock);
    (("Scissors", "Scissors"), scissors_scissors)
  ].

(** [ascii_results(player, opponent)] is [outcomes.get((player, opponent))]:
    [None] for a pair that is not a key, an unset choice among them. *)
Definition ascii_results (player opponent : option string) : option string :=
  match player, opponent with
  | Some p, Some o => outcomes !! (p, o)
  | _, _ => None
  end.

(** The text that an entry of the main textbox stands for, where the model
    keeps it: the picture of a round. *)
Definition shown (e : Effect) : option string :=
  match e with
  | MainTextbox (TxtAscii player opponent) _ => ascii_results player opponent
  | _ => None
  end.

(** amy's session with both choices of the first round in. *)
Definition both_chosen : App :=
  set_opponent_choice (Some "Scissors")
    (set_player_choice (Some "Rock") (joiner_session 3)).

(** *** Hosting, then cancelling

    [stop_listen] sends from the listener's own socket to
    [(local_ip, broadcast_port)], the port that socket is bound to: the
    datagram comes back to the listener. *)
Fixpoint loopback (a : App) (es : list Effect) : list UdpRecv :=
  match es with
  | [] => []
  | SendTo ServerUdpSocket data ip port :: rest =>
      if String.eqb ip (local_ip a) && (port =? broadcast_port a)
      then UdpData data ip port :: loopback a rest
      else loopback a rest
  | _ :: rest => loopback a rest
  end.

(** The user presses "Host" and then "Disconnect"; the listener reads what
    came back and the GUI thread runs what the listener scheduled. *)
Definition host_then_cancel (slider : Z) (sockname : option string)
    (a : App) : App :=
  let a1 := event_host slider sockname a in
  let a2 := state_of (event_disconnect None None a1) in
  drain (broadcast_listen (loopback a2 (new_effects a1 a2)) a2).

Definition is_lobby (state : string) (e : Effect) : bool :=
  match e with LobbyState s => String.eqb s state | _ => false end.

(** *** The score across a session *)

(** Same user; no counter is lower. *)
Definition profile_le (p p' : Profile) : Prop :=
  username p' = username p
  /\ wins p <= wins p' /\ loses p <= loses p' /\ ties p <= ties p'.

(** From [a] to [a'] the profile was dropped (a logout), or it is the
    profile of [a] with counters that are no lower. *)
Definition score_kept (a a' : App) : Prop :=
  match user_profile a', user_profile a with
  | None, _ => True
  | Some p', Some p => profile_le p p'
  | Some _, None => False
  end.

(** * Properties *)

(** ** Proof automation *)

(** Unfold the methods and split on every test. *)
Ltac split_cases :=
  repeat match goal with
         | |- context [match ?x with _ => _ end] => destruct x eqn:?; cbn
         end.

(** Split on the innermost test first. *)
Ltac split_inner :=
  repeat match goal with
         | |- context [match ?x with _ => _ end] =>
             lazymatch x with
             | context [match _ with _ => _ end] => fail
             | _ => destruct x eqn:?; cbn
             end
         end.

(** Name what a fully evaluated step added. *)
Ltac close_adds :=
  unfold adds; cbn; rewrite <- ?app_assoc; cbn;
  eexists; eexists;
  split; [split; first [symmetry; apply app_nil_r | reflexivity]|]; cbn.

(** ** The model at work *)

Example split_three : Py.split_comma "51515,bob,3" = ["51515"; "bob"; "3"].
Proof. reflexivity. Qed.

Example split_empty : Py.split_comma "" = [""].
Proof. reflexivity. Qed.

Example split_trailing : Py.split_comma "a,,b," = ["a"; ""; "b"; ""].
Proof. reflexivity. Qed.

Example slice_game : Py.slice_from 4 "GAMERock" = "Rock".
Proof. reflexivity. Qed.

Example decode_ascii : Py.decode "mid_game" = Some "mid_game".
Proof. reflexivity. Qed.

Example host_session_runs : run_next (host_accepted 3) = host_session 3.
Proof. vm_compute. reflexivity. Qed.

(** A one-round game, Rock against Scissors: the host chooses first, the
    peer's choice arrives, and the scheduled resolution credits a win and
    closes the game. *)
Example one_round_game :
  let a := run_next
             (Server_on_recv (RecvData "GAMEScissors")
                (state_of (event_rps_chosen "Rock" (host_session 1)))) in
  user_profile a = Some (mkProfile "bob" 11 4 2)
  /\ current_round a = Some 1
  /\ last (effects a) = Some (Send ServerClientSocket "DISCONNECTgame_complete").
Proof. vm_compute. repeat split; reflexivity. Qed.

(** The joiner's side of the same round: a loss, and nothing is sent to
    close the game. *)
Example one_round_game_joiner :
  let a := run_next
             (Client_on_recv (RecvData "GAMERock")
                (state_of (event_rps_chosen "Scissors" (joiner_session 1)))) in
  user_profile a = Some (mkProfile "amy" 0 1 0)
  /\ last (effects a)
     = Some (MainTextbox (TxtAscii (Some "Scissors") (Some "Rock")) "system_chat").
Proof. vm_compute. repeat split; reflexivity. Qed.

(** The peer drops out with two of three rounds left: two wins are
    credited, then the session is torn down. *)
Example peer_drops_out :
  let a := run_next
             (Server_on_recv (RecvData "DISCONNECTmid_game")
                (host_at_round 3 2)) in
  user_profile a = Some (mkProfile "bob" 12 4 2)
  /\ pending a = [CbNetworkDisconnected]
  /\ current_round (run_next a) = None.
Proof. vm_compute. repeat split; reflexivity. Qed.

(** A [GAME] payload that is not a key of [choices]: the resolution raises
    and the profile is as before. *)
Example unknown_choice :
  determine_results
    (set_opponent_choice (Some "Lizard")
       (set_player_choice (Some "Rock") (host_session 3)))
  = Raised KeyError
      (set_opponent_choice (Some "Lizard")
         (set_player_choice (Some "Rock") (host_session 3))).
Proof. vm_compute. reflexivity. Qed.

(** No [ACK] within the timeout: the joiner reports it (GUI updates being
    allowed), closes its socket and schedules the teardown; no session
    starts. *)
Example connection_refused :
  let a := Client_start "192.168.1.10" 51515 ReplyTimeout true
             (set_client_thread_alive true
                (set_current_round None (joiner_session 3))) in
  effects a
  = [SendTo ClientUdpSocket "CONNECT192.168.1.10,amy" "192.168.1.10" 12121;
     MessageBox "Server Connection Error"; Close ClientSocket]
  /\ pending a = [CbNetworkDisconnected]
  /\ client_thread_alive a = false.
Proof. vm_compute. repeat split; reflexivity. Qed.

(** The single byte 0xFF is not UTF-8. *)
Example decode_ff : Py.decode (String (ascii_of_nat 255) "") = None.
Proof. reflexivity. Qed.

(** U+00E9 is the two bytes 0xC3 0xA9. *)
Example decode_e_acute :
  Py.decode (String (ascii_of_nat 195) (String (ascii_of_nat 169) "")) <> None.
Proof. discriminate. Qed.

(** ** Basic facts *)

Lemma count_app {A : Type} (f : A -> bool) (l k : list A) :
  count f (l ++ k) = (count f l + count f k)%nat.
Proof.
  induction l as [|x l IH]; simpl; [reflexivity|].
  rewrite IH. lia.
Qed.

Lemma choices_at_name (c : Choice) :
  choices_at (Some (choice_name c)) = Some (choice_code c).
Proof. destruct c; reflexivity. Qed.

(** Only the three names are keys of [choices]. *)
Lemma choices_at_inv (x : option string) (n : Z) :
  choices_at x = Some n -> exists c, x = Some (choice_name c) /\ n = choice_code c.
Proof.
  destruct x as [k|]; simpl; [|discriminate].
  unfold choices. intros H.
  destruct (decide (k = "Rock")) as [->|H1].
  { exists Rock. rewrite lookup_insert_eq in H. by inversion H. }
  rewrite lookup_insert_ne in H by done.
  destruct (decide (k = "Paper")) as [->|H2].
  { exists Paper. rewrite lookup_insert_eq in H. by inversion H. }
  rewrite lookup_insert_ne in H by done.
  destruct (decide (k = "Scissors")) as [->|H3].
  { exists Scissors. rewrite lookup_insert_eq in H. by inversion H. }
  rewrite lookup_insert_ne in H by done.
  rewrite lookup_empty in H. discriminate.
Qed.

Lemma choices_at_truthy (x : option string) (n : Z) :
  choices_at x = Some n -> Py.truthy_str x = true.
Proof.
  intros H. apply choices_at_inv in H as (c & -> & _). by destruct c.
Qed.

(** [determine_results] with both choices valid and a profile loaded. *)
Lemma determine_results_ok (a : App) (x y c t : Z) (p : Profile) :
  choices_at (player_choice a) = Some x ->
  choices_at (opponent_choice a) = Some y ->
  user_profile a = Some p ->
  current_round a = Some c ->
  total_rounds a = Some t ->
  exists a',
    determine_results a = Done a'
    /\ user_profile a' = Some (scored ((x - y) mod 3) p)
    /\ total_rounds a' = Some t
    /\ pending a' = pending a
    /\ count is_outcome (effects a') = S (count is_outcome (effects a))
    /\ (c < t ->
        current_round a' = Some (c + 1)
        /\ player_choice a' = None /\ opponent_choice a' = None)
    /\ (t <= c ->
        current_round a' = Some c
        /\ player_choice a' = player_choice a
        /\ opponent_choice a' = opponent_choice a
        /\ effects a' =
             (effects a
              ++ [ProfileStats (wins (scored ((x - y) mod 3) p))
                    (loses (scored ((x - y) mod 3) p))
                    (ties (scored ((x - y) mod 3) p));
                  MainTextbox (TxtAscii (player_choice a) (opponent_choice a))
                    "system_chat"]
              ++ game_complete_close a)%list).
Proof.
  intros Hx Hy Hp Hc Ht.
  assert (Hs : (if (x - y) mod 3 =? 0 then add_ties 1
                else if (x - y) mod 3 =? 1 then add_wins 1 else add_loses 1) p
               = scored ((x - y) mod 3) p).
  { unfold scored. by repeat case_match. }
  unfold determine_results. rewrite Hx, Hy.
  unfold bump. rewrite Hp. cbn [bind].
  unfold update_profile_stats. cbn [user_profile set_user_profile bind].
  unfold advance_round, network_chat. cbn. rewrite Hc, Ht.
  destruct (Z.ltb_spec c t) as [Hlt|Hge].
  - eexists. split; [reflexivity|]. cbn.
    rewrite !count_app, Hs. cbn.
    repeat split; try lia; try reflexivity; try assumption.
  - eexists. split; [reflexivity|].
    unfold game_complete_close, Server_stop. cbn.
    destruct (server_thread_alive a), (client_connected a); cbn;
      rewrite ?count_app, Hs; cbn; rewrite <- ?app_assoc; cbn;
      repeat split; try lia; try reflexivity; try assumption.
Qed.

(** ** Round resolution *)

(** C1. For every pair of choices, [determine_results] returns, and with
    delta = (local - remote) mod 3 under Rock=0, Paper=1, Scissors=2 it
    adds one tie when delta = 0, one win when delta = 1 and one loss when
    delta = 2, leaving the other two counters alone; delta = 0 exactly when
    the choices are equal, delta = 1 exactly when the local choice beats
    the remote one (Rock beats Scissors, Paper beats Rock, Scissors beats
    Paper), and delta = 2 exactly for the reverse pairs. *)
Theorem round_resolution_law (l r : Choice) (a : App) (p : Profile) (c t : Z) :
  player_choice a = Some (choice_name l) ->
  opponent_choice a = Some (choice_name r) ->
  user_profile a = Some p ->
  current_round a = Some c ->
  total_rounds a = Some t ->
  let delta := (choice_code l - choice_code r) mod 3 in
  exists a' p',
    determine_results a = Done a'
    /\ user_profile a' = Some p'
    /\ username p' = username p
    /\ (delta = 0 \/ delta = 1 \/ delta = 2)
    /\ (delta = 0 ->
        ties p' = ties p + 1 /\ wins p' = wins p /\ loses p' = loses p)
    /\ (delta = 1 ->
        wins p' = wins p + 1 /\ loses p' = loses p /\ ties p' = ties p)
    /\ (delta = 2 ->
        loses p' = loses p + 1 /\ wins p' = wins p /\ ties p' = ties p)
    /\ (delta = 0 <-> l = r)
    /\ (delta = 1 <-> beats l r = true)
    /\ (delta = 2 <-> beats r l = true).
Proof.
  intros Hl Hr Hp Hc Ht delta.
  destruct (determine_results_ok a (choice_code l) (choice_code r) c t p)
    as (a' & Hrun & Hprof & _); try assumption.
  { rewrite Hl. apply choices_at_name. }
  { rewrite Hr. apply choices_at_name. }
  exists a', (scored delta p).
  split; [exact Hrun|]. split; [exact Hprof|].
  subst delta.
  destruct l, r; cbn; repeat split; try lia; try discriminate;
    try reflexivity; intros; try lia; try discriminate; auto.
Qed.

Lemma round_resolution_law_witness :
  exists a',
    determine_results
      (set_opponent_choice (Some "Scissors")
         (set_player_choice (Some "Rock") (host_session 3))) = Done a'
    /\ (wins <$> user_profile a') = Some 11.
Proof.
  destruct (round_resolution_law Rock Scissors
              (set_opponent_choice (Some "Scissors")
                 (set_player_choice (Some "Rock") (host_session 3)))
              bob 1 3 eq_refl eq_refl eq_refl eq_refl eq_refl)
    as (a' & p' & Hrun & Hp & _ & _ & _ & Hwin & _).
  exists a'. split; [exact Hrun|].
  rewrite Hp. cbn. f_equal.
  destruct (Hwin eq_refl) as [-> _]. reflexivity.
Defined.

(** ** Dropout forfeiture *)

(** C2. A [DISCONNECTmid_game] from the peer schedules
    [dropout_resolution("player")] and nothing else before the loop is
    left. With rounds = totalRounds - (currentRound - 1),
    [dropout_resolution("player")] adds exactly that many wins and
    [dropout_resolution("quitter")] exactly that many losses; each call
    changes one counter only, so a dropout event never credits both. *)
Theorem dropout_forfeiture (a : App) (p : Profile) (t c : Z) :
  user_profile a = Some p ->
  total_rounds a = Some t ->
  current_round a = Some c ->
  let rounds := t - (c - 1) in
  read_body "DISCONNECTmid_game" a = Stop (after (CbDropoutResolution "player") a)
  /\ (exists a',
        dropout_resolution "player" a = Done a'
        /\ user_profile a' = Some (mkProfile (username p) (wins p + rounds)
                                     (loses p) (ties p)))
  /\ (exists a',
        dropout_resolution "quitter" a = Done a'
        /\ user_profile a' = Some (mkProfile (username p) (wins p)
                                     (loses p + rounds) (ties p))).
Proof.
  intros Hp Ht Hc rounds. split; [reflexivity|].
  unfold dropout_resolution. rewrite Ht, Hc. cbn.
  unfold bump, update_profile_stats. rewrite Hp. cbn.
  split; eexists; (split; [reflexivity|]); reflexivity.
Qed.

(** totalRounds = 5 and currentRound = 3: three rounds are forfeited. *)
Lemma dropout_forfeiture_witness :
  (exists a',
     dropout_resolution "player" (host_at_round 5 3) = Done a'
     /\ user_profile a' = Some (mkProfile "bob" 13 4 2))
  /\ (exists a',
        dropout_resolution "quitter" (host_at_round 5 3) = Done a'
        /\ user_profile a' = Some (mkProfile "bob" 10 7 2)).
Proof.
  exact (proj2 (dropout_forfeiture (host_at_round 5 3) bob 5 3
                  eq_refl eq_refl eq_refl)).
Defined.

(** ** The round counter within a session *)

Lemma same_rounds_advance a a' : same_rounds a a' -> round_advance a a'.
Proof. intros [Ht Hc]. split; [exact Ht | left; exact Hc]. Qed.

Lemma same_rounds_trans a b c :
  same_rounds a b -> same_rounds b c -> same_rounds a c.
Proof. unfold same_rounds. intros [-> ->] [-> ->]. done. Qed.

Lemma determine_results_rounds (a : App) :
  round_advance a (state_of (determine_results a)).
Proof.
  unfold round_advance, determine_results, bump, update_profile_stats,
    advance_round, network_chat, Server_stop.
  destruct (choices_at (player_choice a)); cbn; [|by auto].
  destruct (choices_at (opponent_choice a)); cbn; [|by auto].
  destruct (user_profile a); cbn; [|by auto].
  destruct (current_round a) as [c|] eqn:Hc; cbn; [|by auto].
  destruct (total_rounds a) as [t|] eqn:Ht; cbn; [|by auto].
  destruct (Z.ltb_spec c t); cbn.
  - split; [done|]. right. by exists c, t.
  - destruct (server_thread_alive a); cbn; [|by rewrite ?Hc, ?Ht; auto].
    destruct (client_connected a); cbn; rewrite ?Hc, ?Ht; auto.
Qed.

Lemma dropout_resolution_rounds (actor : string) (a : App) :
  same_rounds a (state_of (dropout_resolution actor a)).
Proof.
  unfold same_rounds, dropout_resolution, bump, update_profile_stats.
  split_cases; auto.
Qed.

Lemma send_to_peer_rounds (data : string) (a : App) :
  same_rounds a (send_to_peer data a).
Proof. unfold same_rounds, send_to_peer. split_cases; auto. Qed.

Lemma event_rps_chosen_rounds (value : string) (a : App) :
  round_advance a (state_of (event_rps_chosen value a)).
Proof.
  unfold event_rps_chosen.
  set (a3 := send_to_peer _ _).
  assert (H3 : same_rounds a a3).
  { subst a3. eapply same_rounds_trans; [|apply send_to_peer_rounds]. done. }
  destruct H3 as [Ht Hc].
  destruct (Py.truthy_str (opponent_choice a3)).
  - destruct (determine_results_rounds a3) as [Ht' Hc'].
    split; [congruence|].
    rewrite <- Hc, <- Ht. exact Hc'.
  - cbn. split; [exact Ht | left; exact Hc].
Qed.

Lemma event_chat_rounds (msg : string) (a : App) :
  same_rounds a (event_chat msg a).
Proof.
  unfold event_chat. destruct (Py.truthy_str (Some msg)); [|done].
  eapply same_rounds_trans; [|apply send_to_peer_rounds]. done.
Qed.

Lemma disconnect_scope_rounds (scope : option string) (a : App) :
  same_rounds a (disconnect_scope scope a).
Proof.
  unfold same_rounds, disconnect_scope, event_logout. split_cases; auto.
Qed.

Lemma event_disconnect_rounds (scope answer : option string) (a : App) :
  same_rounds a (state_of (event_disconnect scope answer a)).
Proof.
  unfold event_disconnect.
  destruct (Py.truthy_int (current_round a)).
  - destruct (total_rounds a) eqn:Ht; [|done].
    destruct (current_round a) eqn:Hc; [|done].
    destruct (decide (answer = Some "Proceed")).
    + set (a1 := if server_thread_alive _ then _ else _).
      assert (H1 : same_rounds a a1).
      { subst a1. unfold same_rounds, Server_stop, Client_stop.
        split_cases; auto. }
      pose proof (dropout_resolution_rounds "quitter" a1) as H2.
      destruct (dropout_resolution "quitter" a1) as [a2|ex a2]; cbn in *.
      * destruct (decide (answer = Some "Cancel")); cbn.
        -- eapply same_rounds_trans; eauto.
        -- eapply same_rounds_trans; [|apply disconnect_scope_rounds].
           eapply same_rounds_trans; eauto.
      * eapply same_rounds_trans; eauto.
    + cbn. destruct (decide (answer = Some "Cancel")); cbn.
      * done.
      * eapply same_rounds_trans; [|apply disconnect_scope_rounds]. done.
  - cbn. eapply same_rounds_trans; [|apply disconnect_scope_rounds].
    unfold same_rounds, Server_stop_listen, Server_stop, Client_stop.
    split_cases; auto.
Qed.

Lemma on_exit_rounds (answer : option string) (a : App) :
  same_rounds a (state_of (on_exit answer a)).
Proof.
  unfold on_exit.
  eapply same_rounds_trans; [|apply event_disconnect_rounds]. done.
Qed.

Lemma on_chat_rounds (data : string) (a : App) :
  same_rounds a (iter_state (on_chat data a)).
Proof. unfold same_rounds, on_chat. split_cases; auto. Qed.

Lemma on_game_rounds (data : string) (a : App) :
  same_rounds a (iter_state (on_game data a)).
Proof. unfold same_rounds, on_game. split_cases; auto. Qed.

Lemma read_body_rounds (data : string) (a : App) :
  same_rounds a (iter_state (read_body data a)).
Proof.
  unfold read_body.
  destruct (String.eqb data ""); [done|].
  destruct (Py.startswith data "DISCONNECT").
  { unfold same_rounds. split_cases; auto. }
  pose proof (on_chat_rounds data a) as H.
  destruct (on_chat data a) as [a1| |]; try exact H.
  eapply same_rounds_trans; [exact H | apply on_game_rounds].
Qed.

Lemma Server_on_recv_rounds (r : Recv) (a : App) :
  same_rounds a (Server_on_recv r a).
Proof.
  unfold Server_on_recv, Server_finally, Server_except.
  destruct r as [data|].
  - pose proof (read_body_rounds data a) as H.
    destruct (read_body data a); cbn in *; [done| |];
      (eapply same_rounds_trans; [exact H|]);
      unfold same_rounds; split_cases; auto.
  - unfold same_rounds. split_cases; auto.
Qed.

Lemma Client_on_recv_rounds (r : Recv) (a : App) :
  same_rounds a (Client_on_recv r a).
Proof.
  unfold Client_on_recv, Client_finally, Client_except.
  destruct r as [data|].
  - pose proof (read_body_rounds data a) as H.
    destruct (read_body data a); cbn in *; [done| |];
      (eapply same_rounds_trans; [exact H|]);
      unfold same_rounds; split_cases; auto.
  - unfold same_rounds. split_cases; auto.
Qed.

Lemma session_step_rounds (a a' : App) :
  session_step a a' -> round_advance a a'.
Proof.
  intros H.
  destruct H as [v a|msg a|sp bp a|scope ans a|ans a|cb q a Hq Hcb|r a Hs|r a Hs].
  - apply event_rps_chosen_rounds.
  - apply same_rounds_advance, event_chat_rounds.
  - by apply same_rounds_advance.
  - apply same_rounds_advance, event_disconnect_rounds.
  - apply same_rounds_advance, on_exit_rounds.
  - destruct cb; try discriminate; cbn.
    + by apply same_rounds_advance.
    + apply (determine_results_rounds (set_pending q a)).
    + apply same_rounds_advance.
      apply (dropout_resolution_rounds actor (set_pending q a)).
    + by apply same_rounds_advance.
  - apply same_rounds_advance, Server_on_recv_rounds.
  - apply same_rounds_advance, Client_on_recv_rounds.
Qed.

Lemma round_in_range_step (t : Z) (a a' : App) :
  round_in_range t a -> session_step a a' -> round_in_range t a'.
Proof.
  intros (Ht & c & Hc & Hr) Hstep.
  destruct (session_step_rounds a a' Hstep) as [Ht' [Hsame|Hinc]].
  - split; [congruence|]. exists c. split; [congruence | exact Hr].
  - destruct Hinc as (c0 & t0 & Hc0 & Ht0 & Hlt & Hc').
    split; [congruence|]. exists (c0 + 1). split; [exact Hc'|].
    assert (c0 = c) by congruence. assert (t0 = t) by congruence. lia.
Qed.

Lemma round_in_range_steps (t : Z) (a a' : App) :
  round_in_range t a -> rtc session_step a a' -> round_in_range t a'.
Proof.
  intros H Hsteps. induction Hsteps as [|x y z Hxy _ IH]; [exact H|].
  apply IH. eapply round_in_range_step; eauto.
Qed.

(** C3 as stated fails for a session whose [total_rounds] is below 1. A
    host's slider gives 1 to 5, but a joiner takes [total_rounds] from the
    lookup answer it selected, as it is: the answer ["51515,eve,0"] is
    listed, [event_join] stores [int("0")], and when the connection is
    made [network_connected] sets [current_round] to 1, above
    [total_rounds]. *)
Lemma round_counter_above_total :
  available_servers
    (fst (discover_servers
            [Arrives 20 "51515,eve,0" "192.168.1.66" 12121] lobby))
  = [("192.168.1.66", "51515", "eve", "0")]
  /\ let j0 := set_client_thread_alive true
                 (set_total_rounds (Some 0)
                    (set_opponent_username (Some "eve") lobby)) in
     let j := run_next (Client_start "192.168.1.66" 51515
                          (ReplyData "ACK") true j0) in
     current_round j = Some 1
     /\ total_rounds j = Some 0
     /\ ~ (exists c t,
              current_round j = Some c /\ total_rounds j = Some t /\ c <= t).
Proof.
  split; [vm_compute; reflexivity|].
  cbv zeta. split; [vm_compute; reflexivity|].
  split; [vm_compute; reflexivity|].
  intros (c & t & Hc & Ht & Hle).
  vm_compute in Hc, Ht.
  injection Hc as <-. injection Ht as <-. lia.
Qed.

(** C3. For sessions of at least one round. A session starts with
    [network_connected], which sets [current_round] to 1. When
    [total_rounds] is at least 1 then, whatever the GUI events, callbacks
    and received messages, [current_round] stays between 1 and
    [total_rounds], and no step lowers it. Resolving a round with
    [current_round < total_rounds] clears both choices and adds one to
    [current_round]; resolving the round with
    [current_round = total_rounds] leaves [current_round] as it is, and on
    the host, whose server thread holds the connection, ends by sending
    [DISCONNECTgame_complete]. *)
Theorem round_counter_in_session (a0 : App) (peer : string) (t : Z) :
  total_rounds a0 = Some t ->
  1 <= t ->
  let a1 := state_of (network_connected peer a0) in
  current_round a1 = Some 1
  /\ forall a, rtc session_step a1 a ->
       exists c,
         current_round a = Some c /\ total_rounds a = Some t /\ 1 <= c <= t
         /\ (forall a', session_step a a' ->
               exists c', current_round a' = Some c' /\ c <= c' <= t)
         /\ (forall x y p,
               choices_at (player_choice a) = Some x ->
               choices_at (opponent_choice a) = Some y ->
               user_profile a = Some p ->
               exists a',
                 determine_results a = Done a'
                 /\ (c < t ->
                     current_round a' = Some (c + 1)
                     /\ player_choice a' = None /\ opponent_choice a' = None)
                 /\ (c = t ->
                     current_round a' = Some c
                     /\ (server_thread_alive a = true ->
                         client_connected a = true ->
                         exists es,
                           effects a' =
                             (effects a ++ es
                              ++ [Send ServerClientSocket
                                    "DISCONNECTgame_complete"])%list))).
Proof.
  intros Ht0 Hpos a1.
  assert (Hstart : current_round a1 = Some 1 /\ total_rounds a1 = Some t).
  { subst a1. unfold network_connected. cbn.
    destruct (user_profile a0); cbn; auto. }
  destruct Hstart as [Hc1 Ht1].
  split; [exact Hc1|].
  intros a Hreach.
  assert (Hin : round_in_range t a).
  { eapply round_in_range_steps; [|exact Hreach].
    split; [exact Ht1|]. exists 1. split; [exact Hc1 | lia]. }
  destruct Hin as (Ht & c & Hc & Hr).
  exists c. repeat split; try assumption; try lia.
  - intros a' Hstep.
    destruct (session_step_rounds a a' Hstep) as [Ht' [Hsame|Hinc]].
    + exists c. split; [congruence | lia].
    + destruct Hinc as (c0 & t0 & Hc0 & Ht0' & Hlt & Hc').
      assert (c0 = c) by congruence. assert (t0 = t) by congruence.
      subst c0 t0. exists (c + 1). split; [exact Hc' | lia].
  - intros x y p Hx Hy Hp.
    destruct (determine_results_ok a x y c t p Hx Hy Hp Hc Ht)
      as (a' & Hrun & _ & _ & _ & _ & Hlt & Hge).
    exists a'. split; [exact Hrun|]. split; [exact Hlt|].
    intros ->. destruct Hge as (Hc' & _ & _ & Heff); [lia|].
    split; [exact Hc'|].
    intros Hs Hcc. unfold game_complete_close in Heff.
    rewrite Hs, Hcc in Heff. eexists. exact Heff.
Qed.

Lemma round_counter_in_session_witness :
  current_round (host_session 3) = Some 1.
Proof.
  assert (Ht : total_rounds (set_pending [] (host_accepted 3)) = Some 3)
    by (vm_compute; reflexivity).
  exact (proj1 (round_counter_in_session (set_pending [] (host_accepted 3))
                  "192.168.1.11" 3 Ht ltac:(lia))).
Defined.

(** ** A round resolves only when both choices are in *)

(** The loop body on a [GAME] message. *)
Lemma read_body_game (payload : string) (a : App) :
  read_body ("GAME" ++ payload) a =
  match Py.decode payload with
  | Some c =>
      if Py.truthy_str (player_choice a)
      then Next (after CbDetermineResults (set_opponent_choice (Some c) a))
      else Next (after (CbNetworkChat (TxtHasChosen (opponent_username a))
                          "system_chat")
                   (set_opponent_choice (Some c) a))
  | None => Throw UnicodeDecodeError a
  end.
Proof.
  change ("GAME" ++ payload)
    with (String "G" (String "A" (String "M" (String "E" payload)))).
  reflexivity.
Qed.

(** The loop body on a [CHAT] message. *)
Lemma read_body_chat (msg : string) (a : App) :
  read_body ("CHAT" ++ msg) a =
  match Py.decode msg with
  | Some m => Next (after (CbNetworkChat (TxtChat m) "peer_chat") a)
  | None => Throw UnicodeDecodeError a
  end.
Proof.
  change ("CHAT" ++ msg)
    with (String "C" (String "H" (String "A" (String "T" msg)))).
  unfold read_body, on_chat, on_game. cbn.
  by destruct (Py.decode msg).
Qed.

(** Each handler running to its end before the other thread acts: a
    local choice submitted while the remote choice is absent is
    stored and nothing is resolved or scheduled: no outcome is shown, the
    profile and the round counter are unchanged. A [GAME] message received
    while the local choice is absent, by the host or by the joiner, stores
    the remote choice and schedules no resolution. The submission that
    completes the pair is the trigger: a local choice made when the remote
    one is in resolves the round at once, and a [GAME] message received
    when the local one is in schedules [determine_results]. And
    [determine_results] itself, called with a choice missing, raises
    [KeyError] before it changes anything. *)
Theorem resolution_needs_both_choices (a : App) :
  (forall value,
      Py.truthy_str (opponent_choice a) = false ->
      exists a',
        event_rps_chosen value a = Done a'
        /\ player_choice a' = Some value
        /\ opponent_choice a' = opponent_choice a
        /\ user_profile a' = user_profile a
        /\ current_round a' = current_round a
        /\ pending a' = pending a
        /\ count is_outcome (effects a') = count is_outcome (effects a))
  /\ (forall payload c,
         Py.decode payload = Some c ->
         Py.truthy_str (player_choice a) = false ->
         exists a',
           Server_on_recv (RecvData ("GAME" ++ payload)) a = a'
           /\ Client_on_recv (RecvData ("GAME" ++ payload)) a = a'
           /\ opponent_choice a' = Some c
           /\ player_choice a' = player_choice a
           /\ user_profile a' = user_profile a
           /\ current_round a' = current_round a
           /\ effects a' = effects a
           /\ count is_determine (pending a') = count is_determine (pending a))
  /\ (forall l r p c t,
         opponent_choice a = Some (choice_name r) ->
         user_profile a = Some p ->
         current_round a = Some c ->
         total_rounds a = Some t ->
         exists a',
           event_rps_chosen (choice_name l) a = Done a'
           /\ count is_outcome (effects a') = S (count is_outcome (effects a)))
  /\ (forall payload c,
         Py.decode payload = Some c ->
         Py.truthy_str (player_choice a) = true ->
         exists a',
           Server_on_recv (RecvData ("GAME" ++ payload)) a = a'
           /\ Client_on_recv (RecvData ("GAME" ++ payload)) a = a'
           /\ opponent_choice a' = Some c
           /\ pending a' = (pending a ++ [CbDetermineResults])%list)
  /\ (Py.truthy_str (player_choice a) = false
      \/ Py.truthy_str (opponent_choice a) = false ->
      determine_results a = Raised KeyError a).
Proof.
  split; [|split; [|split; [|split]]].
  - intros value Hopp. unfold event_rps_chosen, send_to_peer. cbn.
    destruct (server_thread_alive a); [|destruct (client_thread_alive a)];
      cbn; rewrite Hopp; eexists; (split; [reflexivity|]); cbn;
      rewrite ?count_app; cbn; repeat split; lia.
  - intros payload c Hdec Hloc. unfold Server_on_recv, Client_on_recv.
    rewrite read_body_game, Hdec, Hloc.
    eexists. split; [reflexivity|]. split; [reflexivity|]. cbn.
    rewrite count_app. cbn. repeat split; lia.
  - intros l r p c t Hopp Hp Hc Ht.
    unfold event_rps_chosen.
    set (a3 := send_to_peer _ _).
    assert (H3 : opponent_choice a3 = opponent_choice a
                 /\ player_choice a3 = Some (choice_name l)
                 /\ user_profile a3 = user_profile a
                 /\ current_round a3 = current_round a
                 /\ total_rounds a3 = total_rounds a
                 /\ count is_outcome (effects a3) = count is_outcome (effects a)).
    { subst a3. unfold send_to_peer. cbn.
      destruct (server_thread_alive a); [|destruct (client_thread_alive a)];
        cbn; rewrite ?count_app; cbn; repeat split; lia. }
    destruct H3 as (Ho3 & Hl3 & Hp3 & Hc3 & Ht3 & Hn3).
    rewrite Ho3, Hopp. replace (Py.truthy_str (Some (choice_name r))) with true
      by (by destruct r).
    destruct (determine_results_ok a3 (choice_code l) (choice_code r) c t p)
      as (a' & Hrun & _ & _ & _ & Hcount & _); try congruence.
    { rewrite Hl3. apply choices_at_name. }
    { rewrite Ho3, Hopp. apply choices_at_name. }
    exists a'. split; [exact Hrun|]. congruence.
  - intros payload c Hdec Hloc. unfold Server_on_recv, Client_on_recv.
    rewrite read_body_game, Hdec, Hloc.
    eexists. split; [reflexivity|]. split; [reflexivity|].
    cbn. split; reflexivity.
  - intros Hmiss. unfold determine_results.
    destruct (choices_at (player_choice a)) as [x|] eqn:Hx; [|reflexivity].
    destruct (choices_at (opponent_choice a)) as [y|] eqn:Hy; [|reflexivity].
    apply choices_at_truthy in Hx. apply choices_at_truthy in Hy.
    destruct Hmiss; congruence.
Qed.

(** In round 1 of a three-round game the host's own choice alone resolves
    nothing. *)
Lemma resolution_needs_both_choices_witness :
  exists a',
    event_rps_chosen "Rock" (host_session 3) = Done a'
    /\ player_choice a' = Some "Rock"
    /\ user_profile a' = user_profile (host_session 3).
Proof.
  assert (H : Py.truthy_str (opponent_choice (host_session 3)) = false)
    by (vm_compute; reflexivity).
  destruct (proj1 (resolution_needs_both_choices (host_session 3)) "Rock" H)
    as (a' & Hrun & Hl & _ & Hp & _).
  exists a'. repeat split; assumption.
Defined.

Lemma event_rps_chosen_parts (value : string) (a : App) :
  event_rps_chosen value a
  = event_rps_chosen_test (event_rps_chosen_send value a).
Proof. reflexivity. Qed.

(** C4. The claim is what the code aims at, and the code misses it when
    the two threads interleave. bob hosts the last round of three. He
    presses Rock: the handler stores his choice and sends it. Before the
    handler tests [opponent_choice], the worker thread reads amy's
    [GAMEScissors]: it stores her choice, finds bob's choice in and
    schedules [determine_results]. The handler goes on, finds amy's choice
    in and calls [determine_results] itself. The last round keeps both
    choices, so the scheduled call resolves it a second time: two pictures
    are shown and bob's wins go from 10 to 12. With the handler run to its
    end first, the round is resolved once, by the message. *)
Theorem last_round_scored_twice :
  let h0 := host_at_round 3 3 in
  let h1 := event_rps_chosen_send "Rock" h0 in
  let h2 := Server_on_recv (RecvData "GAMEScissors") h1 in
  let h3 := state_of (event_rps_chosen_test h2) in
  let h4 := run_next h3 in
  let g1 := state_of (event_rps_chosen "Rock" h0) in
  let g2 := run_next (Server_on_recv (RecvData "GAMEScissors") g1) in
  user_profile h0 = Some (mkProfile "bob" 10 4 2)
  /\ pending h2 = [CbDetermineResults]
  /\ user_profile h3 = Some (mkProfile "bob" 11 4 2)
  /\ pending h3 = [CbDetermineResults]
  /\ user_profile h4 = Some (mkProfile "bob" 12 4 2)
  /\ count is_outcome (effects h4) = (count is_outcome (effects h0) + 2)%nat
  /\ user_profile g2 = Some (mkProfile "bob" 11 4 2)
  /\ count is_outcome (effects g2) = (count is_outcome (effects h0) + 1)%nat.
Proof.
  cbv zeta.
  split; [vm_compute; reflexivity|]. split; [vm_compute; reflexivity|].
  split; [vm_compute; reflexivity|]. split; [vm_compute; reflexivity|].
  split; [vm_compute; reflexivity|]. split; [vm_compute; reflexivity|].
  split; vm_compute; reflexivity.
Qed.

(** ** Leaving the read loop *)

Lemma read_body_disconnect (stage : string) (a : App) :
  read_body ("DISCONNECT" ++ stage) a =
  match Py.decode stage with
  | Some game_state =>
      Stop (if String.eqb game_state "mid_game"
            then after (CbDropoutResolution "player") a else a)
  | None => Throw UnicodeDecodeError a
  end.
Proof.
  change ("DISCONNECT" ++ stage)
    with (String "D" (String "I" (String "S" (String "C" (String "O"
           (String "N" (String "N" (String "E" (String "C" (String "T"
              stage)))))))))).
  reflexivity.
Qed.

(** An iteration adds to the log and to the queue, never a
    [network_disconnected], and touches neither flag. *)
Lemma read_body_adds (data : string) (a : App) :
  exists cbs,
    adds a (iter_state (read_body data a)) [] cbs
    /\ count is_disconnected cbs = 0%nat
    /\ allow_gui_update (iter_state (read_body data a)) = allow_gui_update a
    /\ server_thread_alive (iter_state (read_body data a)) = server_thread_alive a
    /\ client_thread_alive (iter_state (read_body data a)) = client_thread_alive a.
Proof.
  unfold adds, read_body.
  destruct (String.eqb data "").
  { exists []. cbn. by rewrite !app_nil_r. }
  destruct (Py.startswith data "DISCONNECT").
  { destruct (Py.decode _) as [g|]; cbn.
    - destruct (String.eqb g "mid_game"); cbn.
      + eexists [_]. by rewrite !app_nil_r.
      + exists []. by rewrite !app_nil_r.
    - exists []. by rewrite !app_nil_r. }
  unfold on_chat, on_game.
  destruct (Py.startswith data "CHAT"), (Py.startswith data "GAME"); cbn;
    repeat (match goal with
            | |- context [match Py.decode ?x with _ => _ end] =>
                destruct (Py.decode x); cbn
            | |- context [if Py.truthy_str ?x then _ else _] =>
                destruct (Py.truthy_str x); cbn
            end);
    first [ exists []; cbn; by rewrite !app_nil_r
          | eexists [_]; cbn; by rewrite ?app_nil_r
          | eexists [_; _]; cbn; by rewrite <- ?app_assoc, ?app_nil_r ].
Qed.

Lemma adds_trans a b c es1 cbs1 es2 cbs2 :
  adds a b es1 cbs1 -> adds b c es2 cbs2 ->
  adds a c (es1 ++ es2) (cbs1 ++ cbs2).
Proof.
  unfold adds. intros [-> ->] [-> ->]. by rewrite !app_assoc.
Qed.

(** One [recv] of the joiner whose thread is running. *)
Lemma Client_on_recv_adds (r : Recv) (a : App) :
  client_thread_alive a = true ->
  exists es cbs,
    adds a (Client_on_recv r a) es cbs
    /\ allow_gui_update (Client_on_recv r a) = allow_gui_update a
    /\ count is_disconnected cbs =
         (if negb (client_thread_alive (Client_on_recv r a)) && allow_gui_update a
          then 1 else 0)%nat
    /\ count (is_close ClientSocket) es =
         (if client_thread_alive (Client_on_recv r a) then 0 else 1)%nat.
Proof.
  intros Halive. unfold Client_on_recv.
  destruct r as [data|].
  - destruct (read_body_adds data a) as (cbs0 & [He Hp] & Hn & Hallow & _ & Hcl).
    unfold Client_finally, Client_except, adds.
    destruct (read_body data a) as [a1|a1|ex a1]; cbn in *.
    + exists [], cbs0. rewrite Hcl, Halive, Hallow. cbn.
      rewrite He. repeat split; auto.
    + destruct (allow_gui_update a) eqn:Ha; cbn;
        rewrite ?Hallow; cbn; rewrite ?Hallow; cbn;
        rewrite ?He, ?Hp, ?app_nil_r.
      * exists [Close ClientSocket], (cbs0 ++ [CbNetworkDisconnected])%list.
        rewrite count_app, Hn, app_assoc. by cbn.
      * exists [Close ClientSocket], cbs0. by rewrite Hn.
    + destruct (allow_gui_update a) eqn:Ha; cbn;
        rewrite ?Hallow; cbn; rewrite ?Hallow; cbn;
        rewrite ?He, ?Hp, ?app_nil_r.
      * exists [MessageBox "Server Connection Error"; Close ClientSocket],
          (cbs0 ++ [CbNetworkDisconnected])%list.
        rewrite count_app, Hn, <- !app_assoc. by cbn.
      * exists [Close ClientSocket], cbs0. by rewrite Hn.
  - unfold Client_finally, Client_except, adds.
    destruct (allow_gui_update a) eqn:Hallow; cbn; rewrite ?Hallow; cbn.
    + exists [MessageBox "Server Connection Error"; Close ClientSocket],
        [CbNetworkDisconnected].
      rewrite <- !app_assoc. by cbn.
    + exists [Close ClientSocket], []. by rewrite app_nil_r.
Qed.

(** One [recv] of the host whose thread is running. *)
Lemma Server_on_recv_adds (r : Recv) (a : App) :
  server_thread_alive a = true ->
  exists es cbs,
    adds a (Server_on_recv r a) es cbs
    /\ allow_gui_update (Server_on_recv r a) = allow_gui_update a
    /\ count is_disconnected cbs =
         (if negb (server_thread_alive (Server_on_recv r a)) && allow_gui_update a
          then 1 else 0)%nat.
Proof.
  intros Halive. unfold Server_on_recv.
  destruct r as [data|].
  - destruct (read_body_adds data a) as (cbs0 & [He Hp] & Hn & Hallow & Hsv & _).
    unfold Server_finally, Server_except, adds.
    destruct (read_body data a) as [a1|a1|ex a1]; cbn in *.
    + exists [], cbs0. rewrite Hsv, Halive, Hallow. cbn.
      rewrite He. repeat split; auto.
    + destruct (allow_gui_update a) eqn:Ha; cbn;
        rewrite ?Hallow; cbn; rewrite ?Hallow; cbn;
        rewrite ?He, ?Hp, ?app_nil_r.
      * exists [Close ServerClientSocket; Close ServerSocket],
          (cbs0 ++ [CbNetworkDisconnected])%list.
        rewrite count_app, Hn, app_assoc, <- !app_assoc. by cbn.
      * exists [Close ServerClientSocket; Close ServerSocket], cbs0.
        rewrite Hn, <- !app_assoc. by cbn.
    + destruct (allow_gui_update a) eqn:Ha; cbn;
        rewrite ?Hallow; cbn; rewrite ?Hallow; cbn;
        rewrite ?He, ?Hp, ?app_nil_r.
      * exists [MessageBox "Server Connection Error"],
          (cbs0 ++ [CbNetworkDisconnected])%list.
        rewrite count_app, Hn, app_assoc. by cbn.
      * exists [], cbs0. by rewrite Hn, app_nil_r.
  - unfold Server_finally, Server_except, adds.
    destruct (allow_gui_update a) eqn:Hallow; cbn; rewrite ?Hallow; cbn.
    + exists [MessageBox "Server Connection Error"], [CbNetworkDisconnected].
      by cbn.
    + exists [], []. by rewrite !app_nil_r.
Qed.

Lemma Client_loop_dead (reads : list Recv) (a : App) :
  client_thread_alive a = false -> Client_loop reads a = a.
Proof. intros H. destruct reads; cbn; [done|]. by rewrite H. Qed.

Lemma Server_loop_dead (reads : list Recv) (a : App) :
  server_thread_alive a = false -> Server_loop reads a = a.
Proof. intros H. destruct reads; cbn; [done|]. by rewrite H. Qed.

(** Over the whole life of the joiner's loop: one notification when the
    loop has been left and GUI updates are allowed, none otherwise. *)
Lemma Client_loop_notifications (reads : list Recv) (a : App) :
  client_thread_alive a = true ->
  exists es cbs,
    adds a (Client_loop reads a) es cbs
    /\ count is_disconnected cbs =
         (if negb (client_thread_alive (Client_loop reads a)) && allow_gui_update a
          then 1 else 0)%nat.
Proof.
  revert a. induction reads as [|r rest IH]; intros a Halive.
  - exists [], []. cbn. rewrite Halive. unfold adds. by rewrite !app_nil_r.
  - cbn. rewrite Halive.
    destruct (Client_on_recv_adds r a Halive) as (es1 & cbs1 & H1 & Hallow & Hn1 & _).
    destruct (client_thread_alive (Client_on_recv r a)) eqn:Hnext.
    + destruct (IH _ Hnext) as (es2 & cbs2 & H2 & Hn2).
      exists (es1 ++ es2)%list, (cbs1 ++ cbs2)%list.
      split; [eapply adds_trans; eauto|].
      rewrite count_app, Hn1, Hn2, Hallow. by cbn.
    + rewrite Client_loop_dead by exact Hnext.
      exists es1, cbs1. split; [exact H1|]. by rewrite Hn1, Hnext.
Qed.

Lemma Server_loop_notifications (reads : list Recv) (a : App) :
  server_thread_alive a = true ->
  exists es cbs,
    adds a (Server_loop reads a) es cbs
    /\ count is_disconnected cbs =
         (if negb (server_thread_alive (Server_loop reads a)) && allow_gui_update a
          then 1 else 0)%nat.
Proof.
  revert a. induction reads as [|r rest IH]; intros a Halive.
  - exists [], []. cbn. rewrite Halive. unfold adds. by rewrite !app_nil_r.
  - cbn. rewrite Halive.
    destruct (Server_on_recv_adds r a Halive) as (es1 & cbs1 & H1 & Hallow & Hn1).
    destruct (server_thread_alive (Server_on_recv r a)) eqn:Hnext.
    + destruct (IH _ Hnext) as (es2 & cbs2 & H2 & Hn2).
      exists (es1 ++ es2)%list, (cbs1 ++ cbs2)%list.
      split; [eapply adds_trans; eauto|].
      rewrite count_app, Hn1, Hn2, Hallow. by cbn.
    + rewrite Server_loop_dead by exact Hnext.
      exists es1, cbs1. split; [exact H1|]. by rewrite Hn1, Hnext.
Qed.

(** C5, as the code has it. When the read loop is left, by a [DISCONNECT]
    message, a zero-length read or an I/O error, the worker thread ends and
    nothing further is received. [network_disconnected] is scheduled once
    if [allow_gui_update] holds and not at all if it does not (the
    application is exiting). The joiner closes its socket on every exit;
    the host closes the connection and the listening socket when the exit
    is by a [DISCONNECT] message or a zero-length read. Over any sequence
    of reads, the number of notifications is one if the loop has been left
    with [allow_gui_update] set, and zero otherwise. *)
Theorem read_loop_exit (r : Recv) (a : App) :
  ExitCause r ->
  (client_thread_alive a = true ->
   client_thread_alive (Client_on_recv r a) = false
   /\ (exists es cbs,
         adds a (Client_on_recv r a) es cbs
         /\ count (is_close ClientSocket) es = 1%nat
         /\ count is_disconnected cbs
            = (if allow_gui_update a then 1 else 0)%nat)
   /\ (forall rest, Client_loop (r :: rest) a = Client_on_recv r a)
   /\ (forall reads,
         exists es cbs,
           adds a (Client_loop reads a) es cbs
           /\ count is_disconnected cbs
              = (if negb (client_thread_alive (Client_loop reads a))
                    && allow_gui_update a
                 then 1 else 0)%nat))
  /\ (server_thread_alive a = true ->
      server_thread_alive (Server_on_recv r a) = false
      /\ (exists es cbs,
            adds a (Server_on_recv r a) es cbs
            /\ count is_disconnected cbs
               = (if allow_gui_update a then 1 else 0)%nat
            /\ (r <> RecvFails ->
                count (is_close ServerClientSocket) es = 1%nat
                /\ count (is_close ServerSocket) es = 1%nat))
      /\ (forall rest, Server_loop (r :: rest) a = Server_on_recv r a)
      /\ (forall reads,
            exists es cbs,
              adds a (Server_loop reads a) es cbs
              /\ count is_disconnected cbs
                 = (if negb (server_thread_alive (Server_loop reads a))
                       && allow_gui_update a
                    then 1 else 0)%nat)).
Proof.
  intros Hexit. split; intros Halive.
  - assert (Hdead : client_thread_alive (Client_on_recv r a) = false).
    { destruct Hexit as [stage Hdec| |]; unfold Client_on_recv.
      - rewrite read_body_disconnect.
        destruct (Py.decode stage); [reflexivity | done].
      - reflexivity.
      - reflexivity. }
    split; [exact Hdead|].
    destruct (Client_on_recv_adds r a Halive) as (es & cbs & Hadds & _ & Hn & Hcl).
    rewrite Hdead in Hn, Hcl. cbn in Hn.
    split; [by exists es, cbs|].
    split.
    + intros rest. cbn. rewrite Halive. by apply Client_loop_dead.
    + intros reads. by apply Client_loop_notifications.
  - assert (Hdead : server_thread_alive (Server_on_recv r a) = false).
    { destruct Hexit as [stage Hdec| |]; unfold Server_on_recv.
      - rewrite read_body_disconnect.
        destruct (Py.decode stage); [reflexivity | done].
      - reflexivity.
      - reflexivity. }
    split; [exact Hdead|]. split; [|split].
    + unfold adds. destruct Hexit as [stage Hdec| |]; unfold Server_on_recv.
      * rewrite read_body_disconnect.
        destruct (Py.decode stage) as [g|]; [|done].
        unfold Server_finally.
        destruct (String.eqb g "mid_game"), (allow_gui_update a) eqn:Ha;
          cbn; rewrite Ha; cbn.
        -- exists [Close ServerClientSocket; Close ServerSocket],
             [CbDropoutResolution "player"; CbNetworkDisconnected].
           by rewrite <- !app_assoc.
        -- exists [Close ServerClientSocket; Close ServerSocket],
             [CbDropoutResolution "player"].
           by rewrite <- !app_assoc.
        -- exists [Close ServerClientSocket; Close ServerSocket],
             [CbNetworkDisconnected].
           by rewrite <- !app_assoc.
        -- exists [Close ServerClientSocket; Close ServerSocket], [].
           by rewrite <- !app_assoc, app_nil_r.
      * unfold Server_finally. cbn.
        destruct (allow_gui_update a) eqn:Ha; cbn.
        -- exists [Close ServerClientSocket; Close ServerSocket],
             [CbNetworkDisconnected].
           by rewrite <- !app_assoc.
        -- exists [Close ServerClientSocket; Close ServerSocket], [].
           by rewrite <- !app_assoc, app_nil_r.
      * unfold Server_finally, Server_except.
        destruct (allow_gui_update a) eqn:Ha; cbn; rewrite ?Ha; cbn.
        -- by exists [MessageBox "Server Connection Error"],
             [CbNetworkDisconnected].
        -- exists [], []. by rewrite !app_nil_r.
    + intros rest. cbn. rewrite Halive. by apply Server_loop_dead.
    + intros reads. by apply Server_loop_notifications.
Qed.

(** The peer closes the connection in the first round of a three-round
    game: bob's host closes both sockets and schedules one notification. *)
Lemma read_loop_exit_witness :
  server_thread_alive (Server_on_recv (RecvData "") (host_session 3)) = false
  /\ notified_once (host_session 3)
       (Server_on_recv (RecvData "") (host_session 3)).
Proof.
  assert (Halive : server_thread_alive (host_session 3) = true)
    by (vm_compute; reflexivity).
  destruct (proj2 (read_loop_exit (RecvData "") (host_session 3)
                     exit_peer_closed) Halive)
    as (Hdead & (es & cbs & [_ Hp] & Hn & _) & _).
  split; [exact Hdead|].
  exists cbs. split; [exact Hp|].
  rewrite Hn. vm_compute. reflexivity.
Defined.

(** C5 as stated fails: once the user has closed the window mid-game
    ([on_exit] clears [allow_gui_update]), the loop is left on the peer's
    close without any notification. *)
Lemma read_loop_exit_without_notification :
  ExitCause (RecvData "")
  /\ server_thread_alive (state_of (on_exit (Some "Proceed") (host_session 3)))
     = true
  /\ ~ notified_once
         (state_of (on_exit (Some "Proceed") (host_session 3)))
         (Server_on_recv (RecvData "")
            (state_of (on_exit (Some "Proceed") (host_session 3)))).
Proof.
  split; [constructor|]. split; [vm_compute; reflexivity|].
  intros (cbs & Hp & Hn).
  vm_compute in Hp.
  destruct cbs; [discriminate Hn | discriminate Hp].
Qed.

(** The host's I/O error path closes no socket: the two [close] calls
    stand after the loop inside the [try], and [finally] has none. *)
Lemma Server_recv_error_closes_nothing :
  effects (Server_on_recv RecvFails (host_session 3))
  = (effects (host_session 3) ++ [MessageBox "Server Connection Error"])%list.
Proof. vm_compute. reflexivity. Qed.

(** ** Submitting a local choice twice *)

(** C6 as stated fails: with "Rock" pending and no remote choice yet, a
    second call with "Paper" returns normally and "Paper" replaces
    "Rock". *)
Lemma second_choice_overwrites :
  player_choice (state_of (event_rps_chosen "Rock" (host_session 3)))
  = Some "Rock"
  /\ exists a',
       event_rps_chosen "Paper"
         (state_of (event_rps_chosen "Rock" (host_session 3))) = Done a'
       /\ player_choice a' = Some "Paper".
Proof.
  split; [vm_compute; reflexivity|].
  eexists. split; vm_compute; reflexivity.
Qed.

(** C6, as the code has it. [event_rps_chosen] has no check for a pending
    local choice: called while one is pending and the remote choice is
    still absent, it returns normally, disables the choice buttons, stores
    the new value over the pending one and sends it to the peer. Only the
    disabled buttons keep the GUI from submitting twice. *)
Theorem local_choice_overwrites_pending (value : string) (a : App) :
  Py.truthy_str (player_choice a) = true ->
  Py.truthy_str (opponent_choice a) = false ->
  exists a',
    event_rps_chosen value a = Done a'
    /\ player_choice a' = Some value
    /\ effects a' =
         (effects a
          ++ [RpsButton "disabled"]
          ++ (if server_thread_alive a
              then [Send ServerClientSocket ("GAME" ++ value)]
              else if client_thread_alive a
                   then [Send ClientSocket ("GAME" ++ value)]
                   else [])
          ++ [MainTextbox (TxtWaiting (opponent_username a)) "system_chat"])%list.
Proof.
  intros _ Hopp. unfold event_rps_chosen, send_to_peer, network_chat. cbn.
  destruct (server_thread_alive a); [|destruct (client_thread_alive a)];
    cbn; rewrite Hopp; eexists; (split; [reflexivity|]); cbn;
    rewrite <- ?app_assoc; split; reflexivity.
Qed.

Lemma local_choice_overwrites_pending_witness :
  exists a',
    event_rps_chosen "Paper"
      (state_of (event_rps_chosen "Rock" (host_session 3))) = Done a'
    /\ player_choice a' = Some "Paper".
Proof.
  assert (H1 : Py.truthy_str
                 (player_choice
                    (state_of (event_rps_chosen "Rock" (host_session 3))))
               = true) by (vm_compute; reflexivity).
  assert (H2 : Py.truthy_str
                 (opponent_choice
                    (state_of (event_rps_chosen "Rock" (host_session 3))))
               = false) by (vm_compute; reflexivity).
  destruct (local_choice_overwrites_pending "Paper" _ H1 H2)
    as (a' & Hrun & Hl & _).
  exists a'. split; assumption.
Defined.

(** ** Discovery *)

Lemma discover_loop_quiet (env : list Arrival) (acc : list Host) (t : Z) :
  quiet env -> discover_loop env acc t = mkLookup None acc (t + lookup_timeout).
Proof.
  destruct env as [|[wait data ip port|wait] rest]; cbn; [done| |];
    intros H; destruct (Z.leb_spec lookup_timeout wait); try lia; done.
Qed.

Lemma discover_loop_prompt (pre rest : list Arrival) (acc : list Host) (t : Z) :
  Forall prompt pre ->
  discover_loop (pre ++ rest) acc t
  = discover_loop rest (collected pre acc) (t + total_wait pre).
Proof.
  intros H. revert acc t.
  induction H as [|x pre Hx _ IH]; intros acc t; cbn.
  { f_equal. lia. }
  destruct x as [wait data ip port|wait]; [|destruct Hx].
  destruct Hx as [Hw Hd].
  destruct (Z.leb_spec lookup_timeout wait); [lia|].
  destruct (Py.decode data) as [s|]; [|done].
  rewrite IH. f_equal. lia.
Qed.

(** C7 as stated fails: the 5 seconds bound each receive, not the whole
    collection. With replies 4 s and 8 s after the broadcast, both are
    collected and the loop lasts 13 s. *)
Lemma discovery_window_not_fixed :
  fst (discover_servers
         [Arrives 4000 "51515,bob,3" "192.168.1.10" 12121;
          Arrives 4000 "51515,eve,5" "192.168.1.12" 12121] lobby)
  = mkLookup None
      [("192.168.1.10", "51515", "bob", "3");
       ("192.168.1.12", "51515", "eve", "5")]
      13000
  /\ 13000 <> lookup_timeout.
Proof. split; [vm_compute; reflexivity | discriminate]. Qed.

(** C7, as the code has it. [discover_servers] sends one [LOOKUP]
    broadcast and then receives until one [recvfrom] has waited 5 seconds
    in vain: the replies that each came within 5 seconds of the previous
    receive are all collected, and the loop lasts the sum of their waits
    plus 5 seconds. The timeout is not an error: no message box is shown
    and the list is returned. With no reply at all the list is empty and
    the loop lasts 5 seconds. *)
Theorem discovery_collects_until_timeout
    (pre rest : list Arrival) (a : App) (bcast : string) :
  broadcast_address a = Some bcast ->
  Forall prompt pre ->
  quiet rest ->
  fst (discover_servers (pre ++ rest) a)
  = mkLookup None (collected pre []) (total_wait pre + lookup_timeout)
  /\ effects (snd (discover_servers (pre ++ rest) a))
     = (effects a
        ++ [SendTo DiscoverUdpSocket "LOOKUP" bcast (broadcast_port a);
            Close DiscoverUdpSocket])%list
  /\ (pre = [] ->
      fst (discover_servers (pre ++ rest) a) = mkLookup None [] 5000).
Proof.
  intros Hb Hpre Hrest. unfold discover_servers. rewrite Hb.
  rewrite discover_loop_prompt by exact Hpre.
  rewrite discover_loop_quiet by exact Hrest. cbn.
  repeat split.
  - by rewrite <- app_assoc.
  - intros ->. reflexivity.
Qed.

(** One host answers after 1.2 s: it is listed, and the search lasts
    6.2 s. *)
Lemma discovery_collects_until_timeout_witness :
  fst (discover_servers
         [Arrives 1200 "51515,bob,3" "192.168.1.10" 12121] lobby)
  = mkLookup None [("192.168.1.10", "51515", "bob", "3")] 6200.
Proof.
  assert (Hp : Forall prompt
                 [Arrives 1200 "51515,bob,3" "192.168.1.10" 12121]).
  { constructor; [|constructor]. split; [reflexivity | discriminate]. }
  exact (proj1 (discovery_collects_until_timeout
                  [Arrives 1200 "51515,bob,3" "192.168.1.10" 12121] []
                  lobby "192.168.1.255" eq_refl Hp I)).
Defined.

(** ** The broadcast listener *)

(** A lookup reply has a comma in it, so it is not an [ACK]. *)
Lemma reply_not_ack (x y : string) :
  String.eqb (x ++ "," ++ y) "ACK" = false.
Proof.
  destruct x as [|c1 [|c2 [|c3 [|c4 x]]]]; simpl;
    repeat match goal with
           | |- context [Ascii.eqb ?c ?d] => destruct (Ascii.eqb c d) eqn:?; simpl
           end;
    try reflexivity; try discriminate.
Qed.

(** The loop body on a [CONNECT] request. *)
Lemma listen_body_connect (payload ip : string) (port : Z) (a : App) :
  listen_body ("CONNECT" ++ payload) ip port a =
  match Py.decode payload with
  | Some s =>
      match Py.split_comma s with
      | [requested_ip; user] =>
          if String.eqb requested_ip (local_ip a) then
            Stop (after CbLaunchServer
                    (emit (SendTo ServerUdpSocket "ACK" ip port)
                       (set_opponent_username (Some user) a)))
          else Next a
      | _ => Next a
      end
  | None => Throw UnicodeDecodeError a
  end.
Proof.
  change ("CONNECT" ++ payload)
    with (String "C" (String "O" (String "N" (String "N" (String "E"
           (String "C" (String "T" payload))))))).
  unfold listen_body, on_lookup, on_connect, on_cancel. cbn.
  destruct (Py.decode payload) as [s|]; [|reflexivity].
  destruct (Py.split_comma s) as [|f1 [|f2 [|f3 fs]]]; try reflexivity.
  destruct (String.eqb f1 (local_ip a)); reflexivity.
Qed.

(** One [recvfrom] of the listener: an [ACK] goes with a launch of the
    server, there is at most one, and none if the thread keeps
    listening. *)
Lemma listen_on_recv_adds (r : UdpRecv) (a : App) :
  broadcast_thread_alive a = true ->
  exists es cbs,
    adds a (listen_on_recv r a) es cbs
    /\ count is_launch cbs = count is_ack es
    /\ (count is_ack es <= 1)%nat
    /\ (broadcast_thread_alive (listen_on_recv r a) = true ->
        count is_ack es = 0%nat).
Proof.
  intros Halive.
  unfold listen_on_recv, listen_body, on_lookup, on_connect, on_cancel,
    listen_finally, Py.encode.
  destruct r as [data ip port|]; cbn; [|close_adds; repeat split; lia].
  split_inner; try congruence;
    close_adds; rewrite ?reply_not_ack; cbn;
    repeat split; try lia; try congruence; try discriminate.
Qed.

Lemma broadcast_listen_dead (recvs : list UdpRecv) (a : App) :
  broadcast_thread_alive a = false -> broadcast_listen recvs a = a.
Proof. intros H. destruct recvs; cbn; [done|]. by rewrite H. Qed.

(** Over the whole life of the listener: at most one [ACK], each with its
    launch of the server, and none while it still listens. *)
Lemma broadcast_listen_accepts_once (recvs : list UdpRecv) (a : App) :
  broadcast_thread_alive a = true ->
  exists es cbs,
    adds a (broadcast_listen recvs a) es cbs
    /\ count is_launch cbs = count is_ack es
    /\ (count is_ack es <= 1)%nat
    /\ (broadcast_thread_alive (broadcast_listen recvs a) = true ->
        count is_ack es = 0%nat).
Proof.
  revert a. induction recvs as [|r rest IH]; intros a Halive.
  - exists [], []. unfold adds. cbn. rewrite !app_nil_r. repeat split; lia.
  - cbn. rewrite Halive.
    destruct (listen_on_recv_adds r a Halive)
      as (es1 & cbs1 & H1 & Heq1 & Hle1 & Hz1).
    destruct (broadcast_thread_alive (listen_on_recv r a)) eqn:Hnext.
    + destruct (IH _ Hnext) as (es2 & cbs2 & H2 & Heq2 & Hle2 & Hz2).
      exists (es1 ++ es2)%list, (cbs1 ++ cbs2)%list.
      split; [eapply adds_trans; eauto|].
      rewrite !count_app, Heq1, Heq2, (Hz1 eq_refl).
      repeat split; try lia. intros H. specialize (Hz2 H). lia.
    + rewrite broadcast_listen_dead by exact Hnext.
      exists es1, cbs1. split; [exact H1|]. split; [exact Heq1|].
      split; [exact Hle1|]. rewrite Hnext. done.
Qed.

(** C8. A [CONNECT] whose two fields are this host's address and a user
    name is accepted: the name is recorded, [ACK] goes back to the sender,
    [launch_server] is scheduled and the listener stops, so that nothing
    received later is looked at. A [DISCONNECT] stops the listener without
    [ACK] or launch. Whatever is received, the listener sends at most one
    [ACK] and schedules [launch_server] exactly as often. *)
Theorem listener_accepts_one_connect
    (payload user ip : string) (port : Z) (a : App) :
  broadcast_thread_alive a = true ->
  Py.decode payload = Some (local_ip a ++ "," ++ user) ->
  Py.split_comma (local_ip a ++ "," ++ user) = [local_ip a; user] ->
  let request := UdpData ("CONNECT" ++ payload) ip port in
  let cancel := UdpData "DISCONNECT" ip port in
  (opponent_username (listen_on_recv request a) = Some user
   /\ adds a (listen_on_recv request a)
        [SendTo ServerUdpSocket "ACK" ip port; Close ServerUdpSocket]
        [CbLaunchServer]
   /\ broadcast_thread_alive (listen_on_recv request a) = false
   /\ forall later, broadcast_listen (request :: later) a
                    = listen_on_recv request a)
  /\ (opponent_username (listen_on_recv cancel a) = opponent_username a
      /\ adds a (listen_on_recv cancel a) [Close ServerUdpSocket]
           (if allow_gui_update a then [CbNetworkDisconnected] else [])
      /\ broadcast_thread_alive (listen_on_recv cancel a) = false
      /\ forall later, broadcast_listen (cancel :: later) a
                       = listen_on_recv cancel a)
  /\ (forall recvs,
         exists es cbs,
           adds a (broadcast_listen recvs a) es cbs
           /\ count is_launch cbs = count is_ack es
           /\ (count is_ack es <= 1)%nat).
Proof.
  intros Halive Hdec Hsplit request cancel.
  assert (Hreq : listen_on_recv request a
                 = listen_finally
                     (after CbLaunchServer
                        (emit (SendTo ServerUdpSocket "ACK" ip port)
                           (set_opponent_username (Some user) a)))).
  { subst request. unfold listen_on_recv.
    rewrite listen_body_connect, Hdec, Hsplit, String.eqb_refl. reflexivity. }
  assert (Hcan : listen_on_recv cancel a
                 = listen_finally
                     (if allow_gui_update a
                      then after CbNetworkDisconnected a else a)).
  { subst cancel. unfold listen_on_recv, listen_body, on_lookup, on_connect,
      on_cancel. cbn. reflexivity. }
  assert (Hstop : forall r later,
             broadcast_thread_alive (listen_on_recv r a) = false ->
             broadcast_listen (r :: later) a = listen_on_recv r a).
  { intros r later Hdead.
    change (broadcast_listen (r :: later) a)
      with (if broadcast_thread_alive a
            then broadcast_listen later (listen_on_recv r a) else a).
    rewrite Halive. by apply broadcast_listen_dead. }
  split; [|split].
  - split; [by rewrite Hreq|]. split; [|split].
    + rewrite Hreq. unfold adds, listen_finally. cbn.
      by rewrite <- app_assoc.
    + by rewrite Hreq.
    + intros later. apply Hstop. by rewrite Hreq.
  - split; [rewrite Hcan; by destruct (allow_gui_update a)|]. split; [|split].
    + rewrite Hcan. unfold adds, listen_finally.
      destruct (allow_gui_update a); cbn; by rewrite ?app_nil_r.
    + rewrite Hcan. by destruct (allow_gui_update a).
    + intros later. apply Hstop. rewrite Hcan.
      by destruct (allow_gui_update a).
  - intros recvs.
    destruct (broadcast_listen_accepts_once recvs a Halive)
      as (es & cbs & H & Heq & Hle & _).
    by exists es, cbs.
Qed.

(** amy asks bob's host to connect. *)
Lemma listener_accepts_one_connect_witness :
  opponent_username
    (listen_on_recv
       (UdpData "CONNECT192.168.1.10,amy" "192.168.1.11" 12121)
       hosting)
  = Some "amy".
Proof.
  exact (proj1 (proj1 (listener_accepts_one_connect "192.168.1.10,amy" "amy"
                         "192.168.1.11" 12121 hosting
                         eq_refl eq_refl eq_refl))).
Defined.

(** ** Malformed messages *)

(** C9 as stated fails: a datagram that is not UTF-8 is malformed, yet it
    ends the receive loop it reaches. In discovery the byte 0xFF (one
    field, not three) stops the collection with a message box, and bob's
    reply that follows is never read; sent as the payload of a [CONNECT]
    it ends the host's listener. *)
Lemma undecodable_message_ends_loop :
  length (Py.split_comma (String (ascii_of_nat 255) "")) <> 3%nat
  /\ fst (discover_servers
            [Arrives 100 (String (ascii_of_nat 255) "") "192.168.1.66" 12121;
             Arrives 100 "51515,bob,3" "192.168.1.10" 12121] lobby)
     = mkLookup (Some UnicodeDecodeError) [] 100
  /\ effects (snd (discover_servers
                     [Arrives 100 (String (ascii_of_nat 255) "")
                        "192.168.1.66" 12121;
                      Arrives 100 "51515,bob,3" "192.168.1.10" 12121] lobby))
     = [SendTo DiscoverUdpSocket "LOOKUP" "192.168.1.255" 12121;
        MessageBox "Server Lookup Failed"; Close DiscoverUdpSocket]
  /\ broadcast_thread_alive hosting = true
  /\ broadcast_thread_alive
       (listen_on_recv
          (UdpData ("CONNECT" ++ String (ascii_of_nat 255) "")
             "192.168.1.66" 12121)
          hosting)
     = false.
Proof. repeat split; try (vm_compute; reflexivity). discriminate. Qed.

(** C9, as the code has it. Malformed text is dropped and the loop goes
    on with the state as it was: a lookup reply that decodes to other than
    three comma-separated fields adds nothing to the list; a [CONNECT]
    whose payload decodes to other than two fields changes nothing; a
    non-empty stream message that starts with none of [DISCONNECT], [CHAT]
    and [GAME] changes nothing in either role. Bytes that are not UTF-8
    end the loop that decodes them: a lookup reply ends the collection
    with what was listed so far, and what arrives later is not read; the
    payload of a [CONNECT] ends the listener with a message box; the
    payload of a [DISCONNECT], [CHAT] or [GAME] message ends the read loop
    of the host and of the joiner by the exception path. *)
Theorem malformed_text_is_dropped :
  (forall env acc t wait data ip port s,
      wait < lookup_timeout ->
      Py.decode data = Some s ->
      length (Py.split_comma s) <> 3%nat ->
      discover_loop (Arrives wait data ip port :: env) acc t
      = discover_loop env acc (t + wait))
  /\ (forall payload s ip port a,
         Py.decode payload = Some s ->
         length (Py.split_comma s) <> 2%nat ->
         listen_on_recv (UdpData ("CONNECT" ++ payload) ip port) a = a)
  /\ (forall data a,
         data <> "" ->
         Py.startswith data "DISCONNECT" = false ->
         Py.startswith data "CHAT" = false ->
         Py.startswith data "GAME" = false ->
         Server_on_recv (RecvData data) a = a
         /\ Client_on_recv (RecvData data) a = a)
  /\ (forall env acc t wait data ip port,
         wait < lookup_timeout ->
         Py.decode data = None ->
         discover_loop (Arrives wait data ip port :: env) acc t
         = mkLookup (Some UnicodeDecodeError) acc (t + wait))
  /\ (forall payload ip port a,
         Py.decode payload = None ->
         listen_on_recv (UdpData ("CONNECT" ++ payload) ip port) a
         = listen_finally (emit (MessageBox "Hosting Connection Error") a)
         /\ broadcast_thread_alive
              (listen_on_recv (UdpData ("CONNECT" ++ payload) ip port) a)
            = false)
  /\ (forall tag payload a,
         tag = "DISCONNECT" \/ tag = "CHAT" \/ tag = "GAME" ->
         Py.decode payload = None ->
         (Server_on_recv (RecvData (tag ++ payload)) a
          = Server_finally (Server_except a)
          /\ server_thread_alive
               (Server_on_recv (RecvData (tag ++ payload)) a) = false)
         /\ (Client_on_recv (RecvData (tag ++ payload)) a
             = Client_finally (Client_except a)
             /\ client_thread_alive
                  (Client_on_recv (RecvData (tag ++ payload)) a) = false)).
Proof.
  split; [|split; [|split; [|split; [|split]]]].
  - intros env acc t wait data ip port s Hw Hd Hn. cbn.
    destruct (Z.leb_spec lookup_timeout wait); [lia|].
    rewrite Hd. unfold add_server.
    destruct (Py.split_comma s) as [|f1 [|f2 [|f3 [|f4 fs]]]];
      try reflexivity.
    by destruct Hn.
  - intros payload s ip port a Hd Hn. unfold listen_on_recv.
    rewrite listen_body_connect, Hd.
    destruct (Py.split_comma s) as [|f1 [|f2 [|f3 fs]]]; try reflexivity.
    by destruct Hn.
  - intros data a Hne Hd Hc Hg.
    assert (Hbody : read_body data a = Next a).
    { unfold read_body, on_chat, on_game.
      apply String.eqb_neq in Hne. by rewrite Hne, Hd, Hc, Hg. }
    unfold Server_on_recv, Client_on_recv. by rewrite Hbody.
  - intros env acc t wait data ip port Hw Hd. cbn [discover_loop].
    destruct (Z.leb_spec lookup_timeout wait); [lia|]. by rewrite Hd.
  - intros payload ip port a Hd. unfold listen_on_recv.
    rewrite listen_body_connect, Hd. split; reflexivity.
  - intros tag payload a Htag Hd.
    assert (Hbody : read_body (tag ++ payload) a = Throw UnicodeDecodeError a).
    { destruct Htag as [->|[->| ->]].
      - by rewrite read_body_disconnect, Hd.
      - by rewrite read_body_chat, Hd.
      - by rewrite read_body_game, Hd. }
    unfold Server_on_recv, Client_on_recv. rewrite Hbody.
    repeat split; reflexivity.
Qed.

(** A reply with two fields is skipped and the next one is collected. *)
Lemma malformed_text_is_dropped_witness :
  discover_loop
    [Arrives 100 "51515,bob" "192.168.1.10" 12121;
     Arrives 100 "51515,eve,5" "192.168.1.12" 12121] [] 0
  = mkLookup None [("192.168.1.12", "51515", "eve", "5")] 5200.
Proof.
  rewrite (proj1 malformed_text_is_dropped _ [] 0 100 "51515,bob"
             "192.168.1.10" 12121 "51515,bob" eq_refl eq_refl)
    by (vm_compute; lia).
  vm_compute. reflexivity.
Defined.

(** ** Disconnecting locally *)










(** * Further properties *)

(** ** Strings *)

Lemma split_char_comma (s : string) : Py.split_char "," s = Py.split_comma s.
Proof. induction s as [|d r IH]; cbn; [done|]. by rewrite IH. Qed.

Lemma split_char_nonempty (c : ascii) (s : string) : Py.split_char c s <> [].
Proof.
  destruct s as [|d r]; cbn; [done|].
  destruct (Ascii.eqb d c); [done|]. by destruct (Py.split_char c r).
Qed.

Lemma split_char_cons_ne (c d : ascii) (r : string) :
  Ascii.eqb d c = false ->
  exists h t, Py.split_char c r = h :: t
              /\ Py.split_char c (String d r) = String d h :: t.
Proof.
  intros Hd. cbn. rewrite Hd.
  destruct (Py.split_char c r) as [|h t] eqn:Hr.
  - by destruct (split_char_nonempty c r).
  - by exists h, t.
Qed.

Lemma join_cons_char (sep : string) (d : ascii) (h : string) (t : list string) :
  Py.join sep (String d h :: t) = String d (Py.join sep (h :: t)).
Proof. destruct t; reflexivity. Qed.

Lemma join_split_char (c : ascii) (s : string) :
  Py.join (String c "") (Py.split_char c s) = s.
Proof.
  induction s as [|d r IH]; [reflexivity|].
  destruct (Ascii.eqb d c) eqn:Hd.
  - apply Ascii.eqb_eq in Hd as ->. cbn. rewrite Ascii.eqb_refl.
    destruct (Py.split_char c r) as [|h t] eqn:Hr.
    + by destruct (split_char_nonempty c r).
    + change (Py.join (String c "") ("" :: h :: t))
        with (String c (Py.join (String c "") (h :: t))).
      by rewrite IH.
  - destruct (split_char_cons_ne c d r Hd) as (h & t & Hr & ->).
    rewrite join_cons_char. rewrite Hr in IH. by rewrite IH.
Qed.

Lemma split_char_fields (c : ascii) (s : string) :
  Forall (fun f => Py.has_char c f = false) (Py.split_char c s).
Proof.
  induction s as [|d r IH]; [by repeat constructor|].
  destruct (Ascii.eqb d c) eqn:Hd.
  - cbn. rewrite Hd. by constructor.
  - destruct (split_char_cons_ne c d r Hd) as (h & t & Hr & ->).
    rewrite Hr in IH. inversion IH as [|? ? Hh Ht]; subst.
    constructor; [|done]. cbn. by rewrite Hd, Hh.
Qed.

Lemma split_char_no_sep (c : ascii) (s : string) :
  Py.has_char c s = false -> Py.split_char c s = [s].
Proof.
  induction s as [|d r IH]; [done|]. cbn.
  destruct (Ascii.eqb d c); [done|]. cbn. intros H. by rewrite IH.
Qed.

Lemma split_char_has_sep (c : ascii) (s : string) :
  Py.has_char c s = true -> (2 <= length (Py.split_char c s))%nat.
Proof.
  induction s as [|d r IH]; [done|]. cbn.
  destruct (Ascii.eqb d c) eqn:Hd; cbn.
  - intros _. destruct (Py.split_char c r) eqn:Hr; cbn; [|lia].
    by destruct (split_char_nonempty c r).
  - intros H. specialize (IH H).
    destruct (Py.split_char c r); cbn in *; lia.
Qed.

Lemma split_char_app (c : ascii) (x y : string) :
  Py.split_char c (x ++ String c y) = (Py.split_char c x ++ Py.split_char c y)%list.
Proof.
  induction x as [|d r IH]; simpl.
  - by rewrite Ascii.eqb_refl.
  - rewrite IH. destruct (Ascii.eqb d c); [done|].
    destruct (Py.split_char c r) as [|h t] eqn:Hr; [|done].
    by destruct (split_char_nonempty c r).
Qed.

Lemma split_join_char (c : ascii) (parts : list string) :
  parts <> [] ->
  Forall (fun f => Py.has_char c f = false) parts ->
  Py.split_char c (Py.join (String c "") parts) = parts.
Proof.
  intros Hne Hall. induction Hall as [|x rest Hx Hrest IH]; [done|].
  destruct rest as [|y rest].
  - cbn. by apply split_char_no_sep.
  - change (Py.join (String c "") (x :: y :: rest))
      with (x ++ String c (Py.join (String c "") (y :: rest))).
    rewrite split_char_app, IH by done.
    by rewrite split_char_no_sep.
Qed.

(** ** The UTF-8 codec *)

Lemma utf8_run_app (st : Py.utf8_state) (x y : string) :
  Py.utf8_run st x = true ->
  Py.utf8_run st (x ++ y) = Py.utf8_run Py.Start y.
Proof.
  revert st. induction x as [|d r IH]; intros st; simpl.
  - by destruct st.
  - destruct (Py.utf8_step st (Py.byte_val d)); [apply IH | done].
Qed.

Lemma is_ascii_valid (s : string) :
  Py.is_ascii s = true -> Py.utf8_run Py.Start s = true.
Proof.
  induction s as [|d r IH]; [done|].
  cbn [Py.is_ascii Py.utf8_run]. intros H.
  apply andb_true_iff in H as [Hd Hr].
  unfold Py.utf8_step. rewrite Hd. by apply IH.
Qed.

Lemma decode_Some (s t : string) : Py.decode s = Some t -> t = s.
Proof. unfold Py.decode. destruct (Py.utf8_run _ _); congruence. Qed.

Lemma decode_valid (s : string) :
  Py.utf8_run Py.Start s = true -> Py.decode s = Some s.
Proof. unfold Py.decode. by intros ->. Qed.

Lemma decode_app (x y : string) :
  Py.decode x = Some x ->
  Py.decode (x ++ y) = (fun t => x ++ t) <$> Py.decode y.
Proof.
  unfold Py.decode. intros Hx.
  destruct (Py.utf8_run Py.Start x) eqn:Hrun; [|discriminate].
  rewrite (utf8_run_app _ _ _ Hrun).
  by destruct (Py.utf8_run Py.Start y).
Qed.

(** ** Decimal numbers in messages *)

(** Text of digits and dashes only. *)
Lemma pretty_N_char_plain (x : N) :
  (Py.byte_val (pretty_N_char x) <=? 127) = true
  /\ Ascii.eqb (pretty_N_char x) "," = false.
Proof. unfold pretty_N_char. by repeat case_match. Qed.

Lemma pretty_N_go_plain (x : N) (s : string) :
  Py.is_ascii s = true -> Py.has_char "," s = false ->
  Py.is_ascii (pretty_N_go x s) = true
  /\ Py.has_char "," (pretty_N_go x s) = false.
Proof.
  revert s. induction (N.lt_wf_0 x) as [x _ IH]; intros s Ha Hc.
  assert (x = 0 \/ 0 < x)%N as [->|Hpos] by lia.
  - by rewrite pretty_N_go_0.
  - rewrite pretty_N_go_step by done.
    destruct (pretty_N_char_plain (x `mod` 10)) as [H1 H2].
    apply IH; [by apply N.div_lt | cbn; by rewrite H1 | cbn; by rewrite H2].
Qed.

Lemma pretty_Z_plain (n : Z) :
  Py.is_ascii (pretty n) = true /\ Py.has_char "," (pretty n) = false.
Proof.
  destruct n as [|p|p]; [done| |].
  - unfold pretty, pretty_Z, pretty, pretty_positive, pretty, pretty_N.
    case_decide; [done|]. by apply pretty_N_go_plain.
  - unfold pretty, pretty_Z, pretty, pretty_positive, pretty, pretty_N.
    case_decide; [done|].
    destruct (pretty_N_go_plain (N.pos p) "" eq_refl eq_refl) as [H1 H2].
    change ("-" ++ pretty_N_go (N.pos p) "")
      with (String "-" (pretty_N_go (N.pos p) "")).
    cbn [Py.is_ascii Py.has_char]. by rewrite H1, H2.
Qed.

Lemma fmt_int_plain (o : option Z) :
  Py.is_ascii (fmt_int o) = true /\ Py.has_char "," (fmt_int o) = false.
Proof. destruct o; [apply pretty_Z_plain | done]. Qed.

(** ** Discovery, end to end *)

(** The listener on any datagram that starts with [LOOKUP]. *)
Lemma listen_on_recv_lookup (x ip : string) (port : Z) (a : App) (p : Profile) :
  user_profile a = Some p ->
  listen_on_recv (UdpData ("LOOKUP" ++ x) ip port) a
  = emit (SendTo ServerUdpSocket (lookup_reply a p) ip port) a.
Proof.
  intros Hp.
  change ("LOOKUP" ++ x)
    with (String "L" (String "O" (String "O" (String "K" (String "U"
           (String "P" x)))))).
  unfold listen_on_recv, listen_body, on_lookup, on_connect, on_cancel. cbn.
  by rewrite Hp.
Qed.

(** The fields of a lookup reply, as [split(',')] finds them. *)
Lemma lookup_reply_fields (a : App) (p : Profile) :
  Py.split_comma (lookup_reply a p)
  = ([pretty (server_port a)] ++ Py.split_comma (username p)
     ++ [fmt_int (total_rounds a)])%list.
Proof.
  unfold lookup_reply, Py.encode.
  change (pretty (server_port a) ++ "," ++ username p ++ "," ++ fmt_int (total_rounds a))
    with (pretty (server_port a)
          ++ String "," (username p ++ String "," (fmt_int (total_rounds a)))).
  rewrite <- !split_char_comma, !split_char_app.
  rewrite (split_char_no_sep _ (pretty _)) by apply pretty_Z_plain.
  by rewrite (split_char_no_sep _ (fmt_int _)) by apply fmt_int_plain.
Qed.

Lemma lookup_reply_decodes (a : App) (p : Profile) :
  Py.decode (username p) = Some (username p) ->
  Py.decode (lookup_reply a p) = Some (lookup_reply a p).
Proof.
  intros Hu. unfold lookup_reply, Py.encode.
  rewrite decode_app
    by (apply decode_valid, is_ascii_valid, pretty_Z_plain).
  rewrite (decode_app ",") by reflexivity.
  rewrite decode_app by exact Hu.
  rewrite (decode_app ",") by reflexivity.
  rewrite (decode_valid (fmt_int _))
    by (apply is_ascii_valid, fmt_int_plain).
  reflexivity.
Qed.

(** X1. Discovery round trip. A host answers every datagram that starts
    with [LOOKUP] and keeps listening with its state unchanged; when its
    user name has no comma, a joiner that receives the answer within the
    timeout lists the host with the sender's address and the port, name and
    rounds the host put in. When the name has a comma the answer has more
    than three fields and the joiner skips it: such a host is never
    listed. *)
Theorem lookup_round_trip
    (h : App) (p : Profile) (x jip hip : string) (jport hport wait t : Z)
    (rest : list Arrival) (acc : list Host) :
  user_profile h = Some p ->
  Py.decode (username p) = Some (username p) ->
  wait < lookup_timeout ->
  listen_on_recv (UdpData ("LOOKUP" ++ x) jip jport) h
  = emit (SendTo ServerUdpSocket (lookup_reply h p) jip jport) h
  /\ (Py.has_char "," (username p) = false ->
      discover_loop (Arrives wait (lookup_reply h p) hip hport :: rest) acc t
      = discover_loop rest
          (acc ++ [(hip, pretty (server_port h), username p,
                    fmt_int (total_rounds h))])%list
          (t + wait))
  /\ (Py.has_char "," (username p) = true ->
      discover_loop (Arrives wait (lookup_reply h p) hip hport :: rest) acc t
      = discover_loop rest acc (t + wait)).
Proof.
  intros Hp Hu Hw.
  split; [by apply listen_on_recv_lookup|].
  assert (Hloop : discover_loop
                    (Arrives wait (lookup_reply h p) hip hport :: rest) acc t
                  = discover_loop rest
                      (add_server hip (Py.split_comma (lookup_reply h p)) acc)
                      (t + wait)).
  { cbn. destruct (Z.leb_spec lookup_timeout wait); [lia|].
    by rewrite lookup_reply_decodes. }
  rewrite Hloop, lookup_reply_fields. split; intros Hc.
  - rewrite <- (split_char_comma (username p)), split_char_no_sep by done.
    reflexivity.
  - apply (split_char_has_sep "," (username p)) in Hc.
    rewrite split_char_comma in Hc.
    destruct (Py.split_comma (username p)) as [|f1 [|f2 fs]];
      cbn in Hc; try lia.
    by destruct fs.
Qed.

(** bob hosts three rounds on port 51515; amy's search lists him. *)
Lemma lookup_round_trip_witness :
  discover_loop
    [Arrives 20 (lookup_reply hosting bob) "192.168.1.10" 12121]
    [] 0
  = mkLookup None [("192.168.1.10", "51515", "bob", "3")] 5020.
Proof.
  rewrite (proj1 (proj2 (lookup_round_trip hosting bob ""
                           "192.168.1.11" "192.168.1.10" 40000 12121 20 0
                           [] [] eq_refl eq_refl eq_refl)))
    by reflexivity.
  vm_compute. reflexivity.
Defined.

(** ** The connection handshake, end to end *)

Lemma connect_payload_decodes (ip user : string) :
  Py.decode ip = Some ip -> Py.decode user = Some user ->
  Py.decode (ip ++ "," ++ user) = Some (ip ++ "," ++ user).
Proof.
  intros Hi Hu. rewrite decode_app by exact Hi.
  rewrite (decode_app ",") by reflexivity. by rewrite Hu.
Qed.

Lemma connect_payload_fields (ip user : string) :
  Py.split_comma (ip ++ "," ++ user)
  = (Py.split_comma ip ++ Py.split_comma user)%list.
Proof.
  change (ip ++ "," ++ user) with (ip ++ String "," user).
  by rewrite <- !split_char_comma, split_char_app.
Qed.

Lemma Client_start_request
    (server_ip : string) (port : Z) (reply : Reply) (ok : bool)
    (j : App) (p : Profile) :
  user_profile j = Some p ->
  reply <> NoSocket ->
  exists es,
    effects (Client_start server_ip port reply ok j)
    = (effects j
       ++ [SendTo ClientUdpSocket (connect_request server_ip p) server_ip
             (broadcast_port j)]
       ++ es)%list.
Proof.
  intros Hp Hb. unfold Client_start, Client_finally, Client_except.
  rewrite Hp. fold (connect_request server_ip p).
  destruct reply as [|response| |]; [done| | |];
    [destruct (Py.startswith response "ACK"); [destruct ok|]|..];
    cbn; destruct (allow_gui_update j) eqn:Ha; cbn; rewrite ?Ha; cbn;
    rewrite <- ?app_assoc; eexists; reflexivity.
Qed.

(** X2. Handshake round trip. When [Client.start] can create its
    sockets and bind the datagram socket (its [local_ip] is an address,
    not "No IP Found", and nothing else fails there), it sends
    [CONNECT<server_ip>,<username>] to the server's address. That request,
    received by the listener of the host it names, is accepted when
    neither the address nor the joiner's user name has a comma: the host
    records that name, answers [ACK] to the sender, schedules
    [launch_server] and stops listening. A joiner whose name has a comma is
    never answered: its request has more than two fields and leaves the
    host as it was, still listening. So does a request that names another
    address. *)
Theorem handshake_round_trip
    (j h : App) (p : Profile) (server_ip jip : string) (port jport : Z)
    (reply : Reply) (ok : bool) :
  user_profile j = Some p ->
  local_ip j <> "No IP Found" ->
  reply <> NoSocket ->
  Py.decode server_ip = Some server_ip ->
  Py.decode (username p) = Some (username p) ->
  Py.has_char "," server_ip = false ->
  (exists es,
      effects (Client_start server_ip port reply ok j)
      = (effects j
         ++ [SendTo ClientUdpSocket (connect_request server_ip p) server_ip
               (broadcast_port j)]
         ++ es)%list)
  /\ (Py.has_char "," (username p) = false ->
      local_ip h = server_ip ->
      listen_on_recv (UdpData (connect_request server_ip p) jip jport) h
      = listen_finally
          (after CbLaunchServer
             (emit (SendTo ServerUdpSocket "ACK" jip jport)
                (set_opponent_username (Some (username p)) h))))
  /\ (Py.has_char "," (username p) = true \/ local_ip h <> server_ip ->
      listen_on_recv (UdpData (connect_request server_ip p) jip jport) h = h).
Proof.
  intros Hp _ Hb Hip Hu Hc.
  split; [by apply Client_start_request|].
  assert (Hbody : forall a,
             listen_body (connect_request server_ip p) jip jport a
             = match (Py.split_comma server_ip
                      ++ Py.split_comma (username p))%list with
               | [requested_ip; user] =>
                   if String.eqb requested_ip (local_ip a) then
                     Stop (after CbLaunchServer
                             (emit (SendTo ServerUdpSocket "ACK" jip jport)
                                (set_opponent_username (Some user) a)))
                   else Next a
               | _ => Next a
               end).
  { intros a. unfold connect_request, Py.encode.
    rewrite listen_body_connect, connect_payload_decodes by done.
    by rewrite connect_payload_fields. }
  unfold listen_on_recv. rewrite Hbody.
  rewrite <- (split_char_comma server_ip), split_char_no_sep by exact Hc.
  split.
  - intros Hn Hl.
    rewrite <- (split_char_comma (username p)), split_char_no_sep by exact Hn.
    cbn. by rewrite Hl, String.eqb_refl.
  - intros [Hy|Hne].
    + apply (split_char_has_sep "," (username p)) in Hy.
      rewrite split_char_comma in Hy.
      destruct (Py.split_comma (username p)) as [|f1 [|f2 fs]];
        cbn in Hy; try lia. reflexivity.
    + destruct (Py.split_comma (username p)) as [|f1 [|f2 fs]];
        try reflexivity.
      cbn. destruct (String.eqb_spec server_ip (local_ip h)); [|reflexivity].
      by destruct Hne.
Qed.

(** amy asks bob's host, which is waiting for a three-round game. *)
Lemma handshake_round_trip_witness :
  opponent_username
    (listen_on_recv
       (UdpData (connect_request "192.168.1.10" (mkProfile "amy" 0 0 0))
          "192.168.1.11" 12121)
       hosting)
  = Some "amy".
Proof.
  rewrite (proj1 (proj2 (handshake_round_trip (joiner_session 3)
                           hosting (mkProfile "amy" 0 0 0)
                           "192.168.1.10" "192.168.1.11" 51515 12121
                           ReplyTimeout true eq_refl ltac:(discriminate)
                           ltac:(discriminate) eq_refl eq_refl eq_refl))
             eq_refl eq_refl).
  reflexivity.
Defined.

(** X3. What [Client.start] ends in. With a reply that starts with [ACK]
    and a connection that succeeds, [network_connected] is scheduled for
    the server's address, the worker stays alive for the read loop and the
    socket stays open. In every other case (sockets that cannot be
    created or bound, another reply, a timeout, an error, a refused
    connection) no session starts: the socket is closed
    once, the worker ends, and [network_disconnected] is scheduled once if
    GUI updates are allowed and not at all otherwise. *)
Theorem Client_start_outcome
    (server_ip : string) (port : Z) (reply : Reply) (ok : bool)
    (j : App) (p : Profile) :
  user_profile j = Some p ->
  client_thread_alive j = true ->
  exists es cbs,
    adds j (Client_start server_ip port reply ok j) es cbs
    /\ (acknowledged reply && ok = true ->
        cbs = [CbNetworkConnected server_ip]
        /\ client_thread_alive (Client_start server_ip port reply ok j) = true
        /\ count (is_close ClientSocket) es = 0%nat)
    /\ (acknowledged reply && ok = false ->
        client_thread_alive (Client_start server_ip port reply ok j) = false
        /\ count is_connected cbs = 0%nat
        /\ count (is_close ClientSocket) es = 1%nat
        /\ count is_disconnected cbs
           = (if allow_gui_update j then 1 else 0)%nat).
Proof.
  intros Hp Halive. unfold Client_start, Client_finally, Client_except, adds.
  rewrite Hp.
  destruct reply as [|response| |]; cbn [acknowledged];
    [|destruct (Py.startswith response "ACK"); [destruct ok|]|..];
    cbn; destruct (allow_gui_update j) eqn:Ha; cbn; rewrite ?Ha; cbn;
    rewrite <- ?app_assoc; cbn;
    eexists; eexists;
    (split; [split; first [symmetry; apply app_nil_r | reflexivity]|]);
    cbn; rewrite ?Halive; split; intros; try discriminate; repeat split.
Qed.

(** The host does not answer within five seconds. *)
Lemma Client_start_outcome_witness :
  client_thread_alive
    (Client_start "192.168.1.10" 51515 ReplyTimeout true
       (set_client_thread_alive true (joiner_session 3)))
  = false.
Proof.
  destruct (Client_start_outcome "192.168.1.10" 51515 ReplyTimeout true
              (set_client_thread_alive true (joiner_session 3))
              (mkProfile "amy" 0 0 0) eq_refl eq_refl)
    as (es & cbs & _ & _ & Hno).
  exact (proj1 (Hno eq_refl)).
Defined.

(** ** Two peers on one connection *)

Lemma new_effects_adds (a a' : App) (es : list Effect) :
  effects a' = (effects a ++ es)%list -> new_effects a a' = es.
Proof. unfold new_effects. intros ->. apply drop_app_length. Qed.

Lemma split_at_short (n : nat) (data : string) :
  (String.length data <= n)%nat -> split_at n data = (data, "").
Proof.
  revert data. induction n as [|n IH]; intros [|c r] H; cbn in *;
    try reflexivity; try lia.
  rewrite IH by lia. reflexivity.
Qed.

(** A message that fits the buffer is read in one piece. *)
Lemma reads_short (data : string) :
  data <> "" -> (String.length data <= 1024)%nat ->
  reads data = [RecvData data].
Proof.
  intros Hne Hlen. destruct data as [|c r]; [done|].
  unfold reads. cbn [String.length recv_1024].
  rewrite split_at_short by exact Hlen.
  by destruct (String.length r).
Qed.

Lemma sock_eqb_refl (s : Sock) : sock_eqb s s = true.
Proof. by destruct s. Qed.

Lemma wire_send (s : Sock) (data : string) :
  data <> "" -> (String.length data <= 1024)%nat ->
  wire s [Send s data] = [RecvData data].
Proof.
  intros Hne Hlen. cbn [wire]. by rewrite sock_eqb_refl, reads_short.
Qed.

Lemma wire_game (s : Sock) (v : Choice) :
  wire s [Send s ("GAME" ++ choice_name v)]
  = [RecvData ("GAME" ++ choice_name v)].
Proof.
  apply wire_send; destruct v; try discriminate;
    apply Nat.leb_le; vm_compute; reflexivity.
Qed.

(** X4. Chat round trip. A non-empty chat line of at most 1020 bytes
    (so that [CHAT<text>] fits one [recv(1024)]), typed on one side of an
    established connection, is shown there as local chat and sent as
    [CHAT<text>]; read on its own by the other side's loop, it is shown
    there by the GUI thread as exactly that text, as peer chat, and
    nothing else changes: profile, choices, round counter and connection
    stay as they were. This holds from host to joiner and from joiner to
    host. *)
Theorem chat_round_trip (msg : string) (h j : App) :
  msg <> "" ->
  (String.length msg <= 1020)%nat ->
  Py.decode msg = Some msg ->
  server_thread_alive h = true ->
  client_connected h = true ->
  server_thread_alive j = false ->
  client_thread_alive j = true ->
  pending h = [] ->
  pending j = [] ->
  (effects (event_chat msg h)
   = (effects h ++ [MainTextbox (TxtChat msg) "local_chat";
                    Send ServerClientSocket ("CHAT" ++ msg)])%list
   /\ joiner_receives h (event_chat msg h) j
      = network_chat (TxtChat msg) "peer_chat"
          (set_pending []
             (after (CbNetworkChat (TxtChat msg) "peer_chat") j)))
  /\ (effects (event_chat msg j)
      = (effects j ++ [MainTextbox (TxtChat msg) "local_chat";
                       Send ClientSocket ("CHAT" ++ msg)])%list
      /\ host_receives j (event_chat msg j) h
         = network_chat (TxtChat msg) "peer_chat"
             (set_pending []
                (after (CbNetworkChat (TxtChat msg) "peer_chat") h))).
Proof.
  intros Hne Hlen Hdec Hsh _ Hsj Hcj Hph Hpj.
  assert (Htruthy : Py.truthy_str (Some msg) = true).
  { cbn. apply String.eqb_neq in Hne. by rewrite Hne. }
  assert (Hwire : forall s m t,
             wire s [MainTextbox m t; Send s ("CHAT" ++ msg)]
             = [RecvData ("CHAT" ++ msg)]).
  { intros s m t. change (wire s [MainTextbox m t; Send s ("CHAT" ++ msg)])
      with (wire s [Send s ("CHAT" ++ msg)]).
    apply wire_send; [discriminate|].
    change ("CHAT" ++ msg)
      with (String "C" (String "H" (String "A" (String "T" msg)))).
    cbn [String.length]. lia. }
  split.
  - assert (He : effects (event_chat msg h)
                 = (effects h ++ [MainTextbox (TxtChat msg) "local_chat";
                                  Send ServerClientSocket ("CHAT" ++ msg)])%list).
    { unfold event_chat, send_to_peer, network_chat, Py.encode.
      rewrite Htruthy. cbn. rewrite Hsh. cbn. by rewrite <- app_assoc. }
    split; [exact He|].
    unfold joiner_receives. rewrite (new_effects_adds _ _ _ He), Hwire.
    cbn [Client_loop].
    rewrite Hcj. unfold Client_on_recv. rewrite read_body_chat, Hdec.
    unfold drain. cbn. rewrite Hpj. cbn. unfold run_next. cbn.
    by rewrite Hpj.
  - assert (He : effects (event_chat msg j)
                 = (effects j ++ [MainTextbox (TxtChat msg) "local_chat";
                                  Send ClientSocket ("CHAT" ++ msg)])%list).
    { unfold event_chat, send_to_peer, network_chat, Py.encode.
      rewrite Htruthy. cbn. rewrite Hsj, Hcj. cbn. by rewrite <- app_assoc. }
    split; [exact He|].
    unfold host_receives. rewrite (new_effects_adds _ _ _ He), Hwire.
    cbn [Server_loop].
    rewrite Hsh. unfold Server_on_recv. rewrite read_body_chat, Hdec.
    unfold drain. cbn. rewrite Hph. cbn. unfold run_next. cbn.
    by rewrite Hph.
Qed.

Lemma chat_round_trip_witness :
  last (effects (joiner_receives (host_session 3)
                   (event_chat "good luck" (host_session 3))
                   (joiner_session 3)))
  = Some (MainTextbox (TxtChat "good luck") "peer_chat").
Proof.
  assert (Hlen : (String.length "good luck" <= 1020)%nat)
    by (vm_compute; lia).
  rewrite (proj2 (proj1 (chat_round_trip "good luck" (host_session 3)
                           (joiner_session 3) ltac:(discriminate) Hlen
                           eq_refl eq_refl eq_refl eq_refl eq_refl eq_refl
                           eq_refl))).
  reflexivity.
Defined.

Lemma wire_app (s : Sock) (es1 es2 : list Effect) :
  wire s (es1 ++ es2) = (wire s es1 ++ wire s es2)%list.
Proof.
  induction es1 as [|e es1 IH]; [reflexivity|].
  destruct e; cbn [wire app]; rewrite ?IH; try reflexivity;
    destruct (sock_eqb s s0); rewrite ?app_assoc; reflexivity.
Qed.







(** ** A round between two peers *)

Lemma decode_choice (c : Choice) :
  Py.decode (choice_name c) = Some (choice_name c).
Proof. by destruct c. Qed.

Lemma truthy_choice (c : Choice) : Py.truthy_str (Some (choice_name c)) = true.
Proof. by destruct c. Qed.

Lemma drain_nil (a : App) : pending a = [] -> drain a = a.
Proof. unfold drain. by intros ->. Qed.

Lemma drain_one (cb : Callback) (a : App) :
  pending a = [cb] ->
  drain a = state_of (run_callback cb (set_pending [] a)).
Proof.
  intros H. unfold drain. rewrite H.
  change (Nat.iter (length [cb]) run_next a) with (run_next a).
  unfold run_next. by rewrite H.
Qed.

Lemma drain_two (cb1 cb2 : Callback) (a : App) :
  pending a = [cb1; cb2] ->
  pending (state_of (run_callback cb1 (set_pending [cb2] a))) = [cb2] ->
  drain a
  = state_of (run_callback cb2
                (set_pending []
                   (state_of (run_callback cb1 (set_pending [cb2] a))))).
Proof.
  intros H1 H2. unfold drain. rewrite H1.
  change (Nat.iter (length [cb1; cb2]) run_next a)
    with (run_next (run_next a)).
  unfold run_next at 2. rewrite H1.
  unfold run_next. by rewrite H2.
Qed.

Lemma Server_loop_one (r : Recv) (a : App) :
  server_thread_alive a = true -> Server_loop [r] a = Server_on_recv r a.
Proof. intros H. cbn [Server_loop]. by rewrite H. Qed.

Lemma Client_loop_one (r : Recv) (a : App) :
  client_thread_alive a = true -> Client_loop [r] a = Client_on_recv r a.
Proof. intros H. cbn [Client_loop]. by rewrite H. Qed.

Lemma Client_loop_two (r1 r2 : Recv) (a : App) :
  client_thread_alive a = true ->
  client_thread_alive (Client_on_recv r1 a) = true ->
  Client_loop [r1; r2] a = Client_on_recv r2 (Client_on_recv r1 a).
Proof. intros H1 H2. cbn [Client_loop]. by rewrite H1, H2. Qed.

(** What a step logged, from what it added to the log. *)
Lemma new_effects_trans (a b c : App) (e1 e2 : list Effect) :
  effects b = (effects a ++ e1)%list ->
  effects c = (effects b ++ e2)%list ->
  effects c = (effects a ++ (e1 ++ e2))%list.
Proof. intros H1 H2. by rewrite H2, H1, app_assoc. Qed.

(** [determine_results] with both choices in: what it leaves and what it
    writes to the connection. *)
Lemma determine_results_run (a : App) (l r : Choice) (p : Profile) (c t : Z) :
  player_choice a = Some (choice_name l) ->
  opponent_choice a = Some (choice_name r) ->
  user_profile a = Some p ->
  current_round a = Some c ->
  total_rounds a = Some t ->
  exists a' es,
    determine_results a = Done a'
    /\ effects a' = (effects a ++ es)%list
    /\ core a' = core a
    /\ pending a' = pending a
    /\ (c < t ->
        game a' = (Some (scored ((choice_code l - choice_code r) mod 3) p),
                   None, None, Some (c + 1))
        /\ forall s, wire s es = [])
    /\ (t <= c ->
        game a' = (Some (scored ((choice_code l - choice_code r) mod 3) p),
                   Some (choice_name l), Some (choice_name r), Some c)
        /\ forall s, wire s es = wire s (game_complete_close a)).
Proof.
  intros Hl Hr Hp Hc Ht.
  assert (Hs : (if (choice_code l - choice_code r) mod 3 =? 0 then add_ties 1
                else if (choice_code l - choice_code r) mod 3 =? 1
                     then add_wins 1 else add_loses 1) p
               = scored ((choice_code l - choice_code r) mod 3) p).
  { unfold scored. by repeat case_match. }
  unfold determine_results. rewrite Hl, Hr, !choices_at_name.
  unfold bump. rewrite Hp. cbn [bind].
  unfold update_profile_stats. cbn [user_profile set_user_profile bind].
  unfold advance_round, network_chat, game, core. cbn. rewrite Hc, Ht, Hs.
  destruct (Z.ltb_spec c t) as [Hlt|Hge].
  - eexists. eexists. split; [reflexivity|]. cbn.
    rewrite <- !app_assoc. split; [reflexivity|].
    split; [by rewrite ?Ht|]. split; [reflexivity|].
    split; [intros _; split; [reflexivity | intros s; reflexivity]
           | intros; lia].
  - unfold game_complete_close, Server_stop. cbn.
    destruct (server_thread_alive a) eqn:Hsv;
      [destruct (client_connected a) eqn:Hcc|];
      cbn; rewrite ?Hsv, ?Hcc, ?Hc, ?Hr, ?Hl;
      eexists; eexists; (split; [reflexivity|]); cbn;
      rewrite <- ?app_assoc;
      (split; [first [reflexivity | symmetry; apply app_nil_r]|]);
      rewrite ?Ht, ?Hsv, ?Hcc, ?Hc, ?Hl, ?Hr;
      (split; [reflexivity|]); (split; [reflexivity|]);
      (split; [intros; lia
              | intros _; split; [reflexivity | intros s; reflexivity]]).
Qed.

Lemma core_eq (a : App) (x : option Z) (b1 b2 b3 b4 : bool) :
  core a = (x, b1, b2, b3, b4) ->
  total_rounds a = x /\ allow_gui_update a = b1
  /\ server_thread_alive a = b2 /\ client_thread_alive a = b3
  /\ client_connected a = b4.
Proof. unfold core. intros H. injection H. intros. repeat split; assumption. Qed.

Lemma game_eq (a : App) (p : option Profile) (pc oc : option string)
    (c : option Z) :
  game a = (p, pc, oc, c) ->
  user_profile a = p /\ player_choice a = pc /\ opponent_choice a = oc
  /\ current_round a = c.
Proof. unfold game. intros H. injection H. intros. repeat split; assumption. Qed.

(** [send_to_peer] only writes to the connection. *)
Lemma send_to_peer_run (data : string) (a : App) :
  effects (send_to_peer data a) = (effects a ++ peer_send data a)%list
  /\ core (send_to_peer data a) = core a
  /\ pending (send_to_peer data a) = pending a
  /\ game (send_to_peer data a) = game a
  /\ opponent_username (send_to_peer data a) = opponent_username a.
Proof.
  unfold send_to_peer, peer_send, core, game.
  destruct (server_thread_alive a) eqn:Hs;
    [|destruct (client_thread_alive a) eqn:Hc];
    cbn; rewrite ?Hs, ?Hc, ?app_nil_r; repeat split.
Qed.

(** A choice made while the other side's is not in yet. *)
Lemma rps_chosen_first (value : string) (a : App) :
  Py.truthy_str (opponent_choice a) = false ->
  exists a' es,
    event_rps_chosen value a = Done a'
    /\ effects a' = (effects a ++ es)%list
    /\ core a' = core a
    /\ pending a' = pending a
    /\ game a' = (user_profile a, Some value, opponent_choice a, current_round a)
    /\ forall s, wire s es = wire s (peer_send ("GAME" ++ value) a).
Proof.
  intros Hopp. unfold event_rps_chosen.
  set (a2 := set_player_choice (Some value) (emit (RpsButton "disabled") a)).
  destruct (send_to_peer_run ("GAME" ++ Py.encode value) a2)
    as (He & Hcore & Hpend & Hgame & _).
  assert (Hsend : peer_send ("GAME" ++ Py.encode value) a2
                  = peer_send ("GAME" ++ value) a) by reflexivity.
  rewrite Hsend in He.
  assert (Ho : opponent_choice (send_to_peer ("GAME" ++ Py.encode value) a2)
               = opponent_choice a).
  { apply game_eq in Hgame as (_ & _ & Ho & _). exact Ho. }
  rewrite Ho, Hopp.
  eexists. eexists. split; [reflexivity|].
  unfold network_chat. cbn [effects emit core game total_rounds
    allow_gui_update server_thread_alive client_thread_alive client_connected
    pending user_profile player_choice opponent_choice current_round].
  rewrite He. unfold core in *. unfold game in *.
  split; [subst a2; cbn; rewrite <- !app_assoc; reflexivity|].
  split; [exact Hcore|]. split; [exact Hpend|].
  split; [exact Hgame|].
  intros s. rewrite !wire_app. cbn. by rewrite app_nil_r.
Qed.

(** A choice made when the other side's is already in. *)
Lemma rps_chosen_second (a : App) (l r : Choice) (p : Profile) (c t : Z) :
  opponent_choice a = Some (choice_name r) ->
  user_profile a = Some p ->
  current_round a = Some c ->
  total_rounds a = Some t ->
  exists a' es,
    event_rps_chosen (choice_name l) a = Done a'
    /\ effects a' = (effects a ++ es)%list
    /\ core a' = core a
    /\ pending a' = pending a
    /\ (c < t ->
        game a' = (Some (scored ((choice_code l - choice_code r) mod 3) p),
                   None, None, Some (c + 1))
        /\ forall s, wire s es = wire s (peer_send ("GAME" ++ choice_name l) a))
    /\ (t <= c ->
        game a' = (Some (scored ((choice_code l - choice_code r) mod 3) p),
                   Some (choice_name l), Some (choice_name r), Some c)
        /\ forall s,
             wire s es
             = (wire s (peer_send ("GAME" ++ choice_name l) a)
                ++ wire s (game_complete_close a))%list).
Proof.
  intros Hr Hp Hc Ht. unfold event_rps_chosen.
  set (a2 := set_player_choice (Some (choice_name l))
               (emit (RpsButton "disabled") a)).
  destruct (send_to_peer_run ("GAME" ++ Py.encode (choice_name l)) a2)
    as (He & Hcore & Hpend & Hgame & _).
  set (a3 := send_to_peer ("GAME" ++ Py.encode (choice_name l)) a2) in *.
  assert (Hsend : peer_send ("GAME" ++ Py.encode (choice_name l)) a2
                  = peer_send ("GAME" ++ choice_name l) a) by reflexivity.
  rewrite Hsend in He.
  assert (Hg3 : game a3 = (Some p, Some (choice_name l),
                           Some (choice_name r), Some c)).
  { rewrite Hgame. unfold game. subst a2. cbn. by rewrite Hp, Hr, Hc. }
  assert (Hc3 : core a3 = core a) by exact Hcore.
  destruct (game_eq _ _ _ _ _ Hg3) as (Hp3 & Hl3 & Hr3 & Hcr3).
  destruct (core_eq _ _ _ _ _ _ Hc3) as (Ht3 & _ & Hsv3 & _ & Hcc3).
  rewrite Ht in Ht3.
  rewrite Hr3, truthy_choice.
  destruct (determine_results_run a3 l r p c t Hl3 Hr3 Hp3 Hcr3 Ht3)
    as (a' & es & Hrun & Hes & Hcore' & Hpend' & Hlt & Hge).
  assert (Hclose : game_complete_close a3 = game_complete_close a).
  { unfold game_complete_close. by rewrite Hsv3, Hcc3. }
  exists a', ([RpsButton "disabled"] ++ peer_send ("GAME" ++ choice_name l) a
              ++ es)%list.
  split; [exact Hrun|].
  split.
  { rewrite Hes, He. subst a2. cbn. by rewrite <- !app_assoc. }
  split; [by rewrite Hcore'|].
  split; [rewrite Hpend', Hpend; reflexivity|].
  split.
  - intros H. destruct (Hlt H) as [Hg Hw]. split; [exact Hg|].
    intros s. rewrite !wire_app, Hw. cbn. by rewrite app_nil_r.
  - intros H. destruct (Hge H) as [Hg Hw]. split; [exact Hg|].
    intros s. rewrite !wire_app, Hw, Hclose. reflexivity.
Qed.

(** One [GAME] message, in either role. *)
Lemma on_recv_game (payload : string) (a : App) :
  Py.decode payload = Some payload ->
  let a1 := set_opponent_choice (Some payload) a in
  let a2 := if Py.truthy_str (player_choice a)
            then after CbDetermineResults a1
            else after (CbNetworkChat (TxtHasChosen (opponent_username a))
                          "system_chat") a1 in
  Server_on_recv (RecvData ("GAME" ++ payload)) a = a2
  /\ Client_on_recv (RecvData ("GAME" ++ payload)) a = a2.
Proof.
  intros Hd. unfold Server_on_recv, Client_on_recv.
  rewrite read_body_game, Hd.
  by destruct (Py.truthy_str (player_choice a)).
Qed.

(** [network_disconnected]: the game fields are cleared, the profile and
    the flags stay, nothing is written to a socket. *)
Lemma network_disconnected_run (a : App) :
  exists es,
    effects (network_disconnected a) = (effects a ++ es)%list
    /\ (forall s, wire s es = [])
    /\ game (network_disconnected a) = (user_profile a, None, None, None)
    /\ total_rounds (network_disconnected a) = None
    /\ pending (network_disconnected a) = pending a
    /\ server_thread_alive (network_disconnected a) = server_thread_alive a
    /\ client_thread_alive (network_disconnected a) = client_thread_alive a
    /\ client_connected (network_disconnected a) = client_connected a.
Proof.
  unfold network_disconnected, update_lobby_state, update_game_state, game.
  cbn. destruct (Py.truthy_int (current_round a)); cbn;
    rewrite <- ?app_assoc; eexists; (split; [reflexivity|]);
    repeat split.
Qed.

(** The GUI thread after a [GAME] message that found no local choice. *)
Lemma gets_first (a : App) (r : Choice) :
  pending a = [] ->
  let a2 := after (CbNetworkChat (TxtHasChosen (opponent_username a))
                     "system_chat")
              (set_opponent_choice (Some (choice_name r)) a) in
  exists es,
    effects (drain a2) = (effects a ++ es)%list
    /\ (forall s, wire s es = [])
    /\ core (drain a2) = core a
    /\ pending (drain a2) = []
    /\ game (drain a2)
       = (user_profile a, player_choice a, Some (choice_name r),
          current_round a).
Proof.
  intros Hpend a2.
  assert (Hp2 : pending a2
                = [CbNetworkChat (TxtHasChosen (opponent_username a))
                     "system_chat"]).
  { subst a2. cbn. by rewrite Hpend. }
  rewrite (drain_one _ _ Hp2). subst a2. cbn.
  eexists. split; [reflexivity|]. repeat split.
Qed.

(** The GUI thread after a [GAME] message that completes the pair. *)
Lemma gets_second (a : App) (l r : Choice) (p : Profile) (c t : Z) :
  player_choice a = Some (choice_name l) ->
  user_profile a = Some p ->
  current_round a = Some c ->
  total_rounds a = Some t ->
  pending a = [] ->
  let a2 := after CbDetermineResults
              (set_opponent_choice (Some (choice_name r)) a) in
  exists es,
    effects (drain a2) = (effects a ++ es)%list
    /\ core (drain a2) = core a
    /\ pending (drain a2) = []
    /\ (c < t ->
        game (drain a2)
        = (Some (scored ((choice_code l - choice_code r) mod 3) p),
           None, None, Some (c + 1))
        /\ forall s, wire s es = [])
    /\ (t <= c ->
        game (drain a2)
        = (Some (scored ((choice_code l - choice_code r) mod 3) p),
           Some (choice_name l), Some (choice_name r), Some c)
        /\ forall s, wire s es = wire s (game_complete_close a)).
Proof.
  intros Hl Hp Hc Ht Hpend a2.
  assert (Hp2 : pending a2 = [CbDetermineResults]).
  { subst a2. cbn. by rewrite Hpend. }
  rewrite (drain_one _ _ Hp2). cbn [run_callback].
  set (a3 := set_pending [] a2).
  destruct (determine_results_run a3 l r p c t)
    as (a' & es & Hrun & Hes & Hcore & Hpend' & Hlt & Hge);
    try (subst a3 a2; cbn; assumption); [subst a3 a2; reflexivity|].
  rewrite Hrun. cbn [state_of].
  exists es. split; [rewrite Hes; subst a3 a2; reflexivity|].
  split; [rewrite Hcore; subst a3 a2; reflexivity|].
  split; [rewrite Hpend'; subst a3 a2; reflexivity|].
  split; [exact Hlt|].
  intros H. destruct (Hge H) as [Hg Hw]. split; [exact Hg|].
  intros s. rewrite Hw. subst a3 a2. reflexivity.
Qed.

(** The GUI thread with only [network_disconnected] scheduled. *)
Lemma drain_disconnected (x : App) :
  pending x = [CbNetworkDisconnected] ->
  exists es,
    effects (drain x) = (effects x ++ es)%list
    /\ (forall s, wire s es = [])
    /\ game (drain x) = (user_profile x, None, None, None)
    /\ total_rounds (drain x) = None
    /\ pending (drain x) = []
    /\ server_thread_alive (drain x) = server_thread_alive x
    /\ client_thread_alive (drain x) = client_thread_alive x
    /\ client_connected (drain x) = client_connected x.
Proof.
  intros H. rewrite (drain_one _ _ H). cbn [run_callback state_of].
  destruct (network_disconnected_run (set_pending [] x))
    as (es & He & Hw & Hg & Ht & Hp & Hs & Hc & Hcc).
  exists es.
  split; [exact He|]. split; [exact Hw|]. split; [exact Hg|].
  split; [exact Ht|]. split; [exact Hp|]. split; [exact Hs|].
  split; [exact Hc|exact Hcc].
Qed.

Lemma Client_on_recv_complete (a : App) :
  Client_on_recv (RecvData "DISCONNECTgame_complete") a = Client_finally a.
Proof.
  unfold Client_on_recv.
  change "DISCONNECTgame_complete" with ("DISCONNECT" ++ "game_complete").
  rewrite read_body_disconnect. reflexivity.
Qed.

Lemma Client_finally_run (a : App) :
  allow_gui_update a = true ->
  effects (Client_finally a) = (effects a ++ [Close ClientSocket])%list
  /\ pending (Client_finally a) = (pending a ++ [CbNetworkDisconnected])%list
  /\ game (Client_finally a) = game a
  /\ total_rounds (Client_finally a) = total_rounds a
  /\ server_thread_alive (Client_finally a) = server_thread_alive a
  /\ client_thread_alive (Client_finally a) = false.
Proof.
  intros H. unfold Client_finally, game. cbn. rewrite H. cbn. repeat split.
Qed.

(** The joiner reads the host's [DISCONNECTgame_complete]: it closes its
    socket and its session is torn down. *)
Lemma joiner_gets_close (a : App) :
  client_thread_alive a = true ->
  allow_gui_update a = true ->
  pending a = [] ->
  let a' := drain (Client_loop [RecvData "DISCONNECTgame_complete"] a) in
  exists es,
    effects a' = (effects a ++ es)%list
    /\ wire ClientSocket es = [RecvData ""]
    /\ game a' = (user_profile a, None, None, None)
    /\ total_rounds a' = None
    /\ pending a' = []
    /\ client_thread_alive a' = false.
Proof.
  intros Hc Ha Hp a'. subst a'.
  rewrite (Client_loop_one _ _ Hc), Client_on_recv_complete.
  destruct (Client_finally_run a Ha) as (He & Hp' & Hg & Ht & Hs & Hc').
  rewrite Hp in Hp'.
  destruct (drain_disconnected (Client_finally a) Hp')
    as (es & He2 & Hw & Hg2 & Ht2 & Hp2 & _ & Hc2 & _).
  exists ([Close ClientSocket] ++ es)%list.
  split; [exact (new_effects_trans _ _ _ _ _ He He2)|].
  split; [rewrite wire_app, Hw; reflexivity|].
  split; [rewrite Hg2; apply game_eq in Hg; by rewrite (proj1 Hg)|].
  split; [exact Ht2|]. split; [exact Hp2|]. by rewrite Hc2.
Qed.

Lemma Server_on_recv_eof (a : App) :
  Server_on_recv (RecvData "") a
  = Server_finally (emit (Close ServerSocket)
                      (emit (Close ServerClientSocket) a)).
Proof. reflexivity. Qed.

(** The host reads the end of the stream: its session is torn down. *)
Lemma host_gets_eof (a : App) :
  server_thread_alive a = true ->
  allow_gui_update a = true ->
  pending a = [] ->
  let a' := drain (Server_loop [RecvData ""] a) in
  game a' = (user_profile a, None, None, None)
  /\ total_rounds a' = None
  /\ pending a' = []
  /\ server_thread_alive a' = false
  /\ client_connected a' = false.
Proof.
  intros Hs Ha Hp a'. subst a'.
  rewrite (Server_loop_one _ _ Hs), Server_on_recv_eof.
  set (x := Server_finally _).
  assert (Hx : pending x = [CbNetworkDisconnected]).
  { subst x. unfold Server_finally. cbn. rewrite Ha. cbn. by rewrite Hp. }
  destruct (drain_disconnected x Hx)
    as (es & _ & _ & Hg & Ht & Hp2 & Hs2 & _ & Hcc).
  split; [rewrite Hg; subst x; unfold Server_finally; cbn; rewrite Ha;
          reflexivity|].
  split; [exact Ht|]. split; [exact Hp2|].
  split; [rewrite Hs2|rewrite Hcc]; subst x; unfold Server_finally; cbn;
    rewrite ?Ha; reflexivity.
Qed.

(** The joiner reads the host's last choice and the host's
    [DISCONNECTgame_complete] before its GUI thread runs: the round is
    scored first, then the session is torn down. *)
Lemma joiner_gets_second_and_close (a : App) (l r : Choice) (p : Profile)
    (c t : Z) :
  player_choice a = Some (choice_name l) ->
  user_profile a = Some p ->
  current_round a = Some c ->
  total_rounds a = Some t ->
  t <= c ->
  pending a = [] ->
  client_thread_alive a = true ->
  allow_gui_update a = true ->
  server_thread_alive a = false ->
  let a' := drain (Client_loop [RecvData ("GAME" ++ choice_name r);
                                RecvData "DISCONNECTgame_complete"] a) in
  exists es,
    effects a' = (effects a ++ es)%list
    /\ wire ClientSocket es = [RecvData ""]
    /\ game a' = (Some (scored ((choice_code l - choice_code r) mod 3) p),
                  None, None, None)
    /\ total_rounds a' = None
    /\ pending a' = []
    /\ client_thread_alive a' = false.
Proof.
  intros Hl Hp Hc Ht Hle Hpend Hcta Hallow Hsta a'. subst a'.
  destruct (on_recv_game (choice_name r) a (decode_choice r)) as [_ Hrecv].
  rewrite Hl, truthy_choice in Hrecv.
  set (a2 := after CbDetermineResults
               (set_opponent_choice (Some (choice_name r)) a)) in *.
  rewrite Client_loop_two; [|exact Hcta|by rewrite Hrecv].
  rewrite Hrecv, Client_on_recv_complete.
  destruct (Client_finally_run a2 Hallow)
    as (He & Hp' & Hg & Ht' & Hs' & Hc').
  set (x := Client_finally a2) in *.
  assert (Hpx : pending x = [CbDetermineResults; CbNetworkDisconnected]).
  { rewrite Hp'. subst a2. cbn. by rewrite Hpend. }
  apply game_eq in Hg. destruct Hg as (Hg1 & Hg2 & Hg3 & Hg4).
  clearbody x. subst a2. cbn in He, Hg1, Hg2, Hg3, Hg4, Ht', Hs'.
  destruct (determine_results_run (set_pending [CbNetworkDisconnected] x)
              l r p c t)
    as (a3 & es1 & Hrun & He3 & Hcore3 & Hp3 & _ & Hlast).
  { cbn. rewrite Hg2. exact Hl. }
  { cbn. exact Hg3. }
  { cbn. rewrite Hg1. exact Hp. }
  { cbn. rewrite Hg4. exact Hc. }
  { cbn. rewrite Ht'. exact Ht. }
  destruct (Hlast Hle) as [Hgame3 Hwire3].
  rewrite (drain_two _ _ _ Hpx); cbn [run_callback]; rewrite Hrun;
    cbn [state_of]; [|exact Hp3].
  destruct (network_disconnected_run (set_pending [] a3))
    as (es2 & He4 & Hw4 & Hg4' & Ht4 & Hp4 & _ & Hc4 & _).
  apply core_eq in Hcore3. destruct Hcore3 as (_ & _ & _ & Hc3 & _).
  apply game_eq in Hgame3. destruct Hgame3 as (Hu3 & _).
  exists ([Close ClientSocket] ++ (es1 ++ es2))%list.
  split.
  { apply (new_effects_trans a x); [exact He|].
    exact (new_effects_trans _ _ _ _ _ He3 He4). }
  split.
  { rewrite !wire_app, Hwire3, Hw4. unfold game_complete_close. cbn.
    by rewrite Hs', Hsta. }
  split; [rewrite Hg4'; cbn; by rewrite Hu3|].
  split; [exact Ht4|]. split; [exact Hp4|].
  rewrite Hc4. cbn. rewrite Hc3. exact Hc'.
Qed.

(** *** What each side makes of what the other wrote *)

Lemma joiner_reads_nothing (h h' j : App) (es : list Effect) :
  effects h' = (effects h ++ es)%list ->
  wire ServerClientSocket es = [] ->
  pending j = [] ->
  joiner_receives h h' j = j.
Proof.
  intros He Hw Hp. unfold joiner_receives.
  rewrite (new_effects_adds _ _ _ He), Hw. by apply drain_nil.
Qed.

Lemma host_reads_nothing (j j' h : App) (es : list Effect) :
  effects j' = (effects j ++ es)%list ->
  wire ClientSocket es = [] ->
  pending h = [] ->
  host_receives j j' h = h.
Proof.
  intros He Hw Hp. unfold host_receives.
  rewrite (new_effects_adds _ _ _ He), Hw. by apply drain_nil.
Qed.

Lemma joiner_reads_first (h h' j : App) (es : list Effect) (v : Choice) :
  effects h' = (effects h ++ es)%list ->
  wire ServerClientSocket es = [RecvData ("GAME" ++ choice_name v)] ->
  client_thread_alive j = true ->
  player_choice j = None ->
  pending j = [] ->
  let j1 := joiner_receives h h' j in
  exists es',
    effects j1 = (effects j ++ es')%list
    /\ (forall s, wire s es' = [])
    /\ core j1 = core j
    /\ pending j1 = []
    /\ game j1 = (user_profile j, None, Some (choice_name v), current_round j).
Proof.
  intros He Hw Hc Hpc Hp j1. subst j1. unfold joiner_receives.
  rewrite (new_effects_adds _ _ _ He), Hw, (Client_loop_one _ _ Hc).
  destruct (on_recv_game (choice_name v) j (decode_choice v)) as [_ Hrecv].
  rewrite Hpc in Hrecv. rewrite Hrecv.
  destruct (gets_first j v Hp) as (es' & H1 & H2 & H3 & H4 & H5).
  exists es'. rewrite Hpc in H5. repeat (split; [assumption|]). assumption.
Qed.

Lemma host_reads_first (j j' h : App) (es : list Effect) (v : Choice) :
  effects j' = (effects j ++ es)%list ->
  wire ClientSocket es = [RecvData ("GAME" ++ choice_name v)] ->
  server_thread_alive h = true ->
  player_choice h = None ->
  pending h = [] ->
  let h1 := host_receives j j' h in
  exists es',
    effects h1 = (effects h ++ es')%list
    /\ (forall s, wire s es' = [])
    /\ core h1 = core h
    /\ pending h1 = []
    /\ game h1 = (user_profile h, None, Some (choice_name v), current_round h).
Proof.
  intros He Hw Hc Hpc Hp h1. subst h1. unfold host_receives.
  rewrite (new_effects_adds _ _ _ He), Hw, (Server_loop_one _ _ Hc).
  destruct (on_recv_game (choice_name v) h (decode_choice v)) as [Hrecv _].
  rewrite Hpc in Hrecv. rewrite Hrecv.
  destruct (gets_first h v Hp) as (es' & H1 & H2 & H3 & H4 & H5).
  exists es'. rewrite Hpc in H5. repeat (split; [assumption|]). assumption.
Qed.

Lemma joiner_reads_second (h h' j : App) (es : list Effect) (l r : Choice)
    (p : Profile) (c t : Z) :
  effects h' = (effects h ++ es)%list ->
  wire ServerClientSocket es = [RecvData ("GAME" ++ choice_name r)] ->
  client_thread_alive j = true ->
  server_thread_alive j = false ->
  game j = (Some p, Some (choice_name l), None, Some c) ->
  total_rounds j = Some t ->
  pending j = [] ->
  c < t ->
  let j1 := joiner_receives h h' j in
  core j1 = core j /\ pending j1 = []
  /\ game j1 = (Some (scored ((choice_code l - choice_code r) mod 3) p),
                None, None, Some (c + 1))
  /\ exists es', effects j1 = (effects j ++ es')%list
                 /\ forall s, wire s es' = [].
Proof.
  intros He Hw Hc Hs Hg Ht Hp Hlt j1. subst j1. unfold joiner_receives.
  apply game_eq in Hg. destruct Hg as (Hu & Hpc & _ & Hcr).
  rewrite (new_effects_adds _ _ _ He), Hw, (Client_loop_one _ _ Hc).
  destruct (on_recv_game (choice_name r) j (decode_choice r)) as [_ Hrecv].
  rewrite Hpc, truthy_choice in Hrecv. rewrite Hrecv.
  destruct (gets_second j l r p c t Hpc Hu Hcr Ht Hp)
    as (es' & H1 & H2 & H3 & H4 & _).
  destruct (H4 Hlt) as [H5 H6].
  split; [assumption|]. split; [assumption|]. split; [assumption|].
  exists es'. split; assumption.
Qed.

Lemma host_reads_second (j j' h : App) (es : list Effect) (l r : Choice)
    (p : Profile) (c t : Z) :
  effects j' = (effects j ++ es)%list ->
  wire ClientSocket es = [RecvData ("GAME" ++ choice_name r)] ->
  server_thread_alive h = true ->
  client_connected h = true ->
  game h = (Some p, Some (choice_name l), None, Some c) ->
  total_rounds h = Some t ->
  pending h = [] ->
  let h1 := host_receives j j' h in
  core h1 = core h /\ pending h1 = []
  /\ exists es',
       effects h1 = (effects h ++ es')%list
       /\ (c < t ->
           game h1 = (Some (scored ((choice_code l - choice_code r) mod 3) p),
                      None, None, Some (c + 1))
           /\ wire ServerClientSocket es' = [])
       /\ (t <= c ->
           game h1 = (Some (scored ((choice_code l - choice_code r) mod 3) p),
                      Some (choice_name l), Some (choice_name r), Some c)
           /\ wire ServerClientSocket es'
              = [RecvData "DISCONNECTgame_complete"]).
Proof.
  intros He Hw Hs Hcc Hg Ht Hp h1. subst h1. unfold host_receives.
  apply game_eq in Hg. destruct Hg as (Hu & Hpc & _ & Hcr).
  rewrite (new_effects_adds _ _ _ He), Hw, (Server_loop_one _ _ Hs).
  destruct (on_recv_game (choice_name r) h (decode_choice r)) as [Hrecv _].
  rewrite Hpc, truthy_choice in Hrecv. rewrite Hrecv.
  destruct (gets_second h l r p c t Hpc Hu Hcr Ht Hp)
    as (es' & H1 & H2 & H3 & H4 & H5).
  split; [assumption|]. split; [assumption|].
  exists es'. split; [assumption|]. split.
  - intros Hlt. destruct (H4 Hlt) as [H6 H7]. split; [assumption|apply H7].
  - intros Hle. destruct (H5 Hle) as [H6 H7]. split; [assumption|].
    rewrite H7. unfold game_complete_close. by rewrite Hs, Hcc.
Qed.

Lemma joiner_reads_close (h h' j : App) (es : list Effect) :
  effects h' = (effects h ++ es)%list ->
  wire ServerClientSocket es = [RecvData "DISCONNECTgame_complete"] ->
  client_thread_alive j = true ->
  allow_gui_update j = true ->
  pending j = [] ->
  let j1 := joiner_receives h h' j in
  game j1 = (user_profile j, None, None, None)
  /\ total_rounds j1 = None
  /\ pending j1 = []
  /\ client_thread_alive j1 = false
  /\ exists es', effects j1 = (effects j ++ es')%list
                 /\ wire ClientSocket es' = [RecvData ""].
Proof.
  intros He Hw Hc Ha Hp j1. subst j1. unfold joiner_receives.
  rewrite (new_effects_adds _ _ _ He), Hw.
  destruct (joiner_gets_close j Hc Ha Hp) as (es' & H1 & H2 & H3 & H4 & H5 & H6).
  repeat (split; [assumption|]). exists es'. split; assumption.
Qed.

Lemma joiner_reads_second_and_close (h h' j : App) (es : list Effect)
    (l r : Choice) (p : Profile) (c t : Z) (b : bool) :
  effects h' = (effects h ++ es)%list ->
  wire ServerClientSocket es
  = [RecvData ("GAME" ++ choice_name r); RecvData "DISCONNECTgame_complete"] ->
  game j = (Some p, Some (choice_name l), None, Some c) ->
  core j = (Some t, true, false, true, b) ->
  pending j = [] ->
  t <= c ->
  let j1 := joiner_receives h h' j in
  game j1 = (Some (scored ((choice_code l - choice_code r) mod 3) p),
             None, None, None)
  /\ total_rounds j1 = None
  /\ pending j1 = []
  /\ client_thread_alive j1 = false
  /\ exists es', effects j1 = (effects j ++ es')%list
                 /\ wire ClientSocket es' = [RecvData ""].
Proof.
  intros He Hw Hg Hk Hp Hle j1. subst j1. unfold joiner_receives.
  rewrite (new_effects_adds _ _ _ He), Hw.
  apply game_eq in Hg. destruct Hg as (Hu & Hpc & _ & Hcr).
  apply core_eq in Hk. destruct Hk as (Ht & Ha & Hs & Hc & _).
  destruct (joiner_gets_second_and_close j l r p c t
              Hpc Hu Hcr Ht Hle Hp Hc Ha Hs)
    as (es' & H1 & H2 & H3 & H4 & H5 & H6).
  repeat (split; [assumption|]). exists es'. split; assumption.
Qed.

Lemma host_reads_eof (j j' h : App) (es : list Effect) :
  effects j' = (effects j ++ es)%list ->
  wire ClientSocket es = [RecvData ""] ->
  server_thread_alive h = true ->
  allow_gui_update h = true ->
  pending h = [] ->
  let h1 := host_receives j j' h in
  game h1 = (user_profile h, None, None, None)
  /\ total_rounds h1 = None
  /\ pending h1 = []
  /\ server_thread_alive h1 = false
  /\ client_connected h1 = false.
Proof.
  intros He Hw Hs Ha Hp h1. subst h1. unfold host_receives.
  rewrite (new_effects_adds _ _ _ He), Hw.
  exact (host_gets_eof h Hs Ha Hp).
Qed.

(** *** A round, and a game, between two peers *)

Lemma scored_rules (l r : Choice) (p : Profile) :
  scored ((choice_code l - choice_code r) mod 3) p = round_result l r p.
Proof. by destruct l, r. Qed.

Lemma linked_intro (c t : Z) (ph pj : Profile) (h j : App) (bh bj : bool) :
  game h = (Some ph, None, None, Some c) ->
  game j = (Some pj, None, None, Some c) ->
  pending h = [] -> pending j = [] ->
  core h = (Some t, true, true, bh, true) ->
  core j = (Some t, true, false, true, bj) ->
  linked c t ph pj h j.
Proof.
  intros Hgh Hgj Hqh Hqj Hkh Hkj.
  apply game_eq in Hgh, Hgj. apply core_eq in Hkh, Hkj.
  destruct Hgh as (? & ? & ? & ?), Hgj as (? & ? & ? & ?).
  destruct Hkh as (? & ? & ? & ? & ?), Hkj as (? & ? & ? & ? & ?).
  unfold linked, core.
  repeat (split; [assumption|]).
  split; congruence.
Qed.

Lemma over_intro (ph pj : Profile) (h j : App) :
  game h = (Some ph, None, None, None) ->
  game j = (Some pj, None, None, None) ->
  total_rounds h = None -> total_rounds j = None ->
  pending h = [] -> pending j = [] ->
  server_thread_alive h = false -> client_connected h = false ->
  client_thread_alive j = false ->
  over ph pj h j.
Proof.
  intros Hgh Hgj. apply game_eq in Hgh, Hgj.
  destruct Hgh as (? & ? & ? & ?), Hgj as (? & ? & ? & ?).
  intros. unfold over. repeat (split; [assumption|]). assumption.
Qed.

Lemma round_host_first (lh lj : Choice) (c t : Z) (ph pj : Profile)
    (h j : App) :
  linked c t ph pj h j ->
  c <= t ->
  let hj' := play_round true (choice_name lh) (choice_name lj) (h, j) in
  (c < t ->
   linked (c + 1) t (round_result lh lj ph) (round_result lj lh pj)
     (fst hj') (snd hj'))
  /\ (c = t ->
      over (round_result lh lj ph) (round_result lj lh pj)
        (fst hj') (snd hj')).
Proof.
  intros (Huh & Huj & Hch & Hcj & Hph & Hoh & Hpj & Hoj & Hqh & Hqj
          & Hkh & Hkj) Hct.
  cbv beta iota zeta delta [play_round fst snd].
  destruct (core_eq _ _ _ _ _ _ Hkh) as (Hth & Hah & Hsh & _ & Hcch).
  destruct (core_eq _ _ _ _ _ _ Hkj) as (Htj & Haj & Hsj & Hctj & _).
  rewrite <- !scored_rules.
  (* the host chooses *)
  destruct (rps_chosen_first (choice_name lh) h)
    as (h1 & e1 & Hr1 & He1 & Hk1 & Hq1 & Hg1 & Hw1); [by rewrite Hoh|].
  rewrite Hr1. cbn [state_of]. clear Hr1.
  assert (Hw1' : wire ServerClientSocket e1
                 = [RecvData ("GAME" ++ choice_name lh)]).
  { rewrite Hw1. unfold peer_send. rewrite Hsh. apply wire_game. }
  rewrite Huh, Hoh, Hch in Hg1. rewrite Hkh in Hk1. rewrite Hqh in Hq1.
  destruct (core_eq _ _ _ _ _ _ Hk1) as (Hth1 & Hah1 & Hsh1 & _ & Hcch1).
  (* the joiner reads it *)
  destruct (joiner_reads_first h h1 j e1 lh He1 Hw1' Hctj Hpj Hqj)
    as (e2 & He2 & Hw2 & Hk2 & Hq2 & Hg2).
  set (j1 := joiner_receives h h1 j) in *. clearbody j1.
  rewrite Huj, Hcj in Hg2. rewrite Hkj in Hk2.
  destruct (game_eq _ _ _ _ _ Hg2) as (Huj1 & _ & Hoj1 & Hcj1).
  destruct (core_eq _ _ _ _ _ _ Hk2) as (Htj1 & Haj1 & Hsj1 & Hctj1 & _).
  (* the joiner chooses: its round is resolved *)
  destruct (rps_chosen_second j1 lj lh pj c t Hoj1 Huj1 Hcj1 Htj1)
    as (j2 & e3 & Hr3 & He3 & Hk3 & Hq3 & Hlt3 & Hge3).
  rewrite Hr3. cbn [state_of]. clear Hr3.
  rewrite Hk2 in Hk3. rewrite Hq2 in Hq3.
  destruct (core_eq _ _ _ _ _ _ Hk3) as (Htj2 & Haj2 & Hsj2 & Hctj2 & _).
  assert (Hw3 : wire ClientSocket e3 = [RecvData ("GAME" ++ choice_name lj)]).
  { destruct (Z_lt_le_dec c t) as [Hlt|Hle].
    - destruct (Hlt3 Hlt) as [_ ->]. unfold peer_send.
      rewrite Hsj1, Hctj1. apply wire_game.
    - destruct (Hge3 Hle) as [_ ->]. unfold peer_send, game_complete_close.
      rewrite Hsj1, Hctj1, wire_game. reflexivity. }
  (* the host reads it: its round is resolved *)
  destruct (host_reads_second j1 j2 h1 e3 lh lj ph c t He3 Hw3 Hsh1 Hcch1
              Hg1 Hth1 Hq1)
    as (Hk4 & Hq4 & e4 & He4 & Hlt4 & Hge4).
  set (h2 := host_receives j1 j2 h1) in *. clearbody h2.
  rewrite Hk1 in Hk4.
  destruct (core_eq _ _ _ _ _ _ Hk4) as (Hth2 & Hah2 & Hsh2 & _ & Hcch2).
  split.
  - (* not the last round: nothing more is written *)
    intros Hlt. destruct (Hlt3 Hlt) as [Hgj2 _].
    destruct (Hlt4 Hlt) as [Hgh2 Hw4].
    rewrite (joiner_reads_nothing h1 h2 j2 e4 He4 Hw4 Hq3).
    rewrite (host_reads_nothing j2 j2 h2 []);
      [|by rewrite app_nil_r|reflexivity|exact Hq4].
    exact (linked_intro _ _ _ _ _ _ _ _ Hgh2 Hgj2 Hq4 Hq3 Hk4 Hk3).
  - (* the last round: the host hangs up, the joiner closes *)
    intros ->. destruct (Hge3 (Z.le_refl _)) as [Hgj2 _].
    destruct (Hge4 (Z.le_refl _)) as [Hgh2 Hw4].
    apply game_eq in Hgj2, Hgh2.
    destruct Hgj2 as (Huj2 & _), Hgh2 as (Huh2 & _).
    destruct (joiner_reads_close h1 h2 j2 e4 He4 Hw4 Hctj2 Haj2 Hq3)
      as (Hgj3 & Htj3 & Hqj3 & Hctj3 & e5 & He5 & Hw5).
    set (j3 := joiner_receives h1 h2 j2) in *. clearbody j3.
    destruct (host_reads_eof j2 j3 h2 e5 He5 Hw5 Hsh2 Hah2 Hq4)
      as (Hgh3 & Hth3 & Hqh3 & Hsh3 & Hcch3).
    rewrite Huj2 in Hgj3. rewrite Huh2 in Hgh3.
    exact (over_intro _ _ _ _ Hgh3 Hgj3 Hth3 Htj3 Hqh3 Hqj3 Hsh3 Hcch3 Hctj3).
Qed.

Lemma round_joiner_first (lh lj : Choice) (c t : Z) (ph pj : Profile)
    (h j : App) :
  linked c t ph pj h j ->
  c <= t ->
  let hj' := play_round false (choice_name lh) (choice_name lj) (h, j) in
  (c < t ->
   linked (c + 1) t (round_result lh lj ph) (round_result lj lh pj)
     (fst hj') (snd hj'))
  /\ (c = t ->
      over (round_result lh lj ph) (round_result lj lh pj)
        (fst hj') (snd hj')).
Proof.
  intros (Huh & Huj & Hch & Hcj & Hph & Hoh & Hpj & Hoj & Hqh & Hqj
          & Hkh & Hkj) Hct.
  cbv beta iota zeta delta [play_round fst snd].
  destruct (core_eq _ _ _ _ _ _ Hkh) as (Hth & Hah & Hsh & _ & Hcch).
  destruct (core_eq _ _ _ _ _ _ Hkj) as (Htj & Haj & Hsj & Hctj & _).
  rewrite <- !scored_rules.
  (* the joiner chooses *)
  destruct (rps_chosen_first (choice_name lj) j)
    as (j1 & e1 & Hr1 & He1 & Hk1 & Hq1 & Hg1 & Hw1); [by rewrite Hoj|].
  rewrite Hr1. cbn [state_of]. clear Hr1.
  assert (Hw1' : wire ClientSocket e1
                 = [RecvData ("GAME" ++ choice_name lj)]).
  { rewrite Hw1. unfold peer_send. rewrite Hsj, Hctj. apply wire_game. }
  rewrite Huj, Hoj, Hcj in Hg1. rewrite Hkj in Hk1. rewrite Hqj in Hq1.
  destruct (core_eq _ _ _ _ _ _ Hk1) as (Htj1 & Haj1 & Hsj1 & Hctj1 & _).
  (* the host reads it *)
  destruct (host_reads_first j j1 h e1 lj He1 Hw1' Hsh Hph Hqh)
    as (e2 & He2 & Hw2 & Hk2 & Hq2 & Hg2).
  set (h1 := host_receives j j1 h) in *. clearbody h1.
  rewrite Huh, Hch in Hg2. rewrite Hkh in Hk2.
  destruct (game_eq _ _ _ _ _ Hg2) as (Huh1 & _ & Hoh1 & Hch1).
  destruct (core_eq _ _ _ _ _ _ Hk2) as (Hth1 & Hah1 & Hsh1 & _ & Hcch1).
  (* the host chooses: its round is resolved *)
  destruct (rps_chosen_second h1 lh lj ph c t Hoh1 Huh1 Hch1 Hth1)
    as (h2 & e3 & Hr3 & He3 & Hk3 & Hq3 & Hlt3 & Hge3).
  rewrite Hr3. cbn [state_of]. clear Hr3.
  rewrite Hk2 in Hk3. rewrite Hq2 in Hq3.
  destruct (core_eq _ _ _ _ _ _ Hk3) as (Hth2 & Hah2 & Hsh2 & _ & Hcch2).
  split.
  - (* not the last round *)
    intros Hlt. destruct (Hlt3 Hlt) as [Hgh2 Hw3].
    assert (Hw3' : wire ServerClientSocket e3
                   = [RecvData ("GAME" ++ choice_name lh)]).
    { rewrite Hw3. unfold peer_send. rewrite Hsh1. apply wire_game. }
    destruct (joiner_reads_second h1 h2 j1 e3 lj lh pj c t He3 Hw3' Hctj1
                Hsj1 Hg1 Htj1 Hq1 Hlt)
      as (Hk4 & Hq4 & Hgj2 & e4 & He4 & Hw4).
    set (j2 := joiner_receives h1 h2 j1) in *. clearbody j2.
    rewrite Hk1 in Hk4.
    rewrite (host_reads_nothing j1 j2 h2 e4 He4 (Hw4 _) Hq3).
    exact (linked_intro _ _ _ _ _ _ _ _ Hgh2 Hgj2 Hq3 Hq4 Hk3 Hk4).
  - (* the last round: the joiner reads the choice and the hang-up *)
    intros ->. destruct (Hge3 (Z.le_refl _)) as [Hgh2 Hw3].
    assert (Hw3' : wire ServerClientSocket e3
                   = [RecvData ("GAME" ++ choice_name lh);
                      RecvData "DISCONNECTgame_complete"]).
    { rewrite Hw3. unfold peer_send, game_complete_close.
      rewrite Hsh1, Hcch1, wire_game. reflexivity. }
    apply game_eq in Hgh2. destruct Hgh2 as (Huh2 & _).
    destruct (joiner_reads_second_and_close h1 h2 j1 e3 lj lh pj t t _ He3 Hw3'
                Hg1 Hk1 Hq1 (Z.le_refl _))
      as (Hgj2 & Htj2 & Hqj2 & Hctj2 & e4 & He4 & Hw4).
    set (j2 := joiner_receives h1 h2 j1) in *. clearbody j2.
    destruct (host_reads_eof j1 j2 h2 e4 He4 Hw4 Hsh2 Hah2 Hq3)
      as (Hgh3 & Hth3 & Hqh3 & Hsh3 & Hcch3).
    rewrite Huh2 in Hgh3.
    exact (over_intro _ _ _ _ Hgh3 Hgj2 Hth3 Htj2 Hqh3 Hqj2 Hsh3 Hcch3 Hctj2).
Qed.

Lemma play_round_step (host_first : bool) (lh lj : Choice) (c t : Z)
    (ph pj : Profile) (h j : App) :
  linked c t ph pj h j ->
  c <= t ->
  let hj' := play_round host_first (choice_name lh) (choice_name lj) (h, j) in
  (c < t ->
   linked (c + 1) t (round_result lh lj ph) (round_result lj lh pj)
     (fst hj') (snd hj'))
  /\ (c = t ->
      over (round_result lh lj ph) (round_result lj lh pj)
        (fst hj') (snd hj')).
Proof.
  destruct host_first; [apply round_host_first|apply round_joiner_first].
Qed.

Lemma play_steps (rounds : list Round) :
  forall (c t : Z) (ph pj : Profile) (h j : App),
    linked c t ph pj h j ->
    let hj' := play rounds (h, j) in
    let pp' := tally rounds (ph, pj) in
    (c + Z.of_nat (length rounds) <= t ->
     linked (c + Z.of_nat (length rounds)) t (fst pp') (snd pp')
       (fst hj') (snd hj'))
    /\ (rounds <> [] -> c + Z.of_nat (length rounds) = t + 1 ->
        over (fst pp') (snd pp') (fst hj') (snd hj')).
Proof.
  induction rounds as [|[[hf lh] lj] rest IH]; intros c t ph pj h j Hl.
  - cbn. split; [intros _; by rewrite Z.add_0_r|intros H; by destruct H].
  - cbv zeta. cbn [play tally fst snd].
    pose proof (play_round_step hf lh lj c t ph pj h j Hl) as Hstep.
    cbv zeta in Hstep.
    destruct (play_round hf (choice_name lh) (choice_name lj) (h, j))
      as [h1 j1].
    cbn [fst snd] in Hstep.
    cbn [length]. rewrite !Nat2Z.inj_succ.
    replace (c + Z.succ (Z.of_nat (length rest)))
      with (c + 1 + Z.of_nat (length rest)) by lia.
    split.
    + intros Hle. destruct Hstep as [Hnext _]; [lia|].
      destruct (IH (c + 1) t _ _ h1 j1 (Hnext ltac:(lia))) as [Hgo _].
      cbv zeta in Hgo. apply Hgo. lia.
    + intros _ Heq. destruct rest as [|r rest'].
      * destruct Hstep as [_ Hlast]; [cbn [length] in Heq; lia|].
        cbn [play tally fst snd]. apply Hlast. cbn [length] in Heq. lia.
      * destruct Hstep as [Hnext _]; [lia|].
        assert (Hlt : c < t)
          by (cbn [length] in Heq; rewrite Nat2Z.inj_succ in Heq; lia).
        destruct (IH (c + 1) t _ _ h1 j1 (Hnext Hlt)) as [_ Hend].
        cbv zeta in Hend. apply Hend; [discriminate|exact Heq].
Qed.

(** What a played game adds to the two profiles: the host's new wins are
    the joiner's new losses and the other way round, both get the same new
    ties, and each side gets one entry per round. *)
Lemma tally_mirror (rounds : list Round) :
  forall (pp : Profile * Profile),
    let pp' := tally rounds pp in
    username (fst pp') = username (fst pp)
    /\ username (snd pp') = username (snd pp)
    /\ wins (fst pp') - wins (fst pp) = loses (snd pp') - loses (snd pp)
    /\ loses (fst pp') - loses (fst pp) = wins (snd pp') - wins (snd pp)
    /\ ties (fst pp') - ties (fst pp) = ties (snd pp') - ties (snd pp)
    /\ wins (fst pp') + loses (fst pp') + ties (fst pp')
       = wins (fst pp) + loses (fst pp) + ties (fst pp)
         + Z.of_nat (length rounds).
Proof.
  induction rounds as [|[[hf lh] lj] rest IH]; intros [ph pj].
  - cbn. repeat split; lia.
  - cbv zeta. cbn [tally fst snd length]. rewrite Nat2Z.inj_succ.
    specialize (IH (round_result lh lj ph, round_result lj lh pj)).
    cbv zeta in IH. cbn [fst snd] in IH.
    destruct IH as (H1 & H2 & H3 & H4 & H5 & H6).
    rewrite H1, H2.
    destruct lh, lj; cbn in H3, H4, H5, H6 |- *;
      (split; [reflexivity|]); (split; [reflexivity|]); lia.
Qed.

(** X6. A game in progress. Host and joiner are connected at the start of
    round [c] of [t]; they play rounds that do not use up the game, in each
    round either side choosing first, each side reading what the other
    wrote, one [recv] for each [send]. Then both are at the start of the
    same later round, connected,
    with no choice pending and nothing scheduled, and each profile is what
    the rules give. *)
Theorem game_in_progress (rounds : list Round) (c t : Z) (ph pj : Profile)
    (h j : App) :
  linked c t ph pj h j ->
  c + Z.of_nat (length rounds) <= t ->
  linked (c + Z.of_nat (length rounds)) t
    (fst (tally rounds (ph, pj))) (snd (tally rounds (ph, pj)))
    (fst (play rounds (h, j))) (snd (play rounds (h, j))).
Proof.
  intros Hl Hle. destruct (play_steps rounds c t ph pj h j Hl) as [H _].
  exact (H Hle).
Qed.

Lemma game_in_progress_witness :
  linked 3 3
    (fst (tally (take 2 sample_rounds) (bob, amy)))
    (snd (tally (take 2 sample_rounds) (bob, amy)))
    (fst (play (take 2 sample_rounds) (host_session 3, joiner_session 3)))
    (snd (play (take 2 sample_rounds) (host_session 3, joiner_session 3))).
Proof.
  assert (H1 : linked 1 3 bob amy (host_session 3) (joiner_session 3))
    by (vm_compute; repeat split).
  assert (H2 : 1 + Z.of_nat (length (take 2 sample_rounds)) <= 3)
    by (vm_compute; discriminate).
  exact (game_in_progress (take 2 sample_rounds) 1 3 bob amy
           (host_session 3) (joiner_session 3) H1 H2).
Defined.

(** X7. A whole game, every [send] being read by a [recv] of its own.
    Host and joiner are connected at the start of round [c] of [t] and
    play the remaining rounds, in each round either side choosing first;
    what one side sends, the other reads message by message, also the
    [GAME] and the [DISCONNECTgame_complete] that the host sends one after
    the other when it chooses second in the last round. Then the session
    is over on both sides: the host's worker has ended with the connection
    gone, the joiner's worker has ended, rounds, choices and queue are
    cleared, and each profile is what the rules give for the rounds
    played. (When those two messages reach the joiner in one read, the
    game does not end this way: see [glued_last_round].) *)
Theorem game_between_peers (rounds : list Round) (c t : Z) (ph pj : Profile)
    (h j : App) :
  linked c t ph pj h j ->
  c <= t ->
  c + Z.of_nat (length rounds) = t + 1 ->
  over (fst (tally rounds (ph, pj))) (snd (tally rounds (ph, pj)))
    (fst (play rounds (h, j))) (snd (play rounds (h, j))).
Proof.
  intros Hl Hct Hlen. destruct (play_steps rounds c t ph pj h j Hl) as [_ H].
  apply H; [|exact Hlen]. intros ->. cbn in Hlen. lia.
Qed.

Lemma game_between_peers_witness :
  over
    (fst (tally sample_rounds (bob, amy)))
    (snd (tally sample_rounds (bob, amy)))
    (fst (play sample_rounds (host_session 3, joiner_session 3)))
    (snd (play sample_rounds (host_session 3, joiner_session 3))).
Proof.
  assert (H1 : linked 1 3 bob amy (host_session 3) (joiner_session 3))
    by (vm_compute; repeat split).
  assert (H2 : 1 <= 3) by (vm_compute; discriminate).
  assert (H3 : 1 + Z.of_nat (length sample_rounds) = 3 + 1)
    by (vm_compute; reflexivity).
  exact (game_between_peers sample_rounds 1 3 bob amy
           (host_session 3) (joiner_session 3) H1 H2 H3).
Defined.

(** X8. A whole game is zero-sum, every [send] being read by a [recv] of
    its own. After the remaining rounds are played between two connected
    peers, each message read on its own, the wins the host gained are the
    losses the joiner gained and the other way round, both gained the same
    number of ties, and each side's three counters went up by the number
    of rounds played in total; the user names are as before. *)
Theorem game_is_zero_sum (rounds : list Round) (c t : Z) (ph pj : Profile)
    (h j : App) :
  linked c t ph pj h j ->
  c <= t ->
  c + Z.of_nat (length rounds) = t + 1 ->
  exists ph' pj',
    user_profile (fst (play rounds (h, j))) = Some ph'
    /\ user_profile (snd (play rounds (h, j))) = Some pj'
    /\ username ph' = username ph /\ username pj' = username pj
    /\ wins ph' - wins ph = loses pj' - loses pj
    /\ loses ph' - loses ph = wins pj' - wins pj
    /\ ties ph' - ties ph = ties pj' - ties pj
    /\ wins ph' + loses ph' + ties ph'
       = wins ph + loses ph + ties ph + (t - c + 1)
    /\ wins pj' + loses pj' + ties pj'
       = wins pj + loses pj + ties pj + (t - c + 1).
Proof.
  intros Hl Hct Hlen. destruct (play_steps rounds c t ph pj h j Hl) as [_ H].
  destruct H as (Hu1 & Hu2 & _); [intros ->; cbn in Hlen; lia|exact Hlen|].
  pose proof (tally_mirror rounds (ph, pj)) as Hm. cbv zeta in Hm.
  cbn [fst snd] in Hm. destruct Hm as (M1 & M2 & M3 & M4 & M5 & M6).
  exists (fst (tally rounds (ph, pj))), (snd (tally rounds (ph, pj))).
  repeat (split; [assumption|]). split; lia.
Qed.

Lemma game_is_zero_sum_witness :
  exists ph' pj',
    user_profile
      (fst (play sample_rounds (host_session 3, joiner_session 3))) = Some ph'
    /\ user_profile
         (snd (play sample_rounds (host_session 3, joiner_session 3)))
       = Some pj'
    /\ username ph' = username bob /\ username pj' = username amy
    /\ wins ph' - wins bob = loses pj' - loses amy
    /\ loses ph' - loses bob = wins pj' - wins amy
    /\ ties ph' - ties bob = ties pj' - ties amy
    /\ wins ph' + loses ph' + ties ph'
       = wins bob + loses bob + ties bob + (3 - 1 + 1)
    /\ wins pj' + loses pj' + ties pj'
       = wins amy + loses amy + ties amy + (3 - 1 + 1).
Proof.
  assert (H1 : linked 1 3 bob amy (host_session 3) (joiner_session 3))
    by (vm_compute; repeat split).
  assert (H2 : 1 <= 3) by (vm_compute; discriminate).
  assert (H3 : 1 + Z.of_nat (length sample_rounds) = 3 + 1)
    by (vm_compute; reflexivity).
  exact (game_is_zero_sum sample_rounds 1 3 bob amy
           (host_session 3) (joiner_session 3) H1 H2 H3).
Defined.

(** *** The picture of a round *)

(** What [determine_results] logs. *)
Lemma determine_results_log (a : App) (l r : Choice) (p : Profile) (c t : Z) :
  player_choice a = Some (choice_name l) ->
  opponent_choice a = Some (choice_name r) ->
  user_profile a = Some p ->
  current_round a = Some c ->
  total_rounds a = Some t ->
  let p' := scored ((choice_code l - choice_code r) mod 3) p in
  exists a' tail,
    determine_results a = Done a'
    /\ user_profile a' = Some p'
    /\ effects a'
       = (effects a
          ++ [ProfileStats (wins p') (loses p') (ties p');
              MainTextbox (TxtAscii (Some (choice_name l))
                             (Some (choice_name r))) "system_chat"]
          ++ tail)%list
    /\ count is_outcome tail = 0%nat.
Proof.
  intros Hl Hr Hp Hc Ht p'. subst p'.
  assert (Hs : (if (choice_code l - choice_code r) mod 3 =? 0 then add_ties 1
                else if (choice_code l - choice_code r) mod 3 =? 1
                     then add_wins 1 else add_loses 1) p
               = scored ((choice_code l - choice_code r) mod 3) p).
  { unfold scored. by repeat case_match. }
  unfold determine_results. rewrite Hl, Hr, !choices_at_name.
  unfold bump. rewrite Hp. cbn [bind].
  unfold update_profile_stats. cbn [user_profile set_user_profile bind].
  unfold advance_round, network_chat. cbn. rewrite Hc, Ht, Hl, Hr, Hs.
  destruct (c <? t).
  - eexists. eexists. split; [reflexivity|]. cbn.
    split; [reflexivity|]. rewrite <- !app_assoc. cbn.
    split; [reflexivity|]. reflexivity.
  - unfold Server_stop. cbn.
    destruct (server_thread_alive a); [destruct (client_connected a)|];
      cbn; eexists; eexists; (split; [reflexivity|]); cbn;
      (split; [reflexivity|]); rewrite <- ?app_assoc; cbn;
      (split; [reflexivity|]); reflexivity.
Qed.

(** The label in the picture, against the rules. *)
Lemma ascii_label (l r : Choice) (p : Profile) :
  let p' := scored ((choice_code l - choice_code r) mod 3) p in
  exists art,
    ascii_results (Some (choice_name l)) (Some (choice_name r)) = Some art
    /\ (Py.contains art "--YOU WIN--" = true <-> wins p' = wins p + 1)
    /\ (Py.contains art "--YOU LOSE--" = true <-> loses p' = loses p + 1)
    /\ (Py.contains art "--TIE--" = true <-> ties p' = ties p + 1).
Proof.
  cbv zeta. rewrite scored_rules. unfold round_result.
  destruct l, r; cbn [beats wins loses ties add_wins add_loses add_ties];
    eexists; (split; [vm_compute; reflexivity|]);
    repeat split; intros H; try (vm_compute in H; discriminate H);
    try (vm_compute; reflexivity); lia.
Qed.

(** X9. The picture agrees with the score. For every pair of choices,
    [determine_results] shows exactly one picture, the one that
    [ascii_results] has for (own choice, other choice), and the label in
    that picture names the counter that went up: "--YOU WIN--" exactly
    when wins went up by one, "--YOU LOSE--" exactly when loses did,
    "--TIE--" exactly when ties did. *)
Theorem banner_matches_score (a : App) (l r : Choice) (p : Profile) (c t : Z) :
  player_choice a = Some (choice_name l) ->
  opponent_choice a = Some (choice_name r) ->
  user_profile a = Some p ->
  current_round a = Some c ->
  total_rounds a = Some t ->
  exists a' p' es e art,
    determine_results a = Done a'
    /\ user_profile a' = Some p'
    /\ effects a' = (effects a ++ es)%list
    /\ count is_outcome es = 1%nat
    /\ In e es /\ is_outcome e = true
    /\ shown e = Some art
    /\ (Py.contains art "--YOU WIN--" = true <-> wins p' = wins p + 1)
    /\ (Py.contains art "--YOU LOSE--" = true <-> loses p' = loses p + 1)
    /\ (Py.contains art "--TIE--" = true <-> ties p' = ties p + 1).
Proof.
  intros Hl Hr Hp Hc Ht.
  destruct (determine_results_log a l r p c t Hl Hr Hp Hc Ht)
    as (a' & tail & Hrun & Hp' & He & Htail).
  destruct (ascii_label l r p) as (art & Hart & Hw & Hlo & Hti).
  exists a', (scored ((choice_code l - choice_code r) mod 3) p).
  eexists. eexists. exists art.
  split; [exact Hrun|]. split; [exact Hp'|]. split; [exact He|].
  split; [rewrite count_app; cbn; by rewrite Htail|].
  split; [right; left; reflexivity|]. split; [reflexivity|].
  split; [exact Hart|]. split; [exact Hw|]. split; [exact Hlo|exact Hti].
Qed.

Lemma banner_matches_score_witness :
  exists a' p' es e art,
    determine_results both_chosen = Done a'
    /\ user_profile a' = Some p'
    /\ effects a' = (effects both_chosen ++ es)%list
    /\ count is_outcome es = 1%nat
    /\ In e es /\ is_outcome e = true
    /\ shown e = Some art
    /\ (Py.contains art "--YOU WIN--" = true <-> wins p' = wins amy + 1)
    /\ (Py.contains art "--YOU LOSE--" = true <-> loses p' = loses amy + 1)
    /\ (Py.contains art "--TIE--" = true <-> ties p' = ties amy + 1).
Proof.
  assert (H1 : player_choice both_chosen = Some (choice_name Rock))
    by reflexivity.
  assert (H2 : opponent_choice both_chosen = Some (choice_name Scissors))
    by reflexivity.
  assert (H3 : user_profile both_chosen = Some amy) by reflexivity.
  assert (H4 : current_round both_chosen = Some 1) by reflexivity.
  assert (H5 : total_rounds both_chosen = Some 3) by reflexivity.
  exact (banner_matches_score both_chosen Rock Scissors amy 1 3
           H1 H2 H3 H4 H5).
Defined.

(** *** Hosting, then cancelling *)

Lemma listen_on_recv_cancel (ip : string) (port : Z) (a : App) :
  allow_gui_update a = true ->
  listen_on_recv (UdpData "DISCONNECT" ip port) a
  = listen_finally (after CbNetworkDisconnected a).
Proof.
  intros Ha. unfold listen_on_recv, listen_body, on_lookup, on_connect,
    on_cancel. cbn. by rewrite Ha.
Qed.

Lemma cancel_hosting_sends (a : App) :
  current_round a = None ->
  broadcast_thread_alive a = true ->
  event_disconnect None None a = Done (Server_stop_listen a).
Proof.
  intros Hc Hb. unfold event_disconnect. rewrite Hc. cbn. by rewrite Hb.
Qed.

Lemma get_local_ip_found (ip : string) (a : App) :
  (4 <= length (Py.split_char "." ip))%nat ->
  exists bcast,
    get_local_ip (Some ip) a
    = mkApp (user_profile a) (opponent_username a) (player_choice a)
        (opponent_choice a) (total_rounds a) (current_round a)
        (allow_gui_update a) (broadcast_thread_alive a)
        (server_thread_alive a) (client_thread_alive a) (client_connected a)
        ip (Some bcast) (server_port a) (broadcast_port a) (pending a)
        (effects a).
Proof.
  intros H. unfold get_local_ip, broadcast_of.
  destruct (Nat.leb_spec (length (Py.split_char "." ip)) 3); [lia|].
  eexists. reflexivity.
Qed.

Lemma get_local_ip_failed (sockname : option string) (a : App) :
  match sockname with
  | Some ip => (length (Py.split_char "." ip) < 4)%nat
  | None => True
  end ->
  get_local_ip sockname a = get_local_ip None a.
Proof.
  destruct sockname as [ip|]; [|reflexivity].
  intros H. unfold get_local_ip, broadcast_of.
  destruct (Nat.leb_spec (length (Py.split_char "." ip)) 3);
    [reflexivity|lia].
Qed.

(** X10. Hosting and cancelling. From a state with no game on, the user
    presses "Host" and then "Disconnect". When the probe of
    [get_local_ip] found an address (at least four dot-separated fields),
    this is a round trip: [stop_listen] sends one [DISCONNECT] datagram to
    the listener's own address, the listener reads it, closes its socket
    and ends, and [network_disconnected] runs; the profile is as before,
    the rounds are unset again, nothing is left scheduled, no [ACK] was
    sent, no server was launched, and the lobby is enabled again. When the
    probe failed, [local_ip] is "No IP Found", the [sendto] of
    [stop_listen] raises, "Error Cancelling Hosting" is shown, nothing is
    sent, and the listener goes on listening with the lobby disabled:
    hosting is not cancelled. *)
Theorem hosting_cancelled (slider : Z) (sockname : option string) (a : App) :
  current_round a = None ->
  pending a = [] ->
  allow_gui_update a = true ->
  let a' := host_then_cancel slider sockname a in
  (forall ip,
      sockname = Some ip ->
      (4 <= length (Py.split_char "." ip))%nat ->
      user_profile a' = user_profile a
      /\ local_ip a' = ip
      /\ total_rounds a' = None /\ current_round a' = None
      /\ broadcast_thread_alive a' = false
      /\ server_thread_alive a' = server_thread_alive a
      /\ pending a' = []
      /\ exists es,
           effects a' = (effects a ++ es)%list
           /\ count is_ack es = 0%nat
           /\ count (is_close ServerUdpSocket) es = 1%nat
           /\ last es = Some (LobbyState "normal"))
  /\ (match sockname with
      | Some ip => (length (Py.split_char "." ip) < 4)%nat
      | None => True
      end ->
      local_ip a' = "No IP Found"
      /\ broadcast_thread_alive a' = true
      /\ total_rounds a' = Some slider
      /\ pending a' = []
      /\ effects a'
         = (effects a ++ [MessageBox "IP Retrieval Failed";
                          StatusTextbox TxtHosting; LobbyState "disabled";
                          MessageBox "Error Cancelling Hosting"])%list).
Proof.
  intros Hc Hp Ha a'. subst a'. unfold host_then_cancel, event_host. split.
  - intros ip -> Hlen.
    destruct (get_local_ip_found ip (set_total_rounds (Some slider) a) Hlen)
      as (bcast & ->).
    assert (Hip : String.eqb ip "No IP Found" = false).
    { destruct (String.eqb_spec ip "No IP Found") as [->|]; [|reflexivity].
      vm_compute in Hlen. lia. }
    set (a1 := update_lobby_state _ _).
    assert (Hc1 : current_round a1 = None) by exact Hc.
    assert (Hb1 : broadcast_thread_alive a1 = true) by reflexivity.
    rewrite (cancel_hosting_sends a1 Hc1 Hb1). cbn [state_of].
    assert (Hs : Server_stop_listen a1
                 = emit (SendTo ServerUdpSocket "DISCONNECT" ip
                           (broadcast_port a)) a1).
    { unfold Server_stop_listen.
      change (local_ip a1) with ip. by rewrite Hip. }
    rewrite Hs.
    set (a2 := emit _ a1).
    assert (He : new_effects a1 a2
                 = [SendTo ServerUdpSocket "DISCONNECT" ip (broadcast_port a)]).
    { apply new_effects_adds. reflexivity. }
    rewrite He.
    assert (Hl : loopback a2
                   [SendTo ServerUdpSocket "DISCONNECT" ip (broadcast_port a)]
                 = [UdpData "DISCONNECT" ip (broadcast_port a)]).
    { cbn [loopback]. change (local_ip a2) with ip.
      change (broadcast_port a2) with (broadcast_port a).
      by rewrite String.eqb_refl, Z.eqb_refl. }
    rewrite Hl. cbn [broadcast_listen].
    change (broadcast_thread_alive a2) with true.
    cbv iota. rewrite listen_on_recv_cancel; [|exact Ha].
    set (x := listen_finally _).
    assert (Hx : pending x = [CbNetworkDisconnected]).
    { subst x a2 a1. cbn. by rewrite Hp. }
    rewrite (drain_one _ _ Hx). cbn [run_callback state_of].
    unfold network_disconnected, update_lobby_state, update_game_state.
    subst x a2 a1. cbn. rewrite Hc. cbn.
    repeat (split; [reflexivity|]).
    eexists. split; [rewrite <- !app_assoc; reflexivity|].
    cbn. repeat split.
  - intros Hfail. rewrite (get_local_ip_failed _ _ Hfail).
    set (a1 := update_lobby_state _ _).
    assert (Hc1 : current_round a1 = None) by exact Hc.
    assert (Hb1 : broadcast_thread_alive a1 = true) by reflexivity.
    rewrite (cancel_hosting_sends a1 Hc1 Hb1). cbn [state_of].
    assert (Hs : Server_stop_listen a1
                 = emit (MessageBox "Error Cancelling Hosting") a1)
      by reflexivity.
    rewrite Hs.
    set (a2 := emit _ a1).
    assert (He : new_effects a1 a2
                 = [MessageBox "Error Cancelling Hosting"]).
    { apply new_effects_adds. reflexivity. }
    rewrite He. cbn [loopback broadcast_listen].
    rewrite drain_nil by (subst a2 a1; exact Hp).
    subst a2 a1. cbn. rewrite <- !app_assoc.
    repeat split; try reflexivity. exact Hp.
Qed.

(** bob hosts with his address found, and cancels. *)
Lemma hosting_cancelled_witness :
  let a' := host_then_cancel 3 (Some "192.168.1.10") lobby in
  user_profile a' = user_profile lobby
  /\ local_ip a' = "192.168.1.10"
  /\ total_rounds a' = None /\ current_round a' = None
  /\ broadcast_thread_alive a' = false
  /\ server_thread_alive a' = server_thread_alive lobby
  /\ pending a' = []
  /\ exists es,
       effects a' = (effects lobby ++ es)%list
       /\ count is_ack es = 0%nat
       /\ count (is_close ServerUdpSocket) es = 1%nat
       /\ last es = Some (LobbyState "normal").
Proof.
  assert (H1 : current_round lobby = None) by reflexivity.
  assert (H2 : pending lobby = []) by reflexivity.
  assert (H3 : allow_gui_update lobby = true) by reflexivity.
  assert (H4 : (4 <= length (Py.split_char "." "192.168.1.10"))%nat)
    by (vm_compute; lia).
  exact (proj1 (hosting_cancelled 3 (Some "192.168.1.10") lobby H1 H2 H3)
           "192.168.1.10" eq_refl H4).
Defined.

(** *** The score across a session *)

Lemma profile_le_refl (p : Profile) : profile_le p p.
Proof. unfold profile_le. repeat split; lia. Qed.

Lemma score_kept_same (a a' : App) :
  user_profile a' = user_profile a -> score_kept a a'.
Proof.
  unfold score_kept. intros ->. destruct (user_profile a); [|exact I].
  apply profile_le_refl.
Qed.

Lemma score_kept_trans (a b c : App) :
  score_kept a b -> score_kept b c -> score_kept a c.
Proof.
  unfold score_kept, profile_le.
  destruct (user_profile c), (user_profile b), (user_profile a);
    try tauto.
  intros (-> & ? & ? & ?) (-> & ? & ? & ?). repeat split; lia.
Qed.

Lemma send_to_peer_profile (data : string) (a : App) :
  user_profile (send_to_peer data a) = user_profile a.
Proof. unfold send_to_peer. split_cases; reflexivity. Qed.

Lemma determine_results_kept (a : App) :
  score_kept a (state_of (determine_results a)).
Proof.
  unfold determine_results, bump, update_profile_stats, advance_round,
    network_chat, Server_stop.
  destruct (choices_at (player_choice a)); cbn; [|by apply score_kept_same].
  destruct (choices_at (opponent_choice a)); cbn; [|by apply score_kept_same].
  destruct (user_profile a) as [p|] eqn:Hp; cbn; [|by apply score_kept_same].
  assert (Hle : profile_le p
                  ((if (z - z0) mod 3 =? 0 then add_ties 1
                    else if (z - z0) mod 3 =? 1 then add_wins 1
                         else add_loses 1) p)).
  { unfold profile_le. repeat case_match; cbn; repeat split; lia. }
  destruct (current_round a) as [c|]; cbn;
    [destruct (total_rounds a) as [t|]; cbn;
     [destruct (c <? t); cbn;
      [|destruct (server_thread_alive a); cbn;
        [destruct (client_connected a); cbn|]]|]|];
    unfold score_kept; cbn; rewrite Hp; exact Hle.
Qed.

Lemma dropout_resolution_kept (t : Z) (actor : string) (a : App) :
  round_in_range t a ->
  score_kept a (state_of (dropout_resolution actor a)).
Proof.
  intros (Ht & c & Hc & Hr).
  unfold dropout_resolution, bump, update_profile_stats. rewrite Ht, Hc.
  destruct (user_profile a) as [p|] eqn:Hp.
  - destruct (String.eqb actor "player"); [|destruct (String.eqb actor "quitter")];
      unfold score_kept; cbn; rewrite Hp;
      unfold profile_le; cbn; repeat split; lia.
  - destruct (String.eqb actor "player"); [|destruct (String.eqb actor "quitter")];
      by apply score_kept_same.
Qed.

Lemma event_rps_chosen_kept (value : string) (a : App) :
  score_kept a (state_of (event_rps_chosen value a)).
Proof.
  unfold event_rps_chosen.
  set (a3 := send_to_peer _ _).
  assert (H3 : score_kept a a3).
  { apply score_kept_same. subst a3. by rewrite send_to_peer_profile. }
  destruct (Py.truthy_str (opponent_choice a3)).
  - eapply score_kept_trans; [exact H3|apply determine_results_kept].
  - exact H3.
Qed.

Lemma disconnect_scope_kept (scope : option string) (a : App) :
  score_kept a (disconnect_scope scope a).
Proof.
  unfold disconnect_scope, event_logout.
  destruct scope as [s|]; [|by apply score_kept_same].
  destruct (String.eqb s "exit").
  { apply score_kept_same. by destruct (user_profile a) eqn:Hp. }
  destruct (String.eqb s "logout"); [exact I|by apply score_kept_same].
Qed.

Lemma round_in_range_same (t : Z) (a a' : App) :
  same_rounds a a' -> round_in_range t a -> round_in_range t a'.
Proof.
  intros [Ht Hc] (Ht0 & c & Hc0 & Hr). split; [congruence|].
  exists c. split; [congruence|exact Hr].
Qed.

Lemma event_disconnect_kept (t : Z) (scope answer : option string) (a : App) :
  round_in_range t a ->
  score_kept a (state_of (event_disconnect scope answer a)).
Proof.
  intros Hin. pose proof Hin as (Ht & c & Hc & Hr).
  unfold event_disconnect. rewrite Ht, Hc.
  destruct (Py.truthy_int (Some c)).
  - destruct (decide (answer = Some "Proceed")).
    + set (a1 := if server_thread_alive _ then _ else _).
      assert (H1 : user_profile a1 = user_profile a).
      { subst a1. unfold Server_stop, Client_stop. split_cases; reflexivity. }
      assert (R1 : round_in_range t a1).
      { apply (round_in_range_same t a); [|exact Hin].
        subst a1. unfold same_rounds, Server_stop, Client_stop.
        split_cases; auto. }
      pose proof (dropout_resolution_kept t "quitter" a1 R1) as H2.
      apply score_kept_same in H1.
      destruct (dropout_resolution "quitter" a1) as [a2|ex a2]; cbn in *.
      * destruct (decide (answer = Some "Cancel")); cbn.
        -- eapply score_kept_trans; eauto.
        -- eapply score_kept_trans; [|apply disconnect_scope_kept].
           eapply score_kept_trans; eauto.
      * eapply score_kept_trans; eauto.
    + cbn. destruct (decide (answer = Some "Cancel")); cbn.
      * by apply score_kept_same.
      * eapply score_kept_trans; [|apply disconnect_scope_kept].
        by apply score_kept_same.
  - cbn. eapply score_kept_trans; [|apply disconnect_scope_kept].
    apply score_kept_same.
    unfold Server_stop_listen, Server_stop, Client_stop.
    split_cases; reflexivity.
Qed.

Lemma read_body_profile (data : string) (a : App) :
  user_profile (iter_state (read_body data a)) = user_profile a.
Proof.
  assert (Hchat : forall x, user_profile (iter_state (on_chat data x))
                            = user_profile x).
  { intros x. unfold on_chat. split_cases; reflexivity. }
  assert (Hgame : forall x, user_profile (iter_state (on_game data x))
                            = user_profile x).
  { intros x. unfold on_game. split_cases; reflexivity. }
  unfold read_body.
  destruct (String.eqb data ""); [done|].
  destruct (Py.startswith data "DISCONNECT").
  { split_cases; reflexivity. }
  specialize (Hchat a).
  destruct (on_chat data a) as [a1| |]; try exact Hchat.
  rewrite Hgame. exact Hchat.
Qed.

Lemma Server_on_recv_profile (r : Recv) (a : App) :
  user_profile (Server_on_recv r a) = user_profile a.
Proof.
  unfold Server_on_recv, Server_finally, Server_except.
  destruct r as [data|].
  - pose proof (read_body_profile data a) as H.
    destruct (read_body data a); cbn in *; [done| |];
      rewrite <- H; split_cases; reflexivity.
  - split_cases; reflexivity.
Qed.

Lemma Client_on_recv_profile (r : Recv) (a : App) :
  user_profile (Client_on_recv r a) = user_profile a.
Proof.
  unfold Client_on_recv, Client_finally, Client_except.
  destruct r as [data|].
  - pose proof (read_body_profile data a) as H.
    destruct (read_body data a); cbn in *; [done| |];
      rewrite <- H; split_cases; reflexivity.
  - split_cases; reflexivity.
Qed.

Lemma session_step_kept (t : Z) (a a' : App) :
  round_in_range t a -> session_step a a' -> score_kept a a'.
Proof.
  intros Hin H.
  destruct H as [v a|msg a|sp bp a|scope ans a|ans a|cb q a Hq Hcb|r a Hs|r a Hs].
  - apply event_rps_chosen_kept.
  - apply score_kept_same. unfold event_chat.
    destruct (Py.truthy_str (Some msg)); [|reflexivity].
    by rewrite send_to_peer_profile.
  - by apply score_kept_same.
  - by apply (event_disconnect_kept t).
  - unfold on_exit.
    apply (score_kept_trans _ (set_allow_gui_update false a));
      [by apply score_kept_same|].
    apply (event_disconnect_kept t).
    apply (round_in_range_same t a); [done|exact Hin].
  - destruct cb; try discriminate; cbn.
    + by apply score_kept_same.
    + apply (score_kept_trans _ (set_pending q a));
        [by apply score_kept_same|apply determine_results_kept].
    + apply (score_kept_trans _ (set_pending q a));
        [by apply score_kept_same|].
      apply (dropout_resolution_kept t).
      apply (round_in_range_same t a); [done|exact Hin].
    + by apply score_kept_same.
  - apply score_kept_same, Server_on_recv_profile.
  - apply score_kept_same, Client_on_recv_profile.
Qed.

Lemma session_steps_kept (t : Z) (a a' : App) :
  round_in_range t a -> rtc session_step a a' -> score_kept a a'.
Proof.
  intros Hin Hsteps. induction Hsteps as [x|x y z Hxy _ IH].
  - by apply score_kept_same.
  - eapply score_kept_trans; [exact (session_step_kept t x y Hin Hxy)|].
    apply IH. exact (round_in_range_step t x y Hin Hxy).
Qed.

(** X11. No step of a session lowers the score. From a state with
    [1 <= current_round <= total_rounds], after any sequence of GUI events,
    scheduled callbacks and received messages, a profile that is still
    loaded is the profile the session started with, under the same user
    name and with wins, loses and ties each at least what they were: what
    a dropout adds, [total_rounds - (current_round - 1)], is never
    negative. The profile is only dropped by a logout. *)
Theorem session_never_lowers_score (t : Z) (a a' : App) (p' : Profile) :
  round_in_range t a ->
  rtc session_step a a' ->
  user_profile a' = Some p' ->
  exists p,
    user_profile a = Some p
    /\ username p' = username p
    /\ wins p <= wins p' /\ loses p <= loses p' /\ ties p <= ties p'.
Proof.
  intros Hin Hsteps Hp'.
  pose proof (session_steps_kept t a a' Hin Hsteps) as H.
  unfold score_kept in H. rewrite Hp' in H.
  destruct (user_profile a) as [p|]; [|contradiction].
  exists p. split; [reflexivity|exact H].
Qed.

Lemma session_never_lowers_score_witness :
  exists p,
    user_profile (host_session 3) = Some p
    /\ username bob = username p
    /\ wins p <= wins bob /\ loses p <= loses bob /\ ties p <= ties bob.
Proof.
  assert (H1 : round_in_range 3 (host_session 3)).
  { split; [vm_compute; reflexivity|].
    exists 1. split; [vm_compute; reflexivity|lia]. }
  assert (H2 : rtc session_step (host_session 3)
                 (state_of (event_rps_chosen "Rock" (host_session 3))))
    by (apply rtc_once; constructor).
  assert (H3 : user_profile
                 (state_of (event_rps_chosen "Rock" (host_session 3)))
               = Some bob)
    by (vm_compute; reflexivity).
  exact (session_never_lowers_score 3 _ _ bob H1 H2 H3).
Defined.

(** *** The local address and the lookup *)

(** X12. The broadcast address. When the probe socket reports an address
    of at least four dot-separated fields, [get_local_ip] stores it as
    [local_ip] and stores as [broadcast_address] the same address with
    the fourth field replaced by 255 and every other field as it was, and
    shows nothing; a lookup from that state broadcasts [LOOKUP] to that
    address on the broadcast port. *)
Theorem get_local_ip_broadcast (ip : string) (env : list Arrival) (a : App) :
  (4 <= length (Py.split_char "." ip))%nat ->
  let a' := get_local_ip (Some ip) a in
  exists bcast,
    local_ip a' = ip
    /\ broadcast_address a' = Some bcast
    /\ Py.split_char "." bcast = <[3%nat := "255"]> (Py.split_char "." ip)
    /\ effects a' = effects a
    /\ exists tail,
         effects (snd (discover_servers env a'))
         = (effects a
            ++ SendTo DiscoverUdpSocket "LOOKUP" bcast (broadcast_port a)
               :: tail)%list.
Proof.
  intros Hlen a'. subst a'. unfold get_local_ip, broadcast_of.
  destruct (Nat.leb_spec (length (Py.split_char "." ip)) 3) as [H|_]; [lia|].
  eexists. split; [reflexivity|]. split; [reflexivity|].
  split.
  { apply split_join_char.
    - intros Hnil. apply (f_equal length) in Hnil.
      rewrite length_insert in Hnil. cbn in Hnil. lia.
    - apply Forall_insert; [apply split_char_fields|reflexivity]. }
  split; [reflexivity|].
  unfold discover_servers. cbn [broadcast_address].
  destruct (failure (discover_loop env [] 0)); cbn;
    rewrite <- ?app_assoc; eexists; reflexivity.
Qed.

Lemma get_local_ip_broadcast_witness :
  exists bcast,
    local_ip (get_local_ip (Some "192.168.1.10") lobby) = "192.168.1.10"
    /\ broadcast_address (get_local_ip (Some "192.168.1.10") lobby)
       = Some bcast
    /\ Py.split_char "." bcast
       = <[3%nat := "255"]> (Py.split_char "." "192.168.1.10")
    /\ effects (get_local_ip (Some "192.168.1.10") lobby) = effects lobby
    /\ exists tail,
         effects (snd (discover_servers []
                         (get_local_ip (Some "192.168.1.10") lobby)))
         = (effects lobby
            ++ SendTo DiscoverUdpSocket "LOOKUP" bcast (broadcast_port lobby)
               :: tail)%list.
Proof.
  assert (H : (4 <= length (Py.split_char "." "192.168.1.10"))%nat)
    by (vm_compute; lia).
  exact (get_local_ip_broadcast "192.168.1.10" [] lobby H).
Defined.

(** X13. No address, no lookup. When the probe fails, or reports an
    address of fewer than four dot-separated fields, [get_local_ip] shows
    one message box and stores "No IP Found" and no broadcast address;
    a lookup from that state sends nothing, waits for nothing, shows
    "Server Lookup Failed", closes its socket and returns the empty
    list, whatever is on the network. *)
Theorem lookup_without_address (sockname : option string)
    (env : list Arrival) (a : App) :
  match sockname with
  | Some ip => (length (Py.split_char "." ip) < 4)%nat
  | None => True
  end ->
  let a1 := get_local_ip sockname a in
  let r := discover_servers env a1 in
  local_ip a1 = "No IP Found"
  /\ broadcast_address a1 = None
  /\ available_servers (fst r) = []
  /\ elapsed (fst r) = 0
  /\ effects (snd r)
     = (effects a ++ [MessageBox "IP Retrieval Failed";
                      MessageBox "Server Lookup Failed";
                      Close DiscoverUdpSocket])%list.
Proof.
  intros Hs a1 r. subst r a1.
  assert (Hg : get_local_ip sockname a
               = get_local_ip None a).
  { destruct sockname as [ip|]; [|reflexivity].
    unfold get_local_ip, broadcast_of.
    destruct (Nat.leb_spec (length (Py.split_char "." ip)) 3); [reflexivity|lia]. }
  rewrite Hg. unfold get_local_ip, discover_servers. cbn.
  rewrite <- !app_assoc. repeat split.
Qed.

Lemma lookup_without_address_witness :
  let a1 := get_local_ip (Some "localhost") lobby in
  let r := discover_servers
             [Arrives 100 "51515,bob,3" "192.168.1.10" 12121] a1 in
  local_ip a1 = "No IP Found"
  /\ broadcast_address a1 = None
  /\ available_servers (fst r) = []
  /\ elapsed (fst r) = 0
  /\ effects (snd r)
     = (effects lobby ++ [MessageBox "IP Retrieval Failed";
                          MessageBox "Server Lookup Failed";
                          Close DiscoverUdpSocket])%list.
Proof.
  assert (H : (length (Py.split_char "." "localhost") < 4)%nat)
    by (vm_compute; lia).
  exact (lookup_without_address (Some "localhost")
           [Arrives 100 "51515,bob,3" "192.168.1.10" 12121] lobby H).
Defined.

(** What the receive loop of [discover_servers] lists: what it was given,
    or what a datagram in time with three fields gave. *)
Lemma discover_loop_sound (env : list Arrival) :
  forall (acc : list Host) (t : Z) (ip sp user rounds : string),
    In (ip, sp, user, rounds) (available_servers (discover_loop env acc t)) ->
    In (ip, sp, user, rounds) acc
    \/ exists wait data port,
         In (Arrives wait data ip port) env
         /\ wait < lookup_timeout
         /\ Py.decode data = Some data
         /\ Py.split_comma data = [sp; user; rounds].
Proof.
  induction env as [|[wait data ip0 port|wait] rest IH];
    intros acc t ip sp user rounds Hin.
  - left. exact Hin.
  - cbn [discover_loop] in Hin.
    destruct (Z.leb_spec lookup_timeout wait) as [Hw|Hw]; [by left|].
    destruct (Py.decode data) as [s|] eqn:Hd; [|by left].
    pose proof (decode_Some _ _ Hd) as ->.
    destruct (IH _ _ _ _ _ _ Hin) as [Hacc|(w & d & p & Hi & Hlt & Hdd & Hf)].
    + unfold add_server in Hacc.
      destruct (Py.split_comma data) as [|f1 [|f2 [|f3 [|f4 fs]]]] eqn:Hsp;
        try (by left).
      apply in_app_or in Hacc. destruct Hacc as [Hacc|Hnew]; [by left|].
      right. destruct Hnew as [Heq|[]]. injection Heq as <- <- <- <-.
      exists wait, data, port. repeat split; try done. by left.
    + right. exists w, d, p. repeat split; try done. by right.
  - cbn [discover_loop] in Hin.
    destruct (Z.leb_spec lookup_timeout wait); by left.
Qed.

Lemma discover_loop_length (env : list Arrival) :
  forall (acc : list Host) (t : Z),
    (length (available_servers (discover_loop env acc t))
     <= length acc + length env)%nat.
Proof.
  induction env as [|[wait data ip0 port|wait] rest IH]; intros acc t.
  - cbn. lia.
  - cbn [discover_loop length].
    destruct (lookup_timeout <=? wait); [cbn; lia|].
    destruct (Py.decode data) as [s|]; [|cbn; lia].
    specialize (IH (add_server ip0 (Py.split_comma s) acc) (t + wait)).
    assert (length (add_server ip0 (Py.split_comma s) acc)
            <= S (length acc))%nat.
    { unfold add_server.
      destruct (Py.split_comma s) as [|f1 [|f2 [|f3 [|f4 fs]]]];
        rewrite ?length_app; cbn; lia. }
    lia.
  - cbn [discover_loop length].
    destruct (lookup_timeout <=? wait); cbn; lia.
Qed.

(** X14. Only replies are listed. Every server that [discover_servers]
    returns was put together from a datagram that arrived before a
    receive timed out, that decodes, and that has exactly three
    comma-separated fields: the entry is the sender's address followed by
    those fields, unchanged. No more servers are listed than datagrams
    arrived. *)
Theorem listed_servers_are_replies (env : list Arrival) (a : App)
    (ip sp user rounds : string) :
  In (ip, sp, user, rounds)
     (available_servers (fst (discover_servers env a))) ->
  (exists wait data port,
      In (Arrives wait data ip port) env
      /\ wait < lookup_timeout
      /\ Py.decode data = Some data
      /\ Py.split_comma data = [sp; user; rounds])
  /\ (length (available_servers (fst (discover_servers env a)))
      <= length env)%nat.
Proof.
  unfold discover_servers.
  destruct (broadcast_address a); cbn [fst available_servers];
    [|intros []].
  intros Hin. split.
  - destruct (discover_loop_sound env [] 0 _ _ _ _ Hin) as [[]|H]. exact H.
  - exact (discover_loop_length env [] 0).
Qed.

Lemma listed_servers_are_replies_witness :
  (exists wait data port,
      In (Arrives wait data "192.168.1.10" port)
         [Arrives 100 "51515,bob,3" "192.168.1.10" 12121]
      /\ wait < lookup_timeout
      /\ Py.decode data = Some data
      /\ Py.split_comma data = ["51515"; "bob"; "3"])
  /\ (length (available_servers
                (fst (discover_servers
                        [Arrives 100 "51515,bob,3" "192.168.1.10" 12121]
                        lobby)))
      <= length [Arrives 100 "51515,bob,3" "192.168.1.10" 12121])%nat.
Proof.
  assert (H : In ("192.168.1.10", "51515", "bob", "3")
                (available_servers
                   (fst (discover_servers
                           [Arrives 100 "51515,bob,3" "192.168.1.10" 12121]
                           lobby))))
    by (vm_compute; left; reflexivity).
  exact (listed_servers_are_replies
           [Arrives 100 "51515,bob,3" "192.168.1.10" 12121] lobby
           "192.168.1.10" "51515" "bob" "3" H).
Defined.

(** *** One message, one branch *)

Lemma startswith_first (data : string) (c : ascii) (p : string) :
  Py.startswith data (String c p) = true -> exists r, data = String c r.
Proof.
  destruct data as [|d r]; cbn [Py.startswith]; [discriminate|].
  destruct (Ascii.eqb_spec c d) as [->|]; [|discriminate].
  intros _. by exists r.
Qed.

Lemma chat_is_not_game (data : string) :
  Py.startswith data "CHAT" = true -> Py.startswith data "GAME" = false.
Proof.
  intros H. apply startswith_first in H as [r ->]. reflexivity.
Qed.

(** X15. One message, one branch. The read loop tests a message against
    [DISCONNECT], [CHAT] and [GAME] with three separate [if]s, yet no
    message takes two branches: whatever the bytes received, one
    iteration schedules at most one callback, writes nothing to the
    screen or to a socket, and leaves the profile, the local choice and
    the round counters as they were. *)
Theorem one_message_one_callback (data : string) (a : App) :
  let a' := iter_state (read_body data a) in
  effects a' = effects a
  /\ user_profile a' = user_profile a
  /\ player_choice a' = player_choice a
  /\ current_round a' = current_round a
  /\ total_rounds a' = total_rounds a
  /\ exists cbs,
       pending a' = (pending a ++ cbs)%list /\ (length cbs <= 1)%nat.
Proof.
  cbv zeta. unfold read_body.
  destruct (String.eqb data "").
  { cbn. repeat (split; [reflexivity|]). exists []. rewrite app_nil_r.
    split; [reflexivity|cbn; lia]. }
  destruct (Py.startswith data "DISCONNECT").
  { destruct (Py.decode _) as [g|]; cbn;
      [destruct (String.eqb g "mid_game"); cbn|];
      repeat (split; [reflexivity|]);
      first [ eexists [_]; split; [reflexivity|cbn; lia]
            | exists []; rewrite app_nil_r; split; [reflexivity|cbn; lia] ]. }
  unfold on_chat.
  destruct (Py.startswith data "CHAT") eqn:Hc.
  - destruct (Py.decode _) as [m|]; cbn.
    + unfold on_game. rewrite (chat_is_not_game data Hc). cbn.
      repeat (split; [reflexivity|]). eexists [_]. split; [reflexivity|cbn; lia].
    + repeat (split; [reflexivity|]). exists []. rewrite app_nil_r. split; [reflexivity|cbn; lia].
  - unfold on_game.
    destruct (Py.startswith data "GAME");
      [destruct (Py.decode _) as [m|]; cbn;
       [destruct (Py.truthy_str (player_choice a)); cbn|]|cbn];
      repeat (split; [reflexivity|]);
      first [ eexists [_]; split; [reflexivity|cbn; lia]
            | exists []; rewrite app_nil_r; split; [reflexivity|cbn; lia] ].
Qed.

(** *** From the handshake to the first round *)

Lemma network_connected_run (peer_ip : string) (a : App) (p : Profile) :
  user_profile a = Some p ->
  exists a',
    network_connected peer_ip a = Done a'
    /\ game a' = (Some p, player_choice a, opponent_choice a, Some 1)
    /\ core a' = core a
    /\ pending a' = pending a.
Proof.
  intros Hp. unfold network_connected, update_lobby_state, update_game_state.
  cbn. rewrite Hp. eexists. split; [reflexivity|].
  unfold game, core. cbn. by rewrite Hp.
Qed.

(** X16. A session opens at round 1 on both sides. The host, hosting [t]
    rounds, has answered a request: [launch_server] runs, [Server.start]
    accepts the joiner's connection and [network_connected] runs. The
    joiner, who took [t] rounds from the host's lookup answer, gets a
    reply that starts with [ACK], connects, and [network_connected] runs.
    Then both sides are at the start of round 1 of [t] with their profiles
    untouched, nothing chosen and nothing scheduled, the host's worker
    alive with a client and the joiner's worker alive: the state from
    which a game is played. *)
Theorem session_opens_linked
    (h j : App) (ph pj : Profile) (t port : Z) (hip jip : string)
    (reply : Reply) :
  user_profile h = Some ph -> user_profile j = Some pj ->
  player_choice h = None -> opponent_choice h = None ->
  player_choice j = None -> opponent_choice j = None ->
  total_rounds h = Some t -> total_rounds j = Some t ->
  allow_gui_update h = true -> allow_gui_update j = true ->
  pending h = [] -> pending j = [] ->
  server_thread_alive j = false -> client_thread_alive j = true ->
  acknowledged reply = true ->
  linked 1 t ph pj
    (drain (Server_start (Some jip) (launch_server h)))
    (drain (Client_start hip port reply true j)).
Proof.
  intros Huh Huj Hph Hoh Hpj Hoj Hth Htj Hah Haj Hqh Hqj Hsj Hcj Hack.
  (* the host *)
  set (x := Server_start (Some jip) (launch_server h)).
  assert (Hx : pending x = [CbNetworkConnected jip]).
  { subst x. cbn. by rewrite Hqh. }
  destruct (network_connected_run jip (set_pending [] x) ph)
    as (h' & Hrun & Hg & Hk & Hq); [exact Huh|].
  rewrite (drain_one _ _ Hx). cbn [run_callback]. rewrite Hrun.
  cbn [state_of].
  (* the joiner *)
  destruct reply as [|response| |]; try discriminate Hack.
  cbn [acknowledged] in Hack.
  set (y := Client_start hip port (ReplyData response) true j).
  assert (Hy : y = after (CbNetworkConnected hip)
                     (emit (Close ClientUdpSocket)
                        (emit (SendTo ClientUdpSocket
                                 (connect_request hip pj) hip
                                 (broadcast_port j)) j))).
  { subst y. unfold Client_start. rewrite Huj, Hack. reflexivity. }
  assert (Hyq : pending y = [CbNetworkConnected hip]).
  { rewrite Hy. cbn. by rewrite Hqj. }
  destruct (network_connected_run hip (set_pending [] y) pj)
    as (j' & Hrun' & Hg' & Hk' & Hq'); [by rewrite Hy|].
  rewrite (drain_one _ _ Hyq). cbn [run_callback]. rewrite Hrun'.
  cbn [state_of].
  apply (linked_intro 1 t ph pj h' j' (client_thread_alive h)
           (client_connected j)).
  - rewrite Hg. subst x. cbn. by rewrite Hph, Hoh.
  - rewrite Hg', Hy. cbn. by rewrite Hpj, Hoj.
  - exact Hq.
  - exact Hq'.
  - rewrite Hk. subst x. unfold core. cbn. by rewrite Hth, Hah.
  - rewrite Hk', Hy. unfold core. cbn. by rewrite Htj, Haj, Hsj, Hcj.
Qed.

Lemma session_opens_linked_witness :
  linked 1 3 bob amy
    (drain (Server_start (Some "192.168.1.11")
              (launch_server hosting)))
    (drain (Client_start "192.168.1.10" 51515 (ReplyData "ACK") true
              (set_current_round None (joiner_session 3)))).
Proof.
  exact (session_opens_linked hosting
           (set_current_round None (joiner_session 3)) bob amy 3 51515
           "192.168.1.10" "192.168.1.11" (ReplyData "ACK")
           eq_refl eq_refl eq_refl eq_refl eq_refl eq_refl eq_refl eq_refl
           eq_refl eq_refl eq_refl eq_refl eq_refl eq_refl eq_refl).
Defined.

(** *** Two messages in one read *)

(** X17. Two messages in one read. In the last round, when the joiner
    chose first, the host's choice resolves the round on the host, which
    sends [GAME<choice>] and [DISCONNECTgame_complete] one after the
    other. When the joiner's next [recv] returns both at once, the joiner
    takes everything after [GAME] for the host's choice: its
    [determine_results] raises [KeyError], so nothing is shown and its
    last round is not booked, although the host has booked it; the
    [DISCONNECT] is never seen, so the joiner's worker stays in its loop
    with the round counter where it was and the socket open. *)
Theorem glued_last_round
    (lh lj : Choice) (t : Z) (ph pj : Profile) (h j : App) :
  user_profile h = Some ph ->
  current_round h = Some t -> total_rounds h = Some t ->
  opponent_choice h = Some (choice_name lj) ->
  server_thread_alive h = true -> client_connected h = true ->
  user_profile j = Some pj ->
  player_choice j = Some (choice_name lj) ->
  client_thread_alive j = true ->
  pending j = [] ->
  let h' := state_of (event_rps_chosen (choice_name lh) h) in
  let glued := written ServerClientSocket (new_effects h h') in
  let j' := drain (Client_loop (reads glued) j) in
  user_profile h' = Some (round_result lh lj ph)
  /\ glued = "GAME" ++ choice_name lh ++ "DISCONNECTgame_complete"
  /\ user_profile j' = Some pj
  /\ opponent_choice j'
     = Some (choice_name lh ++ "DISCONNECTgame_complete")
  /\ current_round j' = current_round j
  /\ client_thread_alive j' = true
  /\ pending j' = []
  /\ effects j' = effects j.
Proof.
  intros Huh Hch Hth Hoh Hsh Hcch Huj Hpj Hcj Hqj h' glued j'.
  (* the host *)
  assert (Hh : user_profile h' = Some (round_result lh lj ph)
               /\ effects h'
                  = (effects h
                     ++ [RpsButton "disabled";
                         Send ServerClientSocket ("GAME" ++ choice_name lh);
                         ProfileStats (wins (round_result lh lj ph))
                           (loses (round_result lh lj ph))
                           (ties (round_result lh lj ph));
                         MainTextbox (TxtAscii (Some (choice_name lh))
                                        (Some (choice_name lj)))
                           "system_chat";
                         Send ServerClientSocket
                           "DISCONNECTgame_complete"])%list).
  { subst h'. unfold event_rps_chosen.
    set (a2 := set_player_choice (Some (choice_name lh))
                 (emit (RpsButton "disabled") h)).
    destruct (send_to_peer_run ("GAME" ++ Py.encode (choice_name lh)) a2)
      as (He & Hcore & Hpend & Hgame & _).
    set (a3 := send_to_peer ("GAME" ++ Py.encode (choice_name lh)) a2) in *.
    assert (Hsend : peer_send ("GAME" ++ Py.encode (choice_name lh)) a2
                    = [Send ServerClientSocket ("GAME" ++ choice_name lh)]).
    { unfold peer_send. change (server_thread_alive a2)
        with (server_thread_alive h). by rewrite Hsh. }
    rewrite Hsend in He.
    apply game_eq in Hgame. destruct Hgame as (Hu3 & Hl3 & Ho3 & Hc3).
    apply core_eq in Hcore. destruct Hcore as (Ht3 & _ & Hs3 & _ & Hcc3).
    subst a2. cbn in Hu3, Hl3, Ho3, Hc3, Ht3, Hs3, Hcc3, He.
    rewrite Ho3, Hoh, truthy_choice.
    destruct (determine_results_ok a3 (choice_code lh) (choice_code lj) t t ph)
      as (a' & Hrun & Hp' & _ & _ & _ & _ & Hlast);
      [rewrite Hl3; apply choices_at_name
      |rewrite Ho3, Hoh; apply choices_at_name
      |congruence|congruence|congruence|].
    destruct Hlast as (_ & _ & _ & He'); [lia|].
    rewrite Hrun. cbn [state_of]. rewrite scored_rules in Hp', He'.
    split; [exact Hp'|].
    rewrite He', He, Hl3, Ho3, Hoh. unfold game_complete_close.
    rewrite Hs3, Hcc3, Hsh, Hcch. rewrite <- !app_assoc. reflexivity. }
  destruct Hh as [Hp' He'].
  assert (Hg : glued = "GAME" ++ choice_name lh ++ "DISCONNECTgame_complete").
  { subst glued. rewrite (new_effects_adds _ _ _ He').
    destruct lh; reflexivity. }
  split; [exact Hp'|]. split; [exact Hg|].
  (* the joiner *)
  subst j'. rewrite Hg.
  assert (Hr : reads ("GAME" ++ choice_name lh ++ "DISCONNECTgame_complete")
               = [RecvData ("GAME" ++ (choice_name lh
                                       ++ "DISCONNECTgame_complete"))])
    by (destruct lh; vm_compute; reflexivity).
  assert (Hd : Py.decode (choice_name lh ++ "DISCONNECTgame_complete")
               = Some (choice_name lh ++ "DISCONNECTgame_complete"))
    by (destruct lh; vm_compute; reflexivity).
  assert (Hk : choices_at (Some (choice_name lh ++ "DISCONNECTgame_complete"))
               = None)
    by (destruct lh; vm_compute; reflexivity).
  rewrite Hr, (Client_loop_one _ _ Hcj).
  destruct (on_recv_game _ j Hd) as [_ Hrecv].
  rewrite Hpj, truthy_choice in Hrecv. rewrite Hrecv.
  set (x := after CbDetermineResults _).
  assert (Hx : pending x = [CbDetermineResults]).
  { subst x. cbn. by rewrite Hqj. }
  rewrite (drain_one _ _ Hx). cbn [run_callback].
  assert (Hraise : determine_results (set_pending [] x)
                   = Raised KeyError (set_pending [] x)).
  { unfold determine_results.
    change (player_choice (set_pending [] x)) with (player_choice j).
    change (opponent_choice (set_pending [] x))
      with (Some (choice_name lh ++ "DISCONNECTgame_complete")).
    by rewrite Hpj, choices_at_name, Hk. }
  rewrite Hraise. cbn [state_of]. subst x. cbn.
  rewrite Huj, Hcj. repeat split.
Qed.

(** The last of three rounds: amy chose Scissors first, bob answers Rock. *)
Lemma glued_last_round_witness :
  let h := set_opponent_choice (Some "Scissors") (host_at_round 3 3) in
  let j := set_player_choice (Some "Scissors")
             (set_current_round (Some 3) (joiner_session 3)) in
  let h' := state_of (event_rps_chosen "Rock" h) in
  let j' := drain (Client_loop
                     (reads (written ServerClientSocket (new_effects h h')))
                     j) in
  user_profile h' = Some (mkProfile "bob" 11 4 2)
  /\ user_profile j' = Some amy
  /\ client_thread_alive j' = true.
Proof.
  cbv zeta.
  destruct (glued_last_round Rock Scissors 3 bob amy
              (set_opponent_choice (Some "Scissors") (host_at_round 3 3))
              (set_player_choice (Some "Scissors")
                 (set_current_round (Some 3) (joiner_session 3)))
              eq_refl eq_refl eq_refl eq_refl eq_refl eq_refl
              eq_refl eq_refl eq_refl eq_refl)
    as (H1 & _ & H2 & _ & _ & H3 & _).
  split; [exact H1|]. split; [exact H2|exact H3].
Defined.
